(** * Tenlixor SDK: a shallow embedding of the translation client engine

    Source: [sdk/typescript/src/tenlixor.ts] (class [Tenlixor]) and
    [sdk/typescript/src/types.ts] (the interfaces).

    - JavaScript objects used as dictionaries ([data.languages], the
      per-language key/value tables, element attributes, [localStorage], the
      in-memory [Map]) are finite maps with string keys: the map holds the
      own properties.  For the two kinds of plain objects, [data.languages]
      and the key/value tables, module [Plain] adds what a read that finds
      no own property meets on the prototype and what an assignment to
      [__proto__] does.  Numbers that the code only uses as integer
      milliseconds are in [Z].
    - A method is a state transformer on a machine (the engine and its
      host) that returns or throws.  An [async] method runs to completion:
      an [await] is the point where the host answers, and calls are not
      interleaved.
    - The host gives the clock, [localStorage] (absent, or a map whose items
      parse or not, and whose [setItem] may throw), the answer of [fetch]
      for each language code, the document, and whether each registered
      callback returns or throws; it records the requests, the emitted
      events, the calls of callbacks and the console messages in order.
    - The document is a tree of text, element and comment nodes; the
      in-place writes of the scanner are functional updates of that tree.
    - A string is the UTF-8 encoding of the JavaScript string. *)

From Stdlib Require Import ZArith Lia Ascii String DecimalString.
From stdpp Require Import gmap strings list fin_maps.

Local Open Scope string_scope.
Set Warnings "-register-all,-clear-no-such-hyp".

(** ** JavaScript values the engine inspects *)

Module Js.

(** Truthiness of a string: only the empty string is falsy. *)
Definition truthy (s : string) : bool :=
  match s with
  | EmptyString => false
  | String _ _ => true
  end.

(** Truthiness of a number (no NaN in the model): only 0 is falsy. *)
Definition truthyNum (n : Z) : bool := negb (n =? 0)%Z.

(** [o || d] for an optional string [o]. *)
Definition orString (o : option string) (d : string) : string :=
  match o with
  | Some s => if truthy s then s else d
  | None => d
  end.

(** [o || d] for an optional number [o]. *)
Definition orNum (o : option Z) (d : Z) : Z :=
  match o with
  | Some n => if truthyNum n then n else d
  | None => d
  end.

(** [o !== false] for an optional boolean [o]. *)
Definition notFalse (o : option bool) : bool :=
  match o with
  | Some false => false
  | _ => true
  end.

(** A thrown value: an [Error] instance with its message, or anything else. *)
Inductive Thrown : Type :=
| Error (message : string)
| NonError (shown : string).

(** [error instanceof Error ? error.message : 'Unknown error'] *)
Definition messageOf (e : Thrown) : string :=
  match e with
  | Error m => m
  | NonError _ => "Unknown error"
  end.

(** [error instanceof Error ? error : undefined] *)
Definition errorOf (e : Thrown) : option Thrown :=
  match e with
  | Error _ => Some e
  | NonError _ => None
  end.

(** The completion of a call: a normal return or a throw. *)
Inductive Completion (A : Type) : Type :=
| Return (a : A)
| Throw (e : Thrown).
Arguments Return {A} a.
Arguments Throw {A} e.

End Js.

(** ** The interfaces of [types.ts] *)

(** [TenlixorConfig]: every field as the caller may pass it.  The two
    required fields are optional here because the constructor itself tests
    them ([!config.token]). *)
Record TenlixorConfig : Type := {
  token : option string;
  tenantSlug : option string;
  language : option string;
  apiUrl : option string;
  cache : option bool;
  cacheTTL : option Z;
  fallbackLanguage : option string;
  autoScan : option bool
}.

(** [Required<TenlixorConfig>], the type of [this.config]. *)
Record RequiredConfig : Type := {
  config_token : string;
  config_tenantSlug : string;
  config_language : string;
  config_apiUrl : string;
  config_cache : bool;
  config_cacheTTL : Z;
  config_fallbackLanguage : string;
  config_autoScan : bool
}.

(** [TenlixorResource]; only [key] and [value] are read by the engine. *)
Record TenlixorResource : Type := {
  key : string;
  value : string
}.

(** [TenlixorLanguage]; [resources] may be missing in a payload, which
    [mergeData] guards against. *)
Record TenlixorLanguage : Type := {
  code : string;
  resources : option (list TenlixorResource)
}.

(** [TenlixorResponseData]; a falsy [tenant_id] is the empty string, and
    [languages] may be missing, which [mergeData] guards against. *)
Record TenlixorResponseData : Type := {
  tenant_id : string;
  languages : option (list TenlixorLanguage)
}.

(** [TenlixorResponse]; [meta] and [request_id] are never read. *)
Record TenlixorResponse : Type := {
  success : bool;
  data : TenlixorResponseData
}.

(** [TenlixorDataStore], the type of [this.data]. *)
Record TenlixorDataStore : Type := {
  store_tenant_id : option string;
  store_languages : gmap string (gmap string string)
}.

(** [TenlixorCacheEntry] *)
Record TenlixorCacheEntry : Type := {
  timestamp : Z;
  entry_data : TenlixorResponseData
}.

(** [TenlixorEventType] *)
Inductive TenlixorEventType : Type :=
| loaded
| error
| language_changed.

(** The three event payloads ([TenlixorLoadedEvent], [TenlixorErrorEvent],
    [TenlixorLanguageChangedEvent]). *)
Inductive EventData : Type :=
| LoadedEvent (lang : string) (reloaded : bool)
| ErrorEvent (errcode : string) (message : string) (err : option Js.Thrown)
| LanguageChangedEvent (from to : string).

(** A callback is known by its identity (what [cb !== callback] compares). *)
Definition TenlixorEventHandler : Type := nat.

(** [TenlixorEventListeners] *)
Record TenlixorEventListeners : Type := {
  on_loaded : list TenlixorEventHandler;
  on_error : list TenlixorEventHandler;
  on_language_changed : list TenlixorEventHandler
}.

(** ** The class [Tenlixor]: its fields *)

Record Tenlixor : Type := {
  config : RequiredConfig;
  this_data : TenlixorDataStore;
  listeners : TenlixorEventListeners;
  isInitialized : bool;
  currentLanguage : string;
  isLoading : bool;
  memoryCache : gmap string TenlixorCacheEntry
}.

(** ** The constructor *)

Definition defaultApiUrl : string :=
  "https://api-tenlixor.verbytes.com/api/v1/strings".

(** [!o] for an optional string [o]. *)
Definition falsy (o : option string) : bool :=
  match o with
  | Some s => negb (Js.truthy s)
  | None => true
  end.

(** The object assigned to [this.config]; past the two guards of the
    constructor, [token] and [tenantSlug] are the non-empty strings given. *)
Definition resolveConfig (c : TenlixorConfig) : RequiredConfig :=
  {| config_token := Js.orString (token c) "";
     config_tenantSlug := Js.orString (tenantSlug c) "";
     config_language := Js.orString (language c) "en";
     config_apiUrl := Js.orString (apiUrl c) defaultApiUrl;
     config_cache := Js.notFalse (cache c);
     config_cacheTTL := Js.orNum (cacheTTL c) 300000;
     config_fallbackLanguage := Js.orString (fallbackLanguage c) "en";
     config_autoScan := Js.notFalse (autoScan c) |}.

Definition constructor (c : TenlixorConfig) : Js.Completion Tenlixor :=
  if falsy (token c) then
    Js.Throw (Js.Error "Tenlixor: API token is required")
  else if falsy (tenantSlug c) then
    Js.Throw (Js.Error "Tenlixor: tenantSlug is required")
  else
    let cfg := resolveConfig c in
    Js.Return
      {| config := cfg;
         this_data := {| store_tenant_id := None; store_languages := ∅ |};
         listeners := {| on_loaded := []; on_error := [];
                         on_language_changed := [] |};
         isInitialized := false;
         currentLanguage := config_language cfg;
         isLoading := false;
         memoryCache := ∅ |}.

(** ** [mergeData]

    Here and in [t] the two kinds of tables are taken through their own
    properties; module [Plain] below follows the same reads and writes
    through the prototype. *)

(** The inner [forEach]: [keyValueMap[resource.key] = resource.value]. *)
Definition keyValueMap (rs : option (list TenlixorResource))
  : gmap string string :=
  match rs with
  | Some l => foldl (fun m r => <[key r := value r]> m) ∅ l
  | None => ∅
  end.

(** The outer [forEach]: [this.data.languages[lang.code] = keyValueMap]. *)
Definition mergeLanguages (langs : list TenlixorLanguage)
    (tbl : gmap string (gmap string string))
  : gmap string (gmap string string) :=
  foldl (fun t lang => <[code lang := keyValueMap (resources lang)]> t)
        tbl langs.

Definition mergeData (d : TenlixorResponseData) (s : TenlixorDataStore)
  : TenlixorDataStore :=
  match languages d with
  | Some langs =>
      {| store_tenant_id := store_tenant_id s;
         store_languages := mergeLanguages langs (store_languages s) |}
  | None => s
  end.

(** ** [t] *)

(** [tbl[lang] && tbl[lang][key]], as the value when truthy. *)
Definition truthyEntry (tbl : gmap string (gmap string string))
    (lang k : string) : option string :=
  match tbl !! lang with
  | Some m =>
      match m !! k with
      | Some v => if Js.truthy v then Some v else None
      | None => None
      end
  | None => None
  end.

(** [languageCode || this.currentLanguage] *)
Definition effectiveLanguage (self : Tenlixor) (languageCode : option string)
  : string :=
  Js.orString languageCode (currentLanguage self).

Definition t (self : Tenlixor) (k : string) (languageCode : option string)
  : string :=
  let lang := effectiveLanguage self languageCode in
  let tbl := store_languages (this_data self) in
  match truthyEntry tbl lang k with
  | Some v => v
  | None =>
      if bool_decide (lang <> config_fallbackLanguage (config self)) then
        match truthyEntry tbl (config_fallbackLanguage (config self)) k with
        | Some v => v
        | None => k
        end
      else k
  end.

(** ** The tables as plain objects

    [this.data.languages] and the key/value map of each language are plain
    objects, created by [{}]: a read [o[name]] that finds no own property
    goes on to the prototype, and the assignment [o["__proto__"] = v] runs
    the setter inherited from [Object.prototype] instead of creating a
    property.  This module follows the reads and writes of [mergeData], [t]
    and [getAvailableLanguages] property by property.  [store_languages],
    [mergeData] and [t] above are these objects seen through their own
    properties, which is what they are as long as no name involved is one
    that [Object.prototype] defines.

    [Object.prototype] is the one the language specifies, with writable
    data properties and the accessor [__proto__]; its members are named,
    not described.  The values of resources are strings, as [types.ts]
    declares them. *)

Module Plain.

(** The string-named members of [Object.prototype]. *)
Definition objectPrototype : list string :=
  [ "constructor"; "__defineGetter__"; "__defineSetter__"; "hasOwnProperty";
    "__lookupGetter__"; "__lookupSetter__"; "isPrototypeOf";
    "propertyIsEnumerable"; "toString"; "valueOf"; "__proto__";
    "toLocaleString" ].

Definition inherited (name : string) : bool :=
  bool_decide (name ∈ objectPrototype).

(** [this.data.languages]: its own properties, each a key/value map, and
    the key/value map that has taken the place of its prototype, if one
    has. *)
Record Languages : Type := {
  own : gmap string (gmap string string);
  prototype : option (gmap string string)
}.

(** What a read gives: a value of the kind the engine stores there,
    nothing ([undefined], or an empty string where a table is expected), or
    another value.  For the two single reads below that is a member of
    [Object.prototype], [Object.prototype] itself, or a non-empty string
    where a table is expected: a truthy value. *)
Inductive Read (A : Type) : Type :=
| Found (a : A)
| Nothing
| Other.

Arguments Found {A} a.
Arguments Nothing {A}.
Arguments Other {A}.

(** [keyValueMap[name]] for a key/value map with the own properties
    [tbl]. *)
Definition readKey (tbl : gmap string string) (name : string)
  : Read string :=
  match tbl !! name with
  | Some v => Found v
  | None => if inherited name then Other else Nothing
  end.

(** [this.data.languages[name]].  Past the own properties the read meets
    the own properties of the map that replaced the prototype, which are
    strings, and then [Object.prototype], whose getter [__proto__] gives the
    prototype of [this.data.languages]. *)
Definition readLanguage (l : Languages) (name : string)
  : Read (gmap string string) :=
  match own l !! name with
  | Some tbl => Found tbl
  | None =>
      match prototype l with
      | Some p =>
          match p !! name with
          | Some v => if Js.truthy v then Other else Nothing
          | None =>
              if bool_decide (name = "__proto__") then Found p
              else if inherited name then Other else Nothing
          end
      | None => if inherited name then Other else Nothing
      end
  end.

(** [languages[lang] && languages[lang][key]].  When [languages[lang]] is
    another value, what the read of its member gives, and whether it
    returns, is not described: the result is [Other]. *)
Definition lookup (l : Languages) (lang k : string) : Read string :=
  match readLanguage l lang with
  | Found tbl => readKey tbl k
  | Nothing => Nothing
  | Other => Other
  end.

(** What [t] does: it returns a string of the tables or the key, or the
    outcome is left to a value that is not the engine's: [t] returns the
    member of [Object.prototype] it has read, or what the read of a member
    of such a value gives or throws. *)
Inductive Resolution : Type :=
| Returns (v : string)
| Escapes.

(** One [if] of [t]: the entry when it is truthy. *)
Definition entry (l : Languages) (lang k : string)
    (otherwise : Resolution) : Resolution :=
  match lookup l lang k with
  | Found v => if Js.truthy v then Returns v else otherwise
  | Nothing => otherwise
  | Other => Escapes
  end.

(** [t(key, languageCode?)], reading [this.data.languages],
    [this.currentLanguage] and [this.config.fallbackLanguage]. *)
Definition t (l : Languages) (currentLanguage fallbackLanguage : string)
    (k : string) (languageCode : option string) : Resolution :=
  let lang := Js.orString languageCode currentLanguage in
  entry l lang k
    (if bool_decide (lang <> fallbackLanguage)
     then entry l fallbackLanguage k (Returns k)
     else Returns k).

(** [keyValueMap[resource.key] = resource.value]: the setter [__proto__]
    ignores a string; any other name becomes an own property. *)
Definition assign (name v : string) (tbl : gmap string string)
  : gmap string string :=
  if bool_decide (name = "__proto__") then tbl else <[name := v]> tbl.

(** The inner [forEach] of [mergeData]. *)
Definition keyValueMap (rs : option (list TenlixorResource))
  : gmap string string :=
  match rs with
  | Some rs => foldl (fun tbl r => assign (key r) (value r) tbl) ∅ rs
  | None => ∅
  end.

(** [this.data.languages[lang.code] = keyValueMap]: the setter [__proto__]
    makes the map the prototype of [this.data.languages]; any other code
    becomes an own property. *)
Definition assignLanguage (lang : TenlixorLanguage) (l : Languages)
  : Languages :=
  let tbl := keyValueMap (resources lang) in
  if bool_decide (code lang = "__proto__")
  then {| own := own l; prototype := Some tbl |}
  else {| own := <[code lang := tbl]> (own l); prototype := prototype l |}.

(** [mergeData(data)] *)
Definition mergeData (d : TenlixorResponseData) (l : Languages)
  : Languages :=
  match languages d with
  | Some langs => foldl (fun l lang => assignLanguage lang l) l langs
  | None => l
  end.

(** [getAvailableLanguages()]: [Object.keys] lists the own properties; the
    order of the array is not modelled. *)
Definition getAvailableLanguages (l : Languages) : gset string :=
  dom (own l).

(** [this.data.languages] of an engine whose prototype has not been
    replaced. *)
Definition languagesOf (self : Tenlixor) : Languages :=
  {| own := store_languages (this_data self); prototype := None |}.

End Plain.

(** ** The document tree the scanner rewrites *)

Module Dom.

(** A node of the rendered tree.  [tagName] is kept as the DOM reports it
    (upper case for HTML elements); attributes are a map from name to
    value. *)
Inductive Node : Type :=
| Text (textContent : string)
| Element (tagName : string) (attributes : gmap string string)
          (childNodes : list Node)
| Comment (text : string).

Inductive ReadyState : Type :=
| loading
| interactive
| complete.

(** [document]: its [readyState] and its [documentElement]. *)
Record Document : Type := {
  readyState : ReadyState;
  documentElement : Node
}.

(** [String.prototype.toLowerCase] on the ASCII letters. *)
Definition lowerAscii (c : ascii) : ascii :=
  let n := nat_of_ascii c in
  if (65 <=? n)%nat && (n <=? 90)%nat then ascii_of_nat (n + 32) else c.

Fixpoint toLowerCase (s : string) : string :=
  match s with
  | EmptyString => EmptyString
  | String c r => String (lowerAscii c) (toLowerCase r)
  end.

(** The white space and line terminators that [trim] strips.  A string is
    the UTF-8 encoding of the JavaScript string, so a character takes one
    to three bytes here: tab, line feed, vertical tab, form feed, carriage
    return and space; U+00A0; U+1680, U+2000 to U+200A, U+2028, U+2029,
    U+202F, U+205F, U+3000 and U+FEFF. *)
Definition isWhiteSpace (c : ascii) : bool :=
  let n := nat_of_ascii c in
  ((9 <=? n)%nat && (n <=? 13)%nat) || (n =? 32)%nat.

Definition isWhiteSpace2 (c1 c2 : ascii) : bool :=
  (nat_of_ascii c1 =? 194)%nat && (nat_of_ascii c2 =? 160)%nat.

Definition isWhiteSpace3 (c1 c2 c3 : ascii) : bool :=
  let a := nat_of_ascii c1 in
  let b := nat_of_ascii c2 in
  let c := nat_of_ascii c3 in
  ((a =? 225) && (b =? 154) && (c =? 128))%nat
  || ((a =? 226) && (b =? 128)
      && (((128 <=? c) && (c <=? 138)) || (c =? 168) || (c =? 169)
          || (c =? 175)))%nat
  || ((a =? 226) && (b =? 129) && (c =? 159))%nat
  || ((a =? 227) && (b =? 128) && (c =? 128))%nat
  || ((a =? 239) && (b =? 187) && (c =? 191))%nat.

Fixpoint trimStart (s : string) : string :=
  match s with
  | EmptyString => EmptyString
  | String c1 r1 =>
      if isWhiteSpace c1 then trimStart r1
      else
        match r1 with
        | EmptyString => s
        | String c2 r2 =>
            if isWhiteSpace2 c1 c2 then trimStart r2
            else
              match r2 with
              | EmptyString => s
              | String c3 r3 =>
                  if isWhiteSpace3 c1 c2 c3 then trimStart r3 else s
              end
        end
  end.

(** Drops the trailing white space: a byte is dropped when nothing but
    white space follows from it on. *)
Fixpoint trimEnd (s : string) : string :=
  match s with
  | EmptyString => EmptyString
  | String c r =>
      match trimStart s with
      | EmptyString => EmptyString
      | _ => String c (trimEnd r)
      end
  end.

(** [String.prototype.trim] *)
Definition trim (s : string) : string := trimEnd (trimStart s).

(** The setter of [element.textContent]: every child is replaced by one
    text node, or by nothing when the string is empty. *)
Definition setTextContent (v : string) : list Node :=
  if Js.truthy v then [Text v] else [].

Definition hasAttribute (name : string) (attrs : gmap string string) : bool :=
  bool_decide (is_Some (attrs !! name)).

(** [document.body]: the first child of the [html] root that is a [body]
    or a [frameset] element. *)
Definition isBody (n : Node) : bool :=
  match n with
  | Element tg _ _ =>
      let tg := toLowerCase tg in
      bool_decide (tg = "body") || bool_decide (tg = "frameset")
  | _ => false
  end.

Definition isHtml (tg : string) : bool :=
  bool_decide (toLowerCase tg = "html").

Definition body (d : Document) : option Node :=
  match documentElement d with
  | Element tg _ cs => if isHtml tg then List.find isBody cs else None
  | _ => None
  end.

(** In-place mutation of the subtree at [document.body], written back into
    the list of the root's children. *)
Fixpoint onBody (f : Node -> Node) (cs : list Node) : list Node :=
  match cs with
  | [] => []
  | c :: rest => if isBody c then f c :: rest else c :: onBody f rest
  end.

End Dom.

(** ** [scan] on a document *)

Definition attr_key : string := "data-txr-key".
Definition attr_resolved : string := "data-txr-resolved".
Definition attr_lang : string := "data-txr-lang".

(** The body of the [forEach] over [querySelectorAll('[data-txr-key]')],
    for one element: [Some] of the new attributes and text when one of the
    two branches writes, [None] when the element is left alone. *)
Definition translateElement (self : Tenlixor) (lang : string)
    (attrs : gmap string string)
  : option (gmap string string * string) :=
  match attrs !! attr_key with
  | Some k =>
      if Js.truthy k && negb (Dom.hasAttribute attr_resolved attrs) then
        Some (<[attr_lang := lang]> (<[attr_resolved := "true"]> attrs),
              t self k (Some lang))
      else if Js.truthy k && bool_decide (attrs !! attr_lang <> Some lang) then
        Some (<[attr_lang := lang]> attrs, t self k (Some lang))
      else None
  | None => None
  end.

(** The attribute pass.  The node list of [querySelectorAll] is static and in
    document order, and each element is treated by its own attributes alone;
    writing [textContent] detaches the element's former descendants, so what
    the loop later does to them cannot be seen in the tree.  The traversal
    below visits the elements in the same order and drops the detached
    ones. *)
Fixpoint attributePass (self : Tenlixor) (lang : string) (n : Dom.Node)
  : Dom.Node :=
  match n with
  | Dom.Element tg attrs cs =>
      match translateElement self lang attrs with
      | Some (attrs', v) => Dom.Element tg attrs' (Dom.setTextContent v)
      | None => Dom.Element tg attrs (List.map (attributePass self lang) cs)
      end
  | _ => n
  end.

(** What the text pass writes on [node.parentElement]. *)
Definition markParent (lang text : string) (attrs : gmap string string)
  : gmap string string :=
  <[attr_lang := lang]>
    (<[attr_key := text]> (<[attr_resolved := "true"]> attrs)).

Definition skippedTag (tg : string) : bool :=
  let tagName := Dom.toLowerCase tg in
  bool_decide (tagName = "script") || bool_decide (tagName = "style")
  || bool_decide (tagName = "noscript").

(** [text && this.data.languages[lang] && this.data.languages[lang][text]] *)
Definition matchesKey (self : Tenlixor) (lang text : string) : bool :=
  Js.truthy text
  && bool_decide (is_Some (truthyEntry (store_languages (this_data self))
                                       lang text)).

(** [scanTextNodes(node, lang)].  The attributes of [node.parentElement] are
    threaded through, since a matching text node writes the three markers on
    its parent while the parent's [forEach] over its children goes on. *)
Fixpoint scanTextNodes (self : Tenlixor) (lang : string) (node : Dom.Node)
    (parent : gmap string string) : Dom.Node * gmap string string :=
  match node with
  | Dom.Text content =>
      let text := Dom.trim content in
      if matchesKey self lang text then
        (Dom.Text (t self text (Some lang)), markParent lang text parent)
      else (node, parent)
  | Dom.Element tg attrs cs =>
      if Dom.hasAttribute attr_resolved attrs then (node, parent)
      else if skippedTag tg then (node, parent)
      else
        let '(cs', attrs') :=
          (fix forEach (l : list Dom.Node) (a : gmap string string)
             : list Dom.Node * gmap string string :=
             match l with
             | [] => ([], a)
             | child :: rest =>
                 let '(child', a1) := scanTextNodes self lang child a in
                 let '(rest', a2) := forEach rest a1 in
                 (child' :: rest', a2)
             end) cs attrs in
        (Dom.Element tg attrs' cs', parent)
  | Dom.Comment _ => (node, parent)
  end.

(** The two passes of [scan] once its guard has passed. *)
Definition scanDocument (self : Tenlixor) (d : Dom.Document) : Dom.Document :=
  let lang := currentLanguage self in
  match attributePass self lang (Dom.documentElement d) with
  | Dom.Element tg attrs cs =>
      {| Dom.readyState := Dom.readyState d;
         Dom.documentElement :=
           if Dom.isHtml tg then
             Dom.Element tg attrs
               (Dom.onBody (fun b => fst (scanTextNodes self lang b attrs)) cs)
           else Dom.Element tg attrs cs |}
  | root => {| Dom.readyState := Dom.readyState d;
               Dom.documentElement := root |}
  end.

(** ** The environment of an engine *)

(** An item of [localStorage]: either the text [JSON.stringify] produced for
    a cache entry, which [JSON.parse] turns back into that entry, or any
    other text, on which [JSON.parse] throws. *)
Inductive StoredItem : Type :=
| Json (entry : TenlixorCacheEntry)
| Raw (text : string).

(** [localStorage]: its items, and whether [setItem] throws (quota). *)
Record Storage : Type := {
  items : gmap string StoredItem;
  quotaExceeded : bool
}.

(** What [fetch] does for a request: the promise rejects, or a response
    arrives with its status and the completion of [response.json()]. *)
Inductive FetchResult : Type :=
| NetworkError (e : Js.Thrown)
| Response (status : Z) (statusText : string)
           (json : Js.Completion TenlixorResponse).

(** What an operation does to the outside, in the order it happens. *)
Inductive Effect : Type :=
| Fetched (languageCode : string)
| Emitted (event : TenlixorEventType) (payload : EventData)
| Called (cb : TenlixorEventHandler) (payload : EventData)
| ConsoleWarn (msg : string)
| ConsoleError (msg : string)
| DomContentLoadedListener.

(** The host: clock, storage, network, the behaviour of the registered
    callbacks (return or throw), the document when there is one, and the
    effects so far.  The request of [fetchStrings] is determined by the
    configuration and the language code, so [fetch] is indexed by the
    latter. *)
Record World : Type := {
  now : Z;
  localStorage : option Storage;
  fetch : string -> FetchResult;
  fetchTime : Z;
  callback : TenlixorEventHandler -> EventData -> option Js.Thrown;
  document : option Dom.Document;
  effects : list Effect
}.

Record Machine : Type := {
  self : Tenlixor;
  world : World
}.

(** Field updates. *)
Definition set_data (d : TenlixorDataStore) (s : Tenlixor) : Tenlixor :=
  {| config := config s; this_data := d; listeners := listeners s;
     isInitialized := isInitialized s; currentLanguage := currentLanguage s;
     isLoading := isLoading s; memoryCache := memoryCache s |}.

Definition set_listeners (l : TenlixorEventListeners) (s : Tenlixor)
  : Tenlixor :=
  {| config := config s; this_data := this_data s; listeners := l;
     isInitialized := isInitialized s; currentLanguage := currentLanguage s;
     isLoading := isLoading s; memoryCache := memoryCache s |}.

Definition set_isInitialized (b : bool) (s : Tenlixor) : Tenlixor :=
  {| config := config s; this_data := this_data s; listeners := listeners s;
     isInitialized := b; currentLanguage := currentLanguage s;
     isLoading := isLoading s; memoryCache := memoryCache s |}.

Definition set_currentLanguage (l : string) (s : Tenlixor) : Tenlixor :=
  {| config := config s; this_data := this_data s; listeners := listeners s;
     isInitialized := isInitialized s; currentLanguage := l;
     isLoading := isLoading s; memoryCache := memoryCache s |}.

Definition set_isLoading (b : bool) (s : Tenlixor) : Tenlixor :=
  {| config := config s; this_data := this_data s; listeners := listeners s;
     isInitialized := isInitialized s; currentLanguage := currentLanguage s;
     isLoading := b; memoryCache := memoryCache s |}.

Definition set_memoryCache (c : gmap string TenlixorCacheEntry) (s : Tenlixor)
  : Tenlixor :=
  {| config := config s; this_data := this_data s; listeners := listeners s;
     isInitialized := isInitialized s; currentLanguage := currentLanguage s;
     isLoading := isLoading s; memoryCache := c |}.

Definition set_tenant_id (i : string) (d : TenlixorDataStore)
  : TenlixorDataStore :=
  {| store_tenant_id := Some i; store_languages := store_languages d |}.

Definition set_now (n : Z) (w : World) : World :=
  {| now := n; localStorage := localStorage w; fetch := fetch w;
     fetchTime := fetchTime w; callback := callback w;
     document := document w; effects := effects w |}.

Definition set_localStorage (l : option Storage) (w : World) : World :=
  {| now := now w; localStorage := l; fetch := fetch w;
     fetchTime := fetchTime w; callback := callback w;
     document := document w; effects := effects w |}.

Definition set_document (d : option Dom.Document) (w : World) : World :=
  {| now := now w; localStorage := localStorage w; fetch := fetch w;
     fetchTime := fetchTime w; callback := callback w;
     document := d; effects := effects w |}.

Definition set_effects (l : list Effect) (w : World) : World :=
  {| now := now w; localStorage := localStorage w; fetch := fetch w;
     fetchTime := fetchTime w; callback := callback w;
     document := document w; effects := l |}.

Definition set_items (i : gmap string StoredItem) (s : Storage) : Storage :=
  {| items := i; quotaExceeded := quotaExceeded s |}.

(** ** Methods as state transformers that may throw *)

Definition M (A : Type) : Type := Machine -> Js.Completion A * Machine.

#[export] Instance M_ret : MRet M := fun A a m => (Js.Return a, m).

#[export] Instance M_bind : MBind M := fun A B f c m =>
  match c m with
  | (Js.Return a, m') => f a m'
  | (Js.Throw e, m') => (Js.Throw e, m')
  end.

Definition this : M Tenlixor := fun m => (Js.Return (self m), m).

Definition host : M World := fun m => (Js.Return (world m), m).

Definition update (f : Tenlixor -> Tenlixor) : M unit :=
  fun m => (Js.Return tt, {| self := f (self m); world := world m |}).

Definition updateWorld (f : World -> World) : M unit :=
  fun m => (Js.Return tt, {| self := self m; world := f (world m) |}).

Definition throw {A : Type} (e : Js.Thrown) : M A :=
  fun m => (Js.Throw e, m).

(** [try { body } catch (e) { handler e }] *)
Definition tryCatch {A : Type} (body : M A) (handler : Js.Thrown -> M A)
  : M A :=
  fun m =>
    match body m with
    | (Js.Throw e, m') => handler e m'
    | r => r
    end.

(** [try { body } finally { final }] *)
Definition tryFinally {A : Type} (body : M A) (final : M unit) : M A :=
  fun m =>
    let '(r, m1) := body m in
    match final m1 with
    | (Js.Return _, m2) => (r, m2)
    | (Js.Throw e, m2) => (Js.Throw e, m2)
    end.

Definition effect (e : Effect) : M unit :=
  updateWorld (fun w => set_effects (effects w ++ [e]) w).

(** [Array.prototype.forEach] *)
Fixpoint forEach {A : Type} (f : A -> M unit) (l : list A) : M unit :=
  match l with
  | [] => mret tt
  | x :: rest => f x ;; forEach f rest
  end.

(** ** The event bus *)

Definition eventName (ev : TenlixorEventType) : string :=
  match ev with
  | loaded => "loaded"
  | error => "error"
  | language_changed => "language-changed"
  end.

(** [this.listeners[event]] *)
Definition listenersOf (ev : TenlixorEventType) (l : TenlixorEventListeners)
  : list TenlixorEventHandler :=
  match ev with
  | loaded => on_loaded l
  | error => on_error l
  | language_changed => on_language_changed l
  end.

Definition setListenersOf (ev : TenlixorEventType)
    (cbs : list TenlixorEventHandler) (l : TenlixorEventListeners)
  : TenlixorEventListeners :=
  match ev with
  | loaded =>
      {| on_loaded := cbs; on_error := on_error l;
         on_language_changed := on_language_changed l |}
  | error =>
      {| on_loaded := on_loaded l; on_error := cbs;
         on_language_changed := on_language_changed l |}
  | language_changed =>
      {| on_loaded := on_loaded l; on_error := on_error l;
         on_language_changed := cbs |}
  end.

(** [on(event, callback)]: [this.listeners[event].push(callback)] *)
Definition on (ev : TenlixorEventType) (cb : TenlixorEventHandler) : M unit :=
  update (fun s =>
    set_listeners
      (setListenersOf ev (listenersOf ev (listeners s) ++ [cb]) (listeners s))
      s).

(** [off(event, callback)]: [filter(cb => cb !== callback)] *)
Definition off (ev : TenlixorEventType) (cb : TenlixorEventHandler) : M unit :=
  update (fun s =>
    set_listeners
      (setListenersOf ev
         (List.filter (fun c => negb (Nat.eqb c cb))
                      (listenersOf ev (listeners s)))
         (listeners s))
      s).

(** [callback(data)]: the call is recorded, then the callback returns or
    throws as the host says. *)
Definition invoke (cb : TenlixorEventHandler) (payload : EventData)
  : M unit :=
  effect (Called cb payload) ;;
  w ← host;
  match callback w cb payload with
  | Some e => throw e
  | None => mret tt
  end.

(** [emit(event, data)] *)
Definition emit (ev : TenlixorEventType) (payload : EventData) : M unit :=
  effect (Emitted ev payload) ;;
  s ← this;
  forEach
    (fun cb =>
       tryCatch (invoke cb payload)
         (fun _ =>
            effect (ConsoleError
                      ("Tenlixor: Error in " ++ eventName ev ++ " listener:"))))
    (listenersOf ev (listeners s)).

(** ** The cache store *)

(** [getCacheKey]: [`txr_${this.data.tenant_id || 'default'}_${code}`] *)
Definition getCacheKey (s : Tenlixor) (languageCode : string) : string :=
  "txr_" ++ Js.orString (store_tenant_id (this_data s)) "default"
         ++ "_" ++ languageCode.

(** [ignoreTTL || Date.now() - entry.timestamp < this.config.cacheTTL] *)
Definition valid (ignoreTTL : bool) (s : Tenlixor) (w : World)
    (e : TenlixorCacheEntry) : bool :=
  ignoreTTL || (now w - timestamp e <? config_cacheTTL (config s))%Z.

(** [JSON.parse(cached)] *)
Definition JSON_parse (i : StoredItem) : M TenlixorCacheEntry :=
  match i with
  | Json e => mret e
  | Raw _ => throw (Js.Error "Unexpected token in JSON")
  end.

(** The text of an item is truthy unless it is the empty string. *)
Definition truthyItem (i : StoredItem) : bool :=
  match i with
  | Json _ => true
  | Raw s => Js.truthy s
  end.

(** The second half of [getFromCache]: the in-memory map. *)
Definition memoryTier (cacheKey : string) (ignoreTTL : bool)
  : M (option TenlixorResponseData) :=
  s ← this; w ← host;
  match memoryCache s !! cacheKey with
  | Some memoryCached =>
      if valid ignoreTTL s w memoryCached
      then mret (Some (entry_data memoryCached))
      else mret None
  | None => mret None
  end.

(** [getFromCache(languageCode, ignoreTTL)] *)
Definition getFromCache (languageCode : string) (ignoreTTL : bool)
  : M (option TenlixorResponseData) :=
  s ← this; w ← host;
  let cacheKey := getCacheKey s languageCode in
  tryCatch
    (match localStorage w with
     | Some ls =>
         match items ls !! cacheKey with
         | Some cached =>
             if truthyItem cached then
               parsed ← JSON_parse cached;
               if valid ignoreTTL s w parsed
               then mret (Some (entry_data parsed))
               else memoryTier cacheKey ignoreTTL
             else memoryTier cacheKey ignoreTTL
         | None => memoryTier cacheKey ignoreTTL
         end
     | None => memoryTier cacheKey ignoreTTL
     end)
    (fun _ => effect (ConsoleWarn "Tenlixor: Cache read error:") ;; mret None).

(** [localStorage.setItem(key, JSON.stringify(entry))] *)
Definition setItem (ls : Storage) (cacheKey : string)
    (e : TenlixorCacheEntry) : M unit :=
  if quotaExceeded ls then throw (Js.Error "QuotaExceededError")
  else updateWorld
         (set_localStorage (Some (set_items (<[cacheKey := Json e]> (items ls))
                                            ls))).

(** [saveToCache(languageCode, data)] *)
Definition saveToCache (languageCode : string) (d : TenlixorResponseData)
  : M unit :=
  s ← this; w ← host;
  let cacheKey := getCacheKey s languageCode in
  let cacheData := {| timestamp := now w; entry_data := d |} in
  tryCatch
    (match localStorage w with
     | Some ls => setItem ls cacheKey cacheData
     | None => mret tt
     end ;;
     update (fun s => set_memoryCache (<[cacheKey := cacheData]> (memoryCache s))
                                      s))
    (fun _ => effect (ConsoleWarn "Tenlixor: Cache write error:")).

(** [clearCache(languageCode)] *)
Definition clearCache (languageCode : string) : M unit :=
  s ← this; w ← host;
  let cacheKey := getCacheKey s languageCode in
  tryCatch
    (match localStorage w with
     | Some ls =>
         updateWorld
           (set_localStorage (Some (set_items (delete cacheKey (items ls)) ls)))
     | None => mret tt
     end ;;
     update (fun s => set_memoryCache (delete cacheKey (memoryCache s)) s))
    (fun _ => effect (ConsoleWarn "Tenlixor: Cache clear error:")).

(** ** [fetchStrings] *)

(** [response.ok] *)
Definition ok (status : Z) : bool := (200 <=? status)%Z && (status <=? 299)%Z.

Definition showZ (n : Z) : string := NilZero.string_of_int (Z.to_int n).

(** [await fetch(url, ...)]: the request is recorded, time passes, and the
    promise rejects or yields the response. *)
Definition awaitFetch (languageCode : string)
  : M (Z * string * Js.Completion TenlixorResponse) :=
  effect (Fetched languageCode) ;;
  updateWorld (fun w => set_now (now w + fetchTime w)%Z w) ;;
  w ← host;
  match fetch w languageCode with
  | NetworkError e => throw e
  | Response status statusText body => mret (status, statusText, body)
  end.

(** [await response.json()] *)
Definition awaitJson (body : Js.Completion TenlixorResponse)
  : M TenlixorResponse :=
  match body with
  | Js.Return r => mret r
  | Js.Throw e => throw e
  end.

Definition mergeDataM (d : TenlixorResponseData) : M unit :=
  update (fun s => set_data (mergeData d (this_data s)) s).

Definition fetchStrings (languageCode : string) : M TenlixorResponseData :=
  s ← this;
  hit ← (if config_cache (config s) then getFromCache languageCode false
         else mret None);
  match hit with
  | Some cached => mergeDataM cached ;; mret cached
  | None =>
      tryCatch
        ('(status, statusText, body) ← awaitFetch languageCode;
         if negb (ok status) then
           if (status =? 401)%Z
           then throw (Js.Error "UNAUTHORIZED: Invalid API token")
           else throw (Js.Error ("HTTP " ++ showZ status ++ ": " ++ statusText))
         else
           result ← awaitJson body;
           if negb (success result)
           then throw (Js.Error "API returned success: false")
           else
             (if Js.truthy (tenant_id (data result))
              then update (fun s =>
                     set_data (set_tenant_id (tenant_id (data result))
                                             (this_data s)) s)
              else mret tt) ;;
             mergeDataM (data result) ;;
             (if config_cache (config s)
              then saveToCache languageCode (data result)
              else mret tt) ;;
             mret (data result))
        (fun thrown =>
           if config_cache (config s) then
             stale ← getFromCache languageCode true;
             match stale with
             | Some cached => mergeDataM cached ;; mret cached
             | None => throw thrown
             end
           else throw thrown)
  end.

(** ** [scan], [init], [setLanguage], [reload] *)

Definition scan : M unit :=
  s ← this; w ← host;
  if negb (isInitialized s) then mret tt
  else
    match document w with
    | None => mret tt
    | Some d => updateWorld (set_document (Some (scanDocument s d)))
    end.

Definition init : M unit :=
  s ← this;
  if isLoading s then mret tt
  else
    update (set_isLoading true) ;;
    tryFinally
      (tryCatch
         (s ← this;
          fetchStrings (currentLanguage s) ;;
          update (set_isInitialized true) ;;
          (if config_autoScan (config s) then
             w ← host;
             match document w with
             | Some d =>
                 match Dom.readyState d with
                 | Dom.loading => effect DomContentLoadedListener
                 | _ => scan
                 end
             | None => mret tt
             end
           else mret tt) ;;
          emit loaded (LoadedEvent (currentLanguage s) false))
         (fun thrown =>
            emit error (ErrorEvent "INIT_FAILED" (Js.messageOf thrown)
                                   (Js.errorOf thrown))))
      (update (set_isLoading false)).

Definition setLanguage (languageCode : string) : M unit :=
  s ← this;
  if bool_decide (languageCode = currentLanguage s) then mret tt
  else
    let previousLanguage := currentLanguage s in
    update (set_currentLanguage languageCode) ;;
    tryCatch
      (fetchStrings languageCode ;;
       scan ;;
       emit language_changed
            (LanguageChangedEvent previousLanguage languageCode))
      (fun thrown =>
         update (set_currentLanguage previousLanguage) ;;
         emit error (ErrorEvent "LANGUAGE_CHANGE_FAILED" (Js.messageOf thrown)
                                (Js.errorOf thrown)) ;;
         throw thrown).

Definition reload : M unit :=
  s ← this;
  (if config_cache (config s) then clearCache (currentLanguage s)
   else mret tt) ;;
  fetchStrings (currentLanguage s) ;;
  scan ;;
  emit loaded (LoadedEvent (currentLanguage s) true).

(** [getLanguage], [isReady] *)
Definition getLanguage (s : Tenlixor) : string := currentLanguage s.

Definition isReady (s : Tenlixor) : bool := isInitialized s.

(** ** The Angular pipe ([adapters/angular.pipe.ts])

    [TxrTranslatePipe] reads the module variable [globalTenlixorInstance]
    (null, or the engine given to [setTenlixorInstance]) and keeps the last
    key, language and value it translated. *)

Record TxrTranslatePipe : Type := {
  lastValue : string;
  lastKey : string;
  lastLanguage : string
}.

(** The field initializers of the pipe. *)
Definition newPipe : TxrTranslatePipe :=
  {| lastValue := ""; lastKey := ""; lastLanguage := "" |}.

Definition pipeWarning : string :=
  "TxrTranslatePipe: Tenlixor instance not initialized. Call setTenlixorInstance() first.".

(** [transform(key, languageCode)]: the value returned, the pipe afterwards,
    and the console warnings. *)
Definition transform (globalTenlixorInstance : option Tenlixor)
    (pipe : TxrTranslatePipe) (k : string) (languageCode : option string)
  : string * TxrTranslatePipe * list string :=
  match globalTenlixorInstance with
  | None => (k, pipe, [pipeWarning])
  | Some instance =>
      let currentLanguage := Js.orString languageCode (getLanguage instance) in
      if bool_decide (k = lastKey pipe)
         && bool_decide (currentLanguage = lastLanguage pipe)
      then (lastValue pipe, pipe, [])
      else
        let v := t instance k languageCode in
        (v, {| lastValue := v; lastKey := k; lastLanguage := currentLanguage |},
         [])
  end.

(** * Notions used in the statements *)

(** ** The resolver *)

(** The table of [lang] maps [k] to the non-empty value [v]. *)
Definition mapsTo (tbl : gmap string (gmap string string))
    (lang k v : string) : Prop :=
  exists m, tbl !! lang = Some m /\ m !! k = Some v /\ v <> "".

Definition unmapped (tbl : gmap string (gmap string string))
    (lang k : string) : Prop :=
  forall v, ~ mapsTo tbl lang k v.

(** The resolution order in the words of the specification: an exact match
    in the table of [languageCode ?? currentLanguage], then, for another
    language than the fallback, an exact match in the fallback table, then
    the key. *)
Definition t_as_specified (self : Tenlixor) (k : string)
    (languageCode : option string) : string :=
  let lang := default (currentLanguage self) languageCode in
  let fb := config_fallbackLanguage (config self) in
  let tbl := store_languages (this_data self) in
  match tbl !! lang ≫= (fun m => m !! k) with
  | Some v => v
  | None =>
      if bool_decide (lang <> fb) then
        match tbl !! fb ≫= (fun m => m !! k) with
        | Some v => v
        | None => k
        end
      else k
  end.

(** An engine whose table for ["tr"] maps ["app.title"] to the empty string
    and whose fallback table maps it to ["Title"]. *)
Definition engineWithEmptyValue : Tenlixor :=
  {| config :=
       {| config_token := "t1"; config_tenantSlug := "acme";
          config_language := "tr"; config_apiUrl := defaultApiUrl;
          config_cache := true; config_cacheTTL := 300000;
          config_fallbackLanguage := "en"; config_autoScan := true |};
     this_data :=
       {| store_tenant_id := Some "acme-1";
          store_languages :=
            {[ "tr" := {[ "app.title" := "" ]};
               "en" := {[ "app.title" := "Title" ]} ]} |};
     listeners := {| on_loaded := []; on_error := [];
                     on_language_changed := [] |};
     isInitialized := true;
     currentLanguage := "tr";
     isLoading := false;
     memoryCache := ∅ |}.

(** ** Effects of the event bus *)

(** The machine after some more effects. *)
Definition logged (l : list Effect) (m : Machine) : Machine :=
  {| self := self m; world := set_effects (effects (world m) ++ l) (world m) |}.

(** What one subscriber adds to the effects: its call, and the console
    error when it throws. *)
Definition notified (w : World) (ev : TenlixorEventType) (payload : EventData)
    (cb : TenlixorEventHandler) : list Effect :=
  Called cb payload ::
  match callback w cb payload with
  | Some _ => [ConsoleError
                 ("Tenlixor: Error in " ++ eventName ev ++ " listener:")]
  | None => []
  end.

(** The calls among some effects, in order. *)
Definition calls (l : list Effect)
  : list (TenlixorEventHandler * EventData) :=
  omap (fun e => match e with
                 | Called cb payload => Some (cb, payload)
                 | _ => None
                 end) l.

Definition consoleErrors (l : list Effect) : nat :=
  length (List.filter (fun e => match e with
                                | ConsoleError _ => true
                                | _ => false
                                end) l).

Definition throwing (w : World) (payload : EventData)
    (cbs : list TenlixorEventHandler) : list TenlixorEventHandler :=
  List.filter (fun cb => bool_decide (is_Some (callback w cb payload))) cbs.

(** What [emit] adds to the effects. *)
Definition emitEffects (w : World) (ev : TenlixorEventType)
    (payload : EventData) (cbs : list TenlixorEventHandler) : list Effect :=
  Emitted ev payload :: concat (List.map (notified w ev payload) cbs).

(** ** The cache store as [getFromCache] sees it *)

(** The item of the durable tier under the cache key of a language. *)
Definition durableItem (m : Machine) (languageCode : string)
  : option StoredItem :=
  match localStorage (world m) with
  | Some ls => items ls !! getCacheKey (self m) languageCode
  | None => None
  end.

(** The durable item is a text on which [JSON.parse] throws. *)
Definition unreadable (m : Machine) (languageCode : string) : bool :=
  match durableItem m languageCode with
  | Some (Raw s) => Js.truthy s
  | _ => false
  end.

Definition memoryLookup (ignoreTTL : bool) (m : Machine)
    (languageCode : string) : option TenlixorResponseData :=
  match memoryCache (self m) !! getCacheKey (self m) languageCode with
  | Some e =>
      if valid ignoreTTL (self m) (world m) e then Some (entry_data e)
      else None
  | None => None
  end.

(** What [getFromCache] returns, as a function of the machine. *)
Definition cacheLookup (ignoreTTL : bool) (m : Machine)
    (languageCode : string) : option TenlixorResponseData :=
  match durableItem m languageCode with
  | Some (Json e) =>
      if valid ignoreTTL (self m) (world m) e then Some (entry_data e)
      else memoryLookup ignoreTTL m languageCode
  | Some (Raw s) =>
      if Js.truthy s then None else memoryLookup ignoreTTL m languageCode
  | None => memoryLookup ignoreTTL m languageCode
  end.

Definition afterRead (m : Machine) (languageCode : string) : Machine :=
  if unreadable m languageCode
  then logged [ConsoleWarn "Tenlixor: Cache read error:"] m
  else m.

(** [setItem] will not throw. *)
Definition writable (m : Machine) : Prop :=
  forall ls, localStorage (world m) = Some ls -> quotaExceeded ls = false.

(** The machine at another reading of the clock. *)
Definition atTime (n : Z) (m : Machine) : Machine :=
  {| self := self m; world := set_now n (world m) |}.

(** ** Loading a language *)

(** What the request of [fetchStrings] yields once the response has been
    checked: the payload, or what the [try] block throws. *)
Definition transport (w : World) (languageCode : string)
  : Js.Completion TenlixorResponseData :=
  match fetch w languageCode with
  | NetworkError e => Js.Throw e
  | Response status statusText body =>
      if negb (ok status) then
        if (status =? 401)%Z
        then Js.Throw (Js.Error "UNAUTHORIZED: Invalid API token")
        else Js.Throw (Js.Error ("HTTP " ++ showZ status ++ ": " ++ statusText))
      else
        match body with
        | Js.Throw e => Js.Throw e
        | Js.Return r =>
            if negb (success r)
            then Js.Throw (Js.Error "API returned success: false")
            else Js.Return (data r)
        end
  end.

(** The machine once the request has been sent and answered. *)
Definition requested (languageCode : string) (m : Machine) : Machine :=
  {| self := self m;
     world := set_now (now (world m) + fetchTime (world m))%Z
                (set_effects (effects (world m) ++ [Fetched languageCode])
                             (world m)) |}.

(** The machine once a payload has been merged. *)
Definition merged (d : TenlixorResponseData) (m : Machine) : Machine :=
  {| self := set_data (mergeData d (this_data (self m))) (self m);
     world := world m |}.

(** The [try] block of [fetchStrings]. *)
Definition tryBlock (s : Tenlixor) (languageCode : string)
  : M TenlixorResponseData :=
  '(status, statusText, body) ← awaitFetch languageCode;
  if negb (ok status) then
    if (status =? 401)%Z
    then throw (Js.Error "UNAUTHORIZED: Invalid API token")
    else throw (Js.Error ("HTTP " ++ showZ status ++ ": " ++ statusText))
  else
    result ← awaitJson body;
    if negb (success result)
    then throw (Js.Error "API returned success: false")
    else
      (if Js.truthy (tenant_id (data result))
       then update (fun s =>
              set_data (set_tenant_id (tenant_id (data result))
                                      (this_data s)) s)
       else mret tt) ;;
      mergeDataM (data result) ;;
      (if config_cache (config s)
       then saveToCache languageCode (data result)
       else mret tt) ;;
      mret (data result).

(** The [catch] block of [fetchStrings]. *)
Definition catchBlock (s : Tenlixor) (languageCode : string)
    (thrown : Js.Thrown) : M TenlixorResponseData :=
  if config_cache (config s) then
    stale ← getFromCache languageCode true;
    match stale with
    | Some cached => mergeDataM cached ;; mret cached
    | None => throw thrown
    end
  else throw thrown.

(** The parts of the engine and of the host that loading a language leaves
    alone. *)
Definition sameLifecycle (m m' : Machine) : Prop :=
  config (self m') = config (self m)
  /\ listeners (self m') = listeners (self m)
  /\ isInitialized (self m') = isInitialized (self m)
  /\ currentLanguage (self m') = currentLanguage (self m)
  /\ isLoading (self m') = isLoading (self m)
  /\ callback (world m') = callback (world m)
  /\ document (world m') = document (world m).

(** The load of a language fails with [e]: the transport fails with [e]
    and, when caching is enabled, the lookup that ignores the TTL misses. *)
Definition loadFails (m : Machine) (languageCode : string) (e : Js.Thrown)
  : Prop :=
  transport (world m) languageCode = Js.Throw e
  /\ (config_cache (config (self m)) = true ->
      cacheLookup true m languageCode = None).

(** The machine after a failed load: the request was sent, and each cache
    read that met an unreadable item logged a warning. *)
Definition failedLoad (languageCode : string) (m : Machine) : Machine :=
  if config_cache (config (self m))
  then afterRead (requested languageCode (afterRead m languageCode))
                 languageCode
  else requested languageCode m.

(** Where the payload of a successful load comes from. *)
Inductive Origin (m : Machine) (languageCode : string)
    (p : TenlixorResponseData) : Prop :=
| FreshCache :
    config_cache (config (self m)) = true ->
    cacheLookup false m languageCode = Some p ->
    Origin m languageCode p
| Network :
    (config_cache (config (self m)) = true ->
     cacheLookup false m languageCode = None) ->
    transport (world m) languageCode = Js.Return p ->
    Origin m languageCode p
| StaleCache (e : Js.Thrown) :
    config_cache (config (self m)) = true ->
    cacheLookup false m languageCode = None ->
    transport (world m) languageCode = Js.Throw e ->
    cacheLookup true m languageCode = Some p ->
    Origin m languageCode p.


(** The in-memory tier holds the entry [e] under the cache key. *)
Definition memoryEntry (m : Machine) (languageCode : string)
    (e : TenlixorCacheEntry) : Prop :=
  memoryCache (self m) !! getCacheKey (self m) languageCode = Some e.

(** ** The orchestrator *)

(** The machine after [scan]. *)
Definition scanned (m : Machine) : Machine :=
  if isInitialized (self m) then
    match document (world m) with
    | Some d =>
        {| self := self m;
           world := set_document (Some (scanDocument (self m) d)) (world m) |}
    | None => m
    end
  else m.

(** The events emitted among some effects, in order. *)
Definition emitted (l : list Effect)
  : list (TenlixorEventType * EventData) :=
  omap (fun e => match e with
                 | Emitted ev payload => Some (ev, payload)
                 | _ => None
                 end) l.

(** The requests sent among some effects, in order. *)
Definition fetches (l : list Effect) : list string :=
  omap (fun e => match e with
                 | Fetched c => Some c
                 | _ => None
                 end) l.

(** The effects of a failed load: one request, and the warnings of the
    cache reads. *)
Definition failedLoadEffects (languageCode : string) (m : Machine)
  : list Effect :=
  if config_cache (config (self m)) then
    ((if unreadable m languageCode
      then [ConsoleWarn "Tenlixor: Cache read error:"] else [])
     ++ [Fetched languageCode]
     ++ (if unreadable m languageCode
         then [ConsoleWarn "Tenlixor: Cache read error:"] else []))%list
  else [Fetched languageCode].

(** The machine once [currentLanguage] has been assigned. *)
Definition withLanguage (languageCode : string) (m : Machine) : Machine :=
  {| self := set_currentLanguage languageCode (self m); world := world m |}.

(** The payload of the [error] event of a failed operation. *)
Definition failure (errcode : string) (e : Js.Thrown) : EventData :=
  ErrorEvent errcode (Js.messageOf e) (Js.errorOf e).

(** The machine once [isLoading] has been set. *)
Definition loadingStarted (m : Machine) : Machine :=
  {| self := set_isLoading true (self m); world := world m |}.

(** The [try] block of [init]. *)
Definition initBlock : M unit :=
  s ← this;
  fetchStrings (currentLanguage s) ;;
  update (set_isInitialized true) ;;
  (if config_autoScan (config s) then
     w ← host;
     match document w with
     | Some d =>
         match Dom.readyState d with
         | Dom.loading => effect DomContentLoadedListener
         | _ => scan
         end
     | None => mret tt
     end
   else mret tt) ;;
  emit loaded (LoadedEvent (currentLanguage s) false).

(** The [catch] block of [init]. *)
Definition initHandler (thrown : Js.Thrown) : M unit :=
  emit error (ErrorEvent "INIT_FAILED" (Js.messageOf thrown)
                         (Js.errorOf thrown)).

(** The machine after [clearCache]. *)
Definition cleared (languageCode : string) (m : Machine) : Machine :=
  {| self := set_memoryCache
               (delete (getCacheKey (self m) languageCode)
                       (memoryCache (self m))) (self m);
     world :=
       match localStorage (world m) with
       | Some ls =>
           set_localStorage
             (Some (set_items (delete (getCacheKey (self m) languageCode)
                                      (items ls)) ls)) (world m)
       | None => world m
       end |}.

(** The machine on which [reload] loads the language. *)
Definition beforeReload (m : Machine) : Machine :=
  if config_cache (config (self m))
  then cleared (currentLanguage (self m)) m
  else m.

(** ** The scanner *)

(** The [forEach] of [scanTextNodes] over the children of an element. *)
Fixpoint scanChildren (self : Tenlixor) (lang : string) (l : list Dom.Node)
    (a : gmap string string) : list Dom.Node * gmap string string :=
  match l with
  | [] => ([], a)
  | child :: rest =>
      let '(child', a1) := scanTextNodes self lang child a in
      let '(rest', a2) := scanChildren self lang rest a1 in
      (child' :: rest', a2)
  end.

(** The attribute pass has nothing to write in the tree. *)
Fixpoint quiet (self : Tenlixor) (lang : string) (n : Dom.Node) : bool :=
  match n with
  | Dom.Element _ attrs cs =>
      bool_decide (translateElement self lang attrs = None)
      && forallb (quiet self lang) cs
  | _ => true
  end.

(** The text pass has nothing to write in the tree. *)
Fixpoint settled (self : Tenlixor) (lang : string) (n : Dom.Node) : bool :=
  match n with
  | Dom.Text content => negb (matchesKey self lang (Dom.trim content))
  | Dom.Element tg attrs cs =>
      Dom.hasAttribute attr_resolved attrs || skippedTag tg
      || forallb (settled self lang) cs
  | Dom.Comment _ => true
  end.

(** ** Scenarios *)

(** [{token: "t1", tenantSlug: "acme"}] *)
Definition acmeConfig : TenlixorConfig :=
  {| token := Some "t1"; tenantSlug := Some "acme"; language := None;
     apiUrl := None; cache := None; cacheTTL := None;
     fallbackLanguage := None; autoScan := None |}.

(** The payload the mocked transport returns for every language. *)
Definition welcomePayload : TenlixorResponseData :=
  {| tenant_id := "acme-1";
     languages :=
       Some [ {| code := "en";
                 resources := Some [ {| key := "app.welcome";
                                        value := "Welcome!" |} ] |} ] |}.

(** The engine built from [acmeConfig], with two [loaded] listeners (the
    first of which throws, see [twoListeners]) and one [error] listener. *)
Definition acmeEngine : Tenlixor :=
  set_listeners
    {| on_loaded := [1%nat; 2%nat]; on_error := [3%nat];
       on_language_changed := [] |}
    {| config := resolveConfig acmeConfig;
       this_data := {| store_tenant_id := None; store_languages := ∅ |};
       listeners := {| on_loaded := []; on_error := [];
                       on_language_changed := [] |};
       isInitialized := false;
       currentLanguage := "en";
       isLoading := false;
       memoryCache := ∅ |}.

(** Callback 1 throws, the others return. *)
Definition twoListeners (cb : TenlixorEventHandler) (payload : EventData)
  : option Js.Thrown :=
  if Nat.eqb cb 1 then Some (Js.Error "listener failed") else None.

Definition paragraph (attrs : gmap string string) (content : string)
  : Dom.Node :=
  Dom.Element "P" attrs [Dom.Text content].

(** A page with a keyed element, a text that is a key, and a script. *)
Definition page : Dom.Document :=
  {| Dom.readyState := Dom.complete;
     Dom.documentElement :=
       Dom.Element "HTML" ∅
         [ Dom.Element "HEAD" ∅ [];
           Dom.Element "BODY" ∅
             [ paragraph {[ attr_key := "app.welcome" ]} "";
               paragraph ∅ "  app.welcome ";
               Dom.Element "SCRIPT" ∅ [Dom.Text "app.welcome"];
               paragraph ∅ "plain text" ] ] |}.

Definition networkDown : Js.Thrown := Js.Error "Failed to fetch".

(** A host whose network is down: every request is rejected. *)
Definition offline : World :=
  {| now := 1000000;
     localStorage := Some {| items := ∅; quotaExceeded := false |};
     fetch := fun _ => NetworkError networkDown;
     fetchTime := 20;
     callback := twoListeners;
     document := Some page;
     effects := [] |}.

(** A host whose network answers every request with [welcomePayload]. *)
Definition online : World :=
  {| now := 1000000;
     localStorage := Some {| items := ∅; quotaExceeded := false |};
     fetch := fun _ => Response 200 "OK"
                         (Js.Return {| success := true;
                                       data := welcomePayload |});
     fetchTime := 20;
     callback := twoListeners;
     document := Some page;
     effects := [] |}.

(** The engine after a successful [init], later, with the network down. *)
Definition readyOffline : Machine :=
  {| self := self (snd (init {| self := acmeEngine; world := online |}));
     world := set_now 2000000 offline |}.

(** As [readyOffline], with an expired entry for ["tr"] in the in-memory
    tier alone. *)
Definition staleEntry : TenlixorCacheEntry :=
  {| timestamp := 0; entry_data := welcomePayload |}.

Definition readyOfflineStale : Machine :=
  {| self := set_memoryCache
               (<[getCacheKey (self readyOffline) "tr" := staleEntry]>
                  (memoryCache (self readyOffline)))
               (self readyOffline);
     world := world readyOffline |}.

(** As [readyOfflineStale], with a durable item under the same cache key
    that is not a serialized cache entry. *)
Definition readyOfflineMasked : Machine :=
  {| self := self readyOfflineStale;
     world :=
       set_localStorage
         (Some {| items := {[ getCacheKey (self readyOffline) "tr"
                              := Raw "not json" ]};
                  quotaExceeded := false |})
         (world readyOffline) |}.

(** [{token: "t1", tenantSlug: "acme", cacheTTL: 0, language: "",
     apiUrl: "", fallbackLanguage: ""}] *)
Definition falsyConfig : TenlixorConfig :=
  {| token := Some "t1"; tenantSlug := Some "acme"; language := Some "";
     apiUrl := Some ""; cache := None; cacheTTL := Some 0%Z;
     fallbackLanguage := Some ""; autoScan := None |}.

(** The engine on a fresh host whose network answers. *)
Definition freshOnline : Machine := {| self := acmeEngine; world := online |}.

(** The engine on a fresh host whose network is down. *)
Definition freshOffline : Machine := {| self := acmeEngine; world := offline |}.

(** A table for ["tr"] loaded earlier. *)
Definition turkishStore : TenlixorDataStore :=
  {| store_tenant_id := Some "acme-1";
     store_languages := {[ "tr" := {[ "app.welcome" := "Merhaba!" ]} ]} |}.

(** The ready engine with its page, the network back. *)
Definition readyOnline : Machine :=
  {| self := self readyOffline; world := online |}.

(** A host whose durable store is full: [setItem] throws. *)
Definition quotaFull : Machine :=
  {| self := acmeEngine;
     world := set_localStorage
                (Some {| items := ∅; quotaExceeded := true |}) online |}.

(** ** Successful loads *)

(** The machine after [saveToCache]. *)
Definition saved (languageCode : string) (d : TenlixorResponseData)
    (m : Machine) : Machine :=
  let cacheKey := getCacheKey (self m) languageCode in
  let e := {| timestamp := now (world m); entry_data := d |} in
  let inMemory :=
    set_memoryCache (<[cacheKey := e]> (memoryCache (self m))) (self m) in
  match localStorage (world m) with
  | Some ls =>
      if quotaExceeded ls
      then logged [ConsoleWarn "Tenlixor: Cache write error:"] m
      else {| self := inMemory;
              world := set_localStorage
                         (Some (set_items (<[cacheKey := Json e]> (items ls))
                                          ls)) (world m) |}
  | None => {| self := inMemory; world := world m |}
  end.

(** The machine once the tenant identifier of a payload has been stored. *)
Definition withTenant (d : TenlixorResponseData) (m : Machine) : Machine :=
  if Js.truthy (tenant_id d)
  then {| self := set_data (set_tenant_id (tenant_id d) (this_data (self m)))
                           (self m);
          world := world m |}
  else m.

(** The machine after the [try] block of [fetchStrings] has returned the
    payload [d]. *)
Definition received (languageCode : string) (d : TenlixorResponseData)
    (m : Machine) : Machine :=
  let m1 := merged d (withTenant d (requested languageCode m)) in
  if config_cache (config (self m)) then saved languageCode d m1 else m1.

(** The tenant part of the cache key. *)
Definition tenantOf (s : Tenlixor) : string :=
  Js.orString (store_tenant_id (this_data s)) "default".

(** A host with another network. *)
Definition set_fetch (f : string -> FetchResult) (w : World) : World :=
  {| now := now w; localStorage := localStorage w; fetch := f;
     fetchTime := fetchTime w; callback := callback w;
     document := document w; effects := effects w |}.

(** A new session on the same browser: the engine as constructed, on the
    host as the previous session left it, with the network [f]. *)
Definition newSession (s : Tenlixor) (f : string -> FetchResult)
    (previous : Machine) : Machine :=
  {| self := s; world := set_fetch f (world previous) |}.

(** [acmeEngine] configured with [cache: false], network down. *)
Definition uncachedOffline : Machine :=
  {| self :=
       {| config :=
            resolveConfig
              {| token := Some "t1"; tenantSlug := Some "acme";
                 language := None; apiUrl := None; cache := Some false;
                 cacheTTL := None; fallbackLanguage := None;
                 autoScan := None |};
          this_data := this_data acmeEngine;
          listeners := listeners acmeEngine;
          isInitialized := false;
          currentLanguage := "en";
          isLoading := false;
          memoryCache := ∅ |};
     world := offline |}.




(** ** What the scanner leaves alone *)

(** The attributes of an element without the three markers. *)
Definition unmarked (attrs : gmap string string) : gmap string string :=
  delete attr_lang (delete attr_key (delete attr_resolved attrs)).

(** A tree without its texts and without the three markers. *)
Fixpoint skeleton (n : Dom.Node) : Dom.Node :=
  match n with
  | Dom.Text _ => Dom.Text ""
  | Dom.Element tg attrs cs =>
      Dom.Element tg (unmarked attrs) (List.map skeleton cs)
  | Dom.Comment text => Dom.Comment text
  end.

(** The attributes of every element of a tree, in document order. *)
Fixpoint elementsOf (n : Dom.Node) : list (gmap string string) :=
  match n with
  | Dom.Element _ attrs cs => attrs :: concat (List.map elementsOf cs)
  | _ => []
  end.

(** ** The Angular pipe *)

(** What the pipe remembers is what the engine [s] answers. *)
Definition memoOf (s : Tenlixor) (pipe : TxrTranslatePipe) : Prop :=
  lastLanguage pipe <> "" ->
  lastValue pipe = t s (lastKey pipe) (Some (lastLanguage pipe)).

(** The values a pipe returns for a sequence of calls of [transform]
    against an engine that does not change in between. *)
Fixpoint transformAll (s : Tenlixor) (pipe : TxrTranslatePipe)
    (l : list (string * option string)) : list string :=
  match l with
  | [] => []
  | (k, languageCode) :: rest =>
      let '(v, pipe', _) := transform (Some s) pipe k languageCode in
      v :: transformAll s pipe' rest
  end.

(** The language codes a payload lists. *)
Definition codesOf (d : TenlixorResponseData) : list string :=
  match languages d with
  | Some langs => code <$> langs
  | None => []
  end.



(** ** Payloads that name [__proto__] *)

(** A payload whose block for ["en"] lists the key ["__proto__"]. *)
Definition protoKeyPayload : TenlixorResponseData :=
  {| tenant_id := "acme-1";
     languages :=
       Some [ {| code := "en";
                 resources := Some [ {| key := "__proto__"; value := "x" |};
                                     {| key := "app.title";
                                        value := "Title" |} ] |} ] |}.

(** A payload with a block for the code ["__proto__"]. *)
Definition protoCodePayload : TenlixorResponseData :=
  {| tenant_id := "acme-1";
     languages :=
       Some [ {| code := "__proto__";
                 resources := Some [ {| key := "fr"; value := "oui" |} ] |} ] |}.

(** [this.data.languages] of a new engine. *)
Definition noLanguages : Plain.Languages :=
  {| Plain.own := ∅; Plain.prototype := None |}.

(** The pairs a resource list lists for a key, in the words of the
    specification: every listed pair is a pair of the table. *)
Definition listed (rs : option (list TenlixorResource)) (k v : string)
  : Prop :=
  exists l, rs = Some l /\ {| key := k; value := v |} ∈ l.

(** A table read for the language [lang] holds the non-empty value [v]
    for the key [k]. *)
Definition tableHolds (l : Plain.Languages) (lang k v : string) : Prop :=
  exists tbl, Plain.readLanguage l lang = Plain.Found tbl
              /\ tbl !! k = Some v /\ v <> "".

(** A payload that names [__proto__] neither as a language code nor as a
    resource key. *)
Definition ordinaryPayload (d : TenlixorResponseData) : Prop :=
  forall langs lang,
    languages d = Some langs -> lang ∈ langs ->
    code lang <> "__proto__"
    /\ forall rs r, resources lang = Some rs -> r ∈ rs ->
                    key r <> "__proto__".

(** * Properties *)

(** ** Construction *)

Lemma truthy_true_iff (s : string) : Js.truthy s = true <-> s <> "".
Proof. destruct s; simpl; split; intros; congruence. Qed.

Lemma truthy_false_iff (s : string) : Js.truthy s = false <-> s = "".
Proof. destruct s; simpl; split; intros; congruence. Qed.

Lemma falsy_true_iff (o : option string) :
  falsy o = true <-> o = None \/ o = Some "".
Proof.
  destruct o as [s|]; simpl.
  - rewrite negb_true_iff, truthy_false_iff. split.
    + intros ->. now right.
    + intros [H|H]; congruence.
  - split; auto.
Qed.

Lemma orString_truthy (o : option string) (d : string) :
  d <> "" -> Js.orString o d <> "".
Proof.
  intros Hd. destruct o as [s|]; simpl; [|exact Hd].
  destruct (Js.truthy s) eqn:E; [|exact Hd].
  now apply truthy_true_iff.
Qed.

Lemma orNum_nonzero (o : option Z) (d : Z) : d <> 0%Z -> Js.orNum o d <> 0%Z.
Proof.
  intros Hd. destruct o as [n|]; simpl; [|exact Hd].
  unfold Js.truthyNum. destruct (Z.eqb_spec n 0); simpl; auto.
Qed.

(** C10.  A configuration whose optional fields are given but falsy is
    accepted, and each such field takes its default: [cacheTTL: 0] becomes
    300000, and an empty [language], [apiUrl] or [fallbackLanguage] becomes
    ["en"], the fixed endpoint, ["en"].  No constructed engine has a zero TTL
    or an empty language code.  The constructor throws exactly when [token]
    or [tenantSlug] is missing or empty. *)
Theorem constructor_falsy_defaults (c : TenlixorConfig) :
  ((exists e, constructor c = Js.Throw e) <->
   (token c = None \/ token c = Some "") \/
   (tenantSlug c = None \/ tenantSlug c = Some "")) /\
  (forall s, constructor c = Js.Return s ->
     config s = resolveConfig c /\
     currentLanguage s = config_language (config s) /\
     (cacheTTL c = Some 0%Z -> config_cacheTTL (config s) = 300000%Z) /\
     (language c = Some "" -> config_language (config s) = "en") /\
     (apiUrl c = Some "" -> config_apiUrl (config s) = defaultApiUrl) /\
     (fallbackLanguage c = Some "" ->
      config_fallbackLanguage (config s) = "en") /\
     config_cacheTTL (config s) <> 0%Z /\
     config_language (config s) <> "" /\
     currentLanguage s <> "").
Proof.
  unfold constructor. split.
  - rewrite <- !falsy_true_iff.
    destruct (falsy (token c)), (falsy (tenantSlug c)); split;
      try (intros _; eauto; fail);
      try (intros [e He]; discriminate);
      intros [H|H]; discriminate.
  - intros s Hs.
    destruct (falsy (token c)); [discriminate|].
    destruct (falsy (tenantSlug c)); [discriminate|].
    injection Hs as <-. cbn [config currentLanguage resolveConfig
      config_cacheTTL config_language config_apiUrl config_fallbackLanguage].
    repeat split.
    + now intros ->.
    + now intros ->.
    + now intros ->.
    + now intros ->.
    + now apply orNum_nonzero.
    + now apply orString_truthy.
    + now apply orString_truthy.
Qed.

(** ** The translation table *)

Lemma keyValueMap_snoc (l : list TenlixorResource) (r : TenlixorResource) :
  keyValueMap (Some (l ++ [r])%list) = <[key r := value r]> (keyValueMap (Some l)).
Proof. unfold keyValueMap. now rewrite foldl_snoc. Qed.

Lemma keyValueMap_sound (rs : list TenlixorResource) (k v : string) :
  keyValueMap (Some rs) !! k = Some v ->
  exists r, r ∈ rs /\ key r = k /\ value r = v.
Proof.
  induction rs as [|r rs IH] using rev_ind.
  - cbn. rewrite lookup_empty. discriminate.
  - rewrite keyValueMap_snoc, lookup_insert.
    case_decide as E.
    + intros [= <-]. exists r. split; [set_solver | auto].
    + intros H. destruct (IH H) as (r' & Hin & Hk & Hv).
      exists r'. split; [set_solver | auto].
Qed.

Lemma keyValueMap_last (pre rest : list TenlixorResource)
    (r : TenlixorResource) :
  key r ∉ key <$> rest ->
  keyValueMap (Some (pre ++ r :: rest)%list) !! key r = Some (value r).
Proof.
  induction rest as [|x rest IH] using rev_ind; intros Hnot.
  - rewrite keyValueMap_snoc. apply lookup_insert_eq.
  - replace (pre ++ r :: rest ++ [x])%list with ((pre ++ r :: rest) ++ [x])%list
      by now rewrite <- app_assoc.
    rewrite keyValueMap_snoc, fmap_app in *.
    rewrite lookup_insert_ne; [apply IH|]; set_solver.
Qed.

Lemma keyValueMap_complete (rs : list TenlixorResource)
    (r : TenlixorResource) :
  NoDup (key <$> rs) -> r ∈ rs ->
  keyValueMap (Some rs) !! key r = Some (value r).
Proof.
  intros Hnd Hin. apply list_elem_of_split in Hin as (pre & rest & ->).
  apply keyValueMap_last.
  rewrite fmap_app, fmap_cons in Hnd.
  apply NoDup_app in Hnd as (_ & _ & Hnd).
  now apply NoDup_cons in Hnd as [Hnot _].
Qed.

Lemma mergeLanguages_snoc (l : list TenlixorLanguage) (x : TenlixorLanguage)
    (tbl : gmap string (gmap string string)) :
  mergeLanguages (l ++ [x])%list tbl
  = <[code x := keyValueMap (resources x)]> (mergeLanguages l tbl).
Proof. unfold mergeLanguages. now rewrite foldl_snoc. Qed.

Lemma mergeLanguages_other (langs : list TenlixorLanguage)
    (tbl : gmap string (gmap string string)) (c : string) :
  c ∉ code <$> langs -> mergeLanguages langs tbl !! c = tbl !! c.
Proof.
  induction langs as [|x langs IH] using rev_ind; intros Hnot; [reflexivity|].
  rewrite fmap_app in Hnot.
  rewrite mergeLanguages_snoc, lookup_insert_ne; [apply IH|]; set_solver.
Qed.

Lemma mergeLanguages_last (pre rest : list TenlixorLanguage)
    (lang : TenlixorLanguage) (tbl : gmap string (gmap string string)) :
  code lang ∉ code <$> rest ->
  mergeLanguages (pre ++ lang :: rest)%list tbl !! code lang
  = Some (keyValueMap (resources lang)).
Proof.
  induction rest as [|x rest IH] using rev_ind; intros Hnot.
  - rewrite mergeLanguages_snoc. apply lookup_insert_eq.
  - replace (pre ++ lang :: rest ++ [x])%list with ((pre ++ lang :: rest) ++ [x])%list
      by now rewrite <- app_assoc.
    rewrite fmap_app in Hnot.
    rewrite mergeLanguages_snoc, lookup_insert_ne; [apply IH|]; set_solver.
Qed.

(** *** The plain objects *)

Lemma plain_keyValueMap_snoc (l : list TenlixorResource)
    (r : TenlixorResource) :
  Plain.keyValueMap (Some (l ++ [r])%list)
  = Plain.assign (key r) (value r) (Plain.keyValueMap (Some l)).
Proof. unfold Plain.keyValueMap. now rewrite foldl_snoc. Qed.

(** The own properties of a key/value map are the listed pairs without the
    name [__proto__]. *)
Lemma plain_keyValueMap_own (rs : option (list TenlixorResource)) :
  Plain.keyValueMap rs = delete "__proto__" (keyValueMap rs).
Proof.
  destruct rs as [rs|]; [|cbn; now rewrite delete_empty].
  induction rs as [|r rs IH] using rev_ind.
  - cbn. now rewrite delete_empty.
  - rewrite plain_keyValueMap_snoc, keyValueMap_snoc, IH.
    unfold Plain.assign. case_bool_decide as E.
    + rewrite E. now rewrite delete_insert_eq.
    + rewrite delete_insert_ne; [reflexivity | congruence].
Qed.

Lemma plain_keyValueMap_proto (rs : option (list TenlixorResource)) :
  Plain.keyValueMap rs !! "__proto__" = None.
Proof. rewrite plain_keyValueMap_own. apply lookup_delete_eq. Qed.

Lemma plain_keyValueMap_lookup (rs : option (list TenlixorResource))
    (k : string) :
  k <> "__proto__" -> Plain.keyValueMap rs !! k = keyValueMap rs !! k.
Proof.
  intros Hk. rewrite plain_keyValueMap_own.
  apply lookup_delete_ne. congruence.
Qed.

Lemma plain_mergeData_snoc (l : list TenlixorLanguage) (x : TenlixorLanguage)
    (tenant : string) (ls : Plain.Languages) :
  Plain.mergeData {| tenant_id := tenant; languages := Some (l ++ [x])%list |}
                  ls
  = Plain.assignLanguage x
      (Plain.mergeData {| tenant_id := tenant; languages := Some l |} ls).
Proof. unfold Plain.mergeData. cbn. now rewrite foldl_snoc. Qed.

Lemma plain_mergeData_list (d : TenlixorResponseData)
    (langs : list TenlixorLanguage) (ls : Plain.Languages) :
  languages d = Some langs ->
  Plain.mergeData d ls
  = Plain.mergeData {| tenant_id := ""; languages := Some langs |} ls.
Proof. unfold Plain.mergeData. now intros ->. Qed.

Lemma plain_mergeData_other (langs : list TenlixorLanguage)
    (ls : Plain.Languages) (c : string) :
  c ∉ code <$> langs ->
  Plain.own (Plain.mergeData {| tenant_id := ""; languages := Some langs |}
                             ls) !! c
  = Plain.own ls !! c.
Proof.
  induction langs as [|x langs IH] using rev_ind; intros Hnot; [reflexivity|].
  rewrite fmap_app in Hnot. rewrite plain_mergeData_snoc.
  unfold Plain.assignLanguage. case_bool_decide; cbn [Plain.own].
  - apply IH. set_solver.
  - rewrite lookup_insert_ne; [apply IH|]; set_solver.
Qed.

Lemma plain_mergeData_last (pre rest : list TenlixorLanguage)
    (lang : TenlixorLanguage) (ls : Plain.Languages) :
  code lang ∉ code <$> rest ->
  code lang <> "__proto__" ->
  Plain.own (Plain.mergeData
               {| tenant_id := "";
                  languages := Some (pre ++ lang :: rest)%list |} ls)
    !! code lang
  = Some (Plain.keyValueMap (resources lang)).
Proof.
  intros Hnot Hc. induction rest as [|x rest IH] using rev_ind.
  - rewrite plain_mergeData_snoc. unfold Plain.assignLanguage.
    rewrite bool_decide_eq_false_2 by exact Hc. apply lookup_insert_eq.
  - replace (pre ++ lang :: rest ++ [x])%list
      with ((pre ++ lang :: rest) ++ [x])%list by now rewrite <- app_assoc.
    rewrite fmap_app in Hnot. rewrite plain_mergeData_snoc.
    unfold Plain.assignLanguage. case_bool_decide; cbn [Plain.own].
    + apply IH. set_solver.
    + rewrite lookup_insert_ne; [apply IH|]; set_solver.
Qed.

Lemma plain_mergeData_prototype (langs : list TenlixorLanguage)
    (ls : Plain.Languages) :
  "__proto__" ∉ code <$> langs ->
  Plain.prototype
    (Plain.mergeData {| tenant_id := ""; languages := Some langs |} ls)
  = Plain.prototype ls.
Proof.
  induction langs as [|x langs IH] using rev_ind; intros Hnot; [reflexivity|].
  rewrite fmap_app in Hnot. rewrite plain_mergeData_snoc.
  unfold Plain.assignLanguage. case_bool_decide as E; cbn [Plain.prototype].
  - exfalso. apply Hnot. rewrite <- E. set_solver.
  - apply IH. set_solver.
Qed.

Lemma plain_mergeData_prototype_last (pre rest : list TenlixorLanguage)
    (lang : TenlixorLanguage) (ls : Plain.Languages) :
  code lang = "__proto__" ->
  "__proto__" ∉ code <$> rest ->
  Plain.prototype
    (Plain.mergeData
       {| tenant_id := ""; languages := Some (pre ++ lang :: rest)%list |} ls)
  = Some (Plain.keyValueMap (resources lang)).
Proof.
  intros Hc Hnot. induction rest as [|x rest IH] using rev_ind.
  - rewrite plain_mergeData_snoc. unfold Plain.assignLanguage.
    now rewrite bool_decide_eq_true_2 by exact Hc.
  - replace (pre ++ lang :: rest ++ [x])%list
      with ((pre ++ lang :: rest) ++ [x])%list by now rewrite <- app_assoc.
    rewrite fmap_app in Hnot. rewrite plain_mergeData_snoc.
    unfold Plain.assignLanguage. case_bool_decide as E; cbn [Plain.prototype].
    + exfalso. apply Hnot. rewrite <- E. set_solver.
    + apply IH. set_solver.
Qed.

(** No assignment of [mergeData] creates an own property [__proto__]. *)
Lemma plain_mergeData_own_proto (d : TenlixorResponseData)
    (ls : Plain.Languages) :
  Plain.own (Plain.mergeData d ls) !! "__proto__"
  = Plain.own ls !! "__proto__".
Proof.
  unfold Plain.mergeData. destruct (languages d) as [langs|]; [|reflexivity].
  induction langs as [|x langs IH] using rev_ind; [reflexivity|].
  rewrite foldl_snoc. unfold Plain.assignLanguage at 1.
  case_bool_decide as E; cbn [Plain.own]; [exact IH|].
  rewrite lookup_insert_ne; [exact IH | exact E].
Qed.

(** C6, as stated, fails: the block of ["en"] lists the pair
    [__proto__ -> x], and after the merge the table of ["en"] holds no such
    pair: the read of that key gives a member of [Object.prototype]; and the
    block of the code [__proto__] gives no table for that code, while the
    read of the unlisted code ["fr"] has changed. *)
Lemma mergeData_proto_counterexample :
  (listed (Some [ {| key := "__proto__"; value := "x" |};
                  {| key := "app.title"; value := "Title" |} ])
          "__proto__" "x"
   /\ Plain.own (Plain.mergeData protoKeyPayload noLanguages) !! "en"
      = Some {[ "app.title" := "Title" ]}
   /\ Plain.lookup (Plain.mergeData protoKeyPayload noLanguages)
                   "en" "__proto__"
      = Plain.Other)
  /\ (Plain.own (Plain.mergeData protoCodePayload noLanguages) !! "__proto__"
      = None
      /\ Plain.readLanguage noLanguages "fr" = Plain.Nothing
      /\ Plain.readLanguage (Plain.mergeData protoCodePayload noLanguages)
                            "fr"
         = Plain.Other).
Proof.
  split; [split; [|split] | split; [|split]]; try (vm_compute; reflexivity).
  exists [ {| key := "__proto__"; value := "x" |};
           {| key := "app.title"; value := "Title" |} ].
  split; [reflexivity | set_solver].
Qed.

(** C6, amended.  After [mergeData payload], the table of every language
    code of [payload.languages] other than [__proto__] is the key/value map
    of that language's resource list, whatever the table held for that code
    before (of several blocks with one code, the last one counts); that map
    holds exactly the listed pairs whose key is not [__proto__] (for a key
    listed more than once, its last value); the own table of every other
    code is unchanged, and so is every read of another code when the
    payload lists no code [__proto__].  A block with the code [__proto__]
    adds no table: its map takes the place of the prototype. *)
Theorem mergeData_replaces_tables (payload : TenlixorResponseData)
    (ls : Plain.Languages) :
  let ls' := Plain.mergeData payload ls in
  (forall pre lang rest,
     languages payload = Some (pre ++ lang :: rest)%list ->
     code lang ∉ code <$> rest ->
     code lang <> "__proto__" ->
     Plain.own ls' !! code lang = Some (Plain.keyValueMap (resources lang))
     /\ Plain.readLanguage ls' (code lang)
        = Plain.Found (Plain.keyValueMap (resources lang))) /\
  (forall c,
     (forall langs, languages payload = Some langs -> c ∉ code <$> langs) ->
     Plain.own ls' !! c = Plain.own ls !! c) /\
  ((forall langs, languages payload = Some langs ->
                  "__proto__" ∉ code <$> langs) ->
   Plain.prototype ls' = Plain.prototype ls
   /\ forall c,
        (forall langs, languages payload = Some langs ->
                       c ∉ code <$> langs) ->
        Plain.readLanguage ls' c = Plain.readLanguage ls c) /\
  (forall pre lang rest,
     languages payload = Some (pre ++ lang :: rest)%list ->
     code lang = "__proto__" ->
     "__proto__" ∉ code <$> rest ->
     Plain.prototype ls' = Some (Plain.keyValueMap (resources lang))
     /\ Plain.own ls' !! "__proto__" = Plain.own ls !! "__proto__") /\
  (forall rs k v,
     Plain.keyValueMap (Some rs) !! k = Some v ->
     k <> "__proto__" /\ exists r, r ∈ rs /\ key r = k /\ value r = v) /\
  (forall pre r rest,
     key r ∉ key <$> rest ->
     key r <> "__proto__" ->
     Plain.keyValueMap (Some (pre ++ r :: rest)%list) !! key r
     = Some (value r)) /\
  (forall rs r,
     NoDup (key <$> rs) -> r ∈ rs -> key r <> "__proto__" ->
     Plain.keyValueMap (Some rs) !! key r = Some (value r)) /\
  Plain.keyValueMap None = ∅.
Proof.
  cbn zeta. split; [|split; [|split; [|split; [|split; [|split; [|split]]]]]].
  - intros pre lang rest E Hnot Hc.
    rewrite (plain_mergeData_list _ _ _ E).
    pose proof (plain_mergeData_last pre rest lang ls Hnot Hc) as H.
    split; [exact H|]. unfold Plain.readLanguage. now rewrite H.
  - intros c Hc. destruct (languages payload) as [langs|] eqn:E.
    + rewrite (plain_mergeData_list _ _ _ E).
      apply plain_mergeData_other. now apply Hc.
    + unfold Plain.mergeData. now rewrite E.
  - intros Hp.
    assert (Hproto : Plain.prototype (Plain.mergeData payload ls)
                     = Plain.prototype ls).
    { destruct (languages payload) as [langs|] eqn:E.
      - rewrite (plain_mergeData_list _ _ _ E).
        apply plain_mergeData_prototype. now apply Hp.
      - unfold Plain.mergeData. now rewrite E. }
    split; [exact Hproto|]. intros c Hc.
    assert (Hown : Plain.own (Plain.mergeData payload ls) !! c
                   = Plain.own ls !! c).
    { destruct (languages payload) as [langs|] eqn:E.
      - rewrite (plain_mergeData_list _ _ _ E).
        apply plain_mergeData_other. now apply Hc.
      - unfold Plain.mergeData. now rewrite E. }
    unfold Plain.readLanguage. now rewrite Hown, Hproto.
  - intros pre lang rest E Hc Hnot.
    split; [|apply plain_mergeData_own_proto].
    rewrite (plain_mergeData_list _ _ _ E).
    now apply plain_mergeData_prototype_last.
  - intros rs k v H.
    assert (Hk : k <> "__proto__").
    { intros ->. now rewrite plain_keyValueMap_proto in H. }
    split; [exact Hk|]. rewrite plain_keyValueMap_lookup in H by exact Hk.
    now apply keyValueMap_sound.
  - intros pre r rest Hnot Hk. rewrite plain_keyValueMap_lookup by exact Hk.
    now apply keyValueMap_last.
  - intros rs r Hnd Hin Hk. rewrite plain_keyValueMap_lookup by exact Hk.
    now apply keyValueMap_complete.
  - reflexivity.
Qed.

(** ** The resolver *)

Lemma truthyEntry_Some (tbl : gmap string (gmap string string))
    (lang k v : string) :
  truthyEntry tbl lang k = Some v <-> mapsTo tbl lang k v.
Proof.
  unfold truthyEntry, mapsTo. split.
  - destruct (tbl !! lang) as [m|]; [|discriminate].
    destruct (m !! k) as [v'|] eqn:E; [|discriminate].
    destruct (Js.truthy v') eqn:T; [|discriminate].
    intros [= <-]. exists m. rewrite <- truthy_true_iff. auto.
  - intros (m & -> & -> & Hv). apply truthy_true_iff in Hv. now rewrite Hv.
Qed.

Lemma truthyEntry_None (tbl : gmap string (gmap string string))
    (lang k : string) :
  truthyEntry tbl lang k = None <-> unmapped tbl lang k.
Proof.
  unfold unmapped. split.
  - intros E v Hv. apply truthyEntry_Some in Hv. congruence.
  - intros H. destruct (truthyEntry tbl lang k) as [v|] eqn:E; [|reflexivity].
    apply truthyEntry_Some in E. now apply H in E.
Qed.

(** C1, as stated, fails: the table of the current language maps the key (to
    the empty string), yet [t] does not return that value; it goes on to the
    fallback table.  And for the key ["toString"], which no table maps, [t]
    does not return the key: the read of the table finds the member of
    [Object.prototype]. *)
Lemma t_empty_value_counterexample :
  store_languages (this_data engineWithEmptyValue) !! "tr"
    ≫= (fun m => m !! "app.title") = Some ""
  /\ t engineWithEmptyValue "app.title" None = "Title"
  /\ t engineWithEmptyValue "app.title" None
     <> t_as_specified engineWithEmptyValue "app.title" None
  /\ t_as_specified engineWithEmptyValue "toString" None = "toString"
  /\ Plain.t (Plain.languagesOf engineWithEmptyValue) "tr" "en" "toString"
             None
     <> Plain.Returns "toString".
Proof. vm_compute. repeat split; congruence. Qed.

(** *** The resolver on the plain objects *)

(** An own entry is found whatever the prototype holds. *)
Lemma plain_entry_found (l : Plain.Languages) (lang k v : string)
    (otherwise : Plain.Resolution) :
  mapsTo (Plain.own l) lang k v ->
  Plain.entry l lang k otherwise = Plain.Returns v.
Proof.
  intros (tbl & Hl & Hk & Hv). apply truthy_true_iff in Hv.
  unfold Plain.entry, Plain.lookup, Plain.readLanguage, Plain.readKey.
  now rewrite Hl, Hk, Hv.
Qed.

(** When the prototype has not been replaced and neither name is one of
    [Object.prototype], the reads stay within the own properties. *)
Lemma plain_entry_own (l : Plain.Languages) (lang k : string)
    (otherwise : Plain.Resolution) :
  Plain.prototype l = None ->
  Plain.inherited lang = false ->
  Plain.inherited k = false ->
  Plain.entry l lang k otherwise
  = match truthyEntry (Plain.own l) lang k with
    | Some v => Plain.Returns v
    | None => otherwise
    end.
Proof.
  intros Hp Hl Hk.
  unfold Plain.entry, Plain.lookup, Plain.readLanguage, Plain.readKey,
    truthyEntry.
  rewrite Hp, Hl, Hk.
  destruct (Plain.own l !! lang) as [tbl|]; [|reflexivity].
  destruct (tbl !! k) as [v|]; [|reflexivity].
  now destruct (Js.truthy v).
Qed.

(** On such names [t] above is what the engine's [t] returns. *)
Lemma plain_t_own (self : Tenlixor) (k : string)
    (languageCode : option string) :
  Plain.inherited (effectiveLanguage self languageCode) = false ->
  Plain.inherited (config_fallbackLanguage (config self)) = false ->
  Plain.inherited k = false ->
  Plain.t (Plain.languagesOf self) (currentLanguage self)
          (config_fallbackLanguage (config self)) k languageCode
  = Plain.Returns (t self k languageCode).
Proof.
  intros Hl Hf Hk. unfold Plain.t, t. fold (effectiveLanguage self languageCode).
  rewrite !plain_entry_own by (try reflexivity; assumption).
  cbn [Plain.languagesOf Plain.own].
  destruct (truthyEntry _ (effectiveLanguage self languageCode) k);
    [reflexivity|].
  case_bool_decide; [|reflexivity].
  now destruct (truthyEntry _ (config_fallbackLanguage (config self)) k).
Qed.

(** C1, amended.  [t] reads [this.data.languages], [this.currentLanguage]
    and [this.config.fallbackLanguage]; let [lang] be the given language
    code when it is given and non-empty, and [currentLanguage] otherwise.
    When the prototype of [this.data.languages] has not been replaced and
    none of [lang], the fallback language and [k] is the name of a member of
    [Object.prototype]: (1) when the table of [lang] maps [k] to a non-empty
    value, [t] returns it; (2) otherwise, when [lang] is not the fallback
    language and the fallback table maps [k] to a non-empty value, [t]
    returns that; (3) otherwise [t] returns [k].  So a key with a non-empty
    value in the fallback table alone resolves to it under any other
    current language.  On these inputs [t] returns a string and does not
    throw. *)
Theorem t_resolution (l : Plain.Languages)
    (currentLanguage fallbackLanguage k : string)
    (languageCode : option string) :
  Plain.prototype l = None ->
  Plain.inherited (Js.orString languageCode currentLanguage) = false ->
  Plain.inherited fallbackLanguage = false ->
  Plain.inherited k = false ->
  let lang := Js.orString languageCode currentLanguage in
  let fb := fallbackLanguage in
  let tbl := Plain.own l in
  let result := Plain.t l currentLanguage fallbackLanguage k languageCode in
  lang = match languageCode with
         | Some c => if bool_decide (c = "") then currentLanguage else c
         | None => currentLanguage
         end /\
  (forall v, mapsTo tbl lang k v -> result = Plain.Returns v) /\
  (unmapped tbl lang k -> lang <> fb ->
   forall v, mapsTo tbl fb k v -> result = Plain.Returns v) /\
  (unmapped tbl lang k -> lang = fb \/ unmapped tbl fb k ->
   result = Plain.Returns k) /\
  (forall v, languageCode = None -> currentLanguage <> fb ->
     unmapped tbl currentLanguage k -> mapsTo tbl fb k v ->
     Plain.t l currentLanguage fallbackLanguage k None = Plain.Returns v) /\
  result <> Plain.Escapes.
Proof.
  intros Hp Hl Hf Hk. cbn zeta. unfold Plain.t.
  set (lang := Js.orString languageCode currentLanguage) in *.
  rewrite !plain_entry_own by assumption.
  assert (Hfb : forall v, unmapped (Plain.own l) lang k -> lang <> fallbackLanguage ->
                  mapsTo (Plain.own l) fallbackLanguage k v ->
                  match truthyEntry (Plain.own l) lang k with
                  | Some v0 => Plain.Returns v0
                  | None =>
                      if bool_decide (lang <> fallbackLanguage)
                      then match truthyEntry (Plain.own l) fallbackLanguage k with
                           | Some v0 => Plain.Returns v0
                           | None => Plain.Returns k
                           end
                      else Plain.Returns k
                  end = Plain.Returns v).
  { intros v Hun Hne Hv. apply truthyEntry_None in Hun.
    apply truthyEntry_Some in Hv. rewrite Hun, Hv.
    now rewrite bool_decide_eq_true_2. }
  split; [|split; [|split; [|split; [|split]]]].
  - subst lang. unfold Js.orString.
    destruct languageCode as [c|]; [|reflexivity].
    destruct c; reflexivity.
  - intros v Hv. apply truthyEntry_Some in Hv. now rewrite Hv.
  - intros Hun Hne v Hv. now apply Hfb.
  - intros Hun Hor. apply truthyEntry_None in Hun. rewrite Hun.
    case_bool_decide as Hne; [|reflexivity].
    destruct Hor as [Heq|Hun']; [contradiction|].
    apply truthyEntry_None in Hun'. now rewrite Hun'.
  - intros v -> Hne Hun Hv. subst lang. cbn [Js.orString] in *.
    rewrite plain_entry_own by assumption.
    apply truthyEntry_None in Hun. apply truthyEntry_Some in Hv.
    rewrite Hun, bool_decide_eq_true_2 by exact Hne. now rewrite Hv.
  - destruct (truthyEntry (Plain.own l) lang k); [discriminate|].
    case_bool_decide; [|discriminate].
    now destruct (truthyEntry (Plain.own l) fallbackLanguage k).
Qed.


(** ** Running the state transformers *)

Lemma bind_run {A B : Type} (c : M A) (f : A -> M B) (m : Machine) :
  (c ≫= f) m = match c m with
               | (Js.Return a, m') => f a m'
               | (Js.Throw e, m') => (Js.Throw e, m')
               end.
Proof. reflexivity. Qed.

Lemma logged_nil (m : Machine) : logged [] m = m.
Proof.
  destruct m as [s w]. destruct w. unfold logged, set_effects. cbn.
  now rewrite app_nil_r.
Qed.

Lemma logged_logged (l1 l2 : list Effect) (m : Machine) :
  logged l2 (logged l1 m) = logged (l1 ++ l2) m.
Proof. unfold logged, set_effects. cbn. now rewrite app_assoc. Qed.

Lemma effect_run (e : Effect) (m : Machine) :
  effect e m = (Js.Return tt, logged [e] m).
Proof. reflexivity. Qed.

(** Unfolds the sequencing of a method body applied to a machine, reading
    [this] and the host on the way. *)
Ltac run :=
  repeat (rewrite bind_run;
          cbn [this host effect update updateWorld mret M_ret throw
               self world]).

(** ** The event bus *)

Lemma notify_all_run (ev : TenlixorEventType) (payload : EventData)
    (cbs : list TenlixorEventHandler) (m : Machine) :
  forEach
    (fun cb =>
       tryCatch (invoke cb payload)
         (fun _ =>
            effect (ConsoleError
                      ("Tenlixor: Error in " ++ eventName ev ++ " listener:"))))
    cbs m
  = (Js.Return tt,
     logged (concat (List.map (notified (world m) ev payload) cbs)) m).
Proof.
  revert m. induction cbs as [|cb cbs IH]; intros m.
  - cbn. now rewrite logged_nil.
  - cbn [forEach List.map concat]. rewrite bind_run.
    unfold tryCatch at 1. unfold invoke. rewrite bind_run, effect_run.
    rewrite bind_run. cbn [host logged world callback set_effects].
    unfold notified at 1.
    destruct (callback (world m) cb payload) as [e|] eqn:E.
    + cbn [throw]. rewrite effect_run, IH, !logged_logged. cbn.
      reflexivity.
    + cbn [mret M_ret]. rewrite IH, logged_logged. reflexivity.
Qed.

Lemma emit_run (ev : TenlixorEventType) (payload : EventData) (m : Machine) :
  emit ev payload m
  = (Js.Return tt,
     logged (emitEffects (world m) ev payload
               (listenersOf ev (listeners (self m)))) m).
Proof.
  unfold emit, emitEffects. rewrite bind_run, effect_run, bind_run.
  cbn [this]. rewrite notify_all_run, logged_logged. reflexivity.
Qed.

Lemma calls_notified (w : World) (ev : TenlixorEventType)
    (payload : EventData) (cbs : list TenlixorEventHandler) :
  calls (concat (List.map (notified w ev payload) cbs))
  = List.map (fun cb => (cb, payload)) cbs.
Proof.
  induction cbs as [|cb cbs IH]; [reflexivity|].
  cbn [List.map concat]. unfold calls in *. rewrite omap_app, IH.
  unfold notified. destruct (callback w cb payload); reflexivity.
Qed.

Lemma consoleErrors_notified (w : World) (ev : TenlixorEventType)
    (payload : EventData) (cbs : list TenlixorEventHandler) :
  consoleErrors (concat (List.map (notified w ev payload) cbs))
  = length (throwing w payload cbs).
Proof.
  induction cbs as [|cb cbs IH]; [reflexivity|].
  cbn [List.map concat]. unfold consoleErrors, throwing in *.
  rewrite List.filter_app, length_app, IH. cbn [List.filter].
  unfold notified. destruct (callback w cb payload); reflexivity.
Qed.

(** C8.  [emit] returns normally whatever the subscribers do; the calls it
    makes are, in order, one call with the event's payload for each
    registered subscriber of that event, the throwing ones included, and one
    console error is logged per throwing subscriber; nothing else of the
    machine changes.  The order is the order of registration, since [on]
    appends.  With two [loaded] listeners of which the first throws, both
    are called once. *)
Theorem emit_calls_every_listener_once (ev : TenlixorEventType)
    (payload : EventData) (m : Machine) :
  let cbs := listenersOf ev (listeners (self m)) in
  (exists added,
     emit ev payload m = (Js.Return tt, logged (Emitted ev payload :: added) m)
     /\ calls added = List.map (fun cb => (cb, payload)) cbs
     /\ consoleErrors added = length (throwing (world m) payload cbs)) /\
  (forall cb,
     listenersOf ev (listeners (self (snd (on ev cb m)))) = (cbs ++ [cb])%list
     /\ fst (on ev cb m) = Js.Return tt) /\
  (forall first second,
     cbs = [first; second] ->
     is_Some (callback (world m) first payload) ->
     exists added,
       emit ev payload m
       = (Js.Return tt, logged (Emitted ev payload :: added) m)
       /\ calls added = [(first, payload); (second, payload)]).
Proof.
  cbn zeta. repeat split.
  - eexists. split; [rewrite emit_run; reflexivity|]. split.
    + apply calls_notified.
    + apply consoleErrors_notified.
  - cbn. now destruct ev.
  - intros first second Hcbs _. eexists.
    split; [rewrite emit_run; reflexivity|].
    rewrite calls_notified, Hcbs. reflexivity.
Qed.

(** ** The cache store *)

Lemma memoryTier_run (ignoreTTL : bool) (languageCode : string) (m : Machine) :
  memoryTier (getCacheKey (self m) languageCode) ignoreTTL m
  = (Js.Return (memoryLookup ignoreTTL m languageCode), m).
Proof.
  unfold memoryTier, memoryLookup. run.
  destruct (memoryCache (self m) !! getCacheKey (self m) languageCode)
    as [e|]; [|reflexivity].
  now destruct (valid ignoreTTL (self m) (world m) e).
Qed.

Lemma getFromCache_run (ignoreTTL : bool) (languageCode : string)
    (m : Machine) :
  getFromCache languageCode ignoreTTL m
  = (Js.Return (cacheLookup ignoreTTL m languageCode),
     afterRead m languageCode).
Proof.
  unfold getFromCache, cacheLookup, afterRead, unreadable, durableItem.
  run. unfold tryCatch.
  destruct (localStorage (world m)) as [ls|].
  2:{ now rewrite memoryTier_run. }
  destruct (items ls !! getCacheKey (self m) languageCode) as [[e|s]|];
    [ | |now rewrite memoryTier_run].
  - cbn [truthyItem JSON_parse]. rewrite bind_run. cbn [mret M_ret].
    destruct (valid ignoreTTL (self m) (world m) e); [reflexivity|].
    now rewrite memoryTier_run.
  - cbn [truthyItem]. destruct (Js.truthy s);
      [reflexivity | now rewrite memoryTier_run].
Qed.

Lemma saveToCache_tiers (languageCode : string) (d : TenlixorResponseData)
    (m : Machine) :
  writable m ->
  let e := {| timestamp := now (world m); entry_data := d |} in
  let m' := snd (saveToCache languageCode d m) in
  fst (saveToCache languageCode d m) = Js.Return tt
  /\ config (self m') = config (self m)
  /\ getCacheKey (self m') languageCode = getCacheKey (self m) languageCode
  /\ memoryCache (self m') !! getCacheKey (self m) languageCode = Some e
  /\ (forall n, durableItem (atTime n m') languageCode
                = match localStorage (world m) with
                  | Some _ => Some (Json e)
                  | None => None
                  end).
Proof.
  intros Hw. cbn zeta. unfold saveToCache, durableItem, atTime.
  run. unfold tryCatch. rewrite bind_run.
  destruct (localStorage (world m)) as [ls|] eqn:E.
  - unfold setItem. rewrite (Hw ls E). cbn.
    rewrite !lookup_insert_eq. repeat split; reflexivity.
  - cbn. rewrite E, lookup_insert_eq. repeat split; reflexivity.
Qed.

(** C7.  An entry written by [saveToCache] at time [T] under the TTL [D] is
    returned by [getFromCache] without [ignoreTTL] at time [T + D - 1], is
    not returned at time [T + D + 1], and is returned with [ignoreTTL] at
    every time.  (The write goes through: [setItem] does not throw.) *)
Theorem cache_entry_freshness (languageCode : string)
    (payload : TenlixorResponseData) (m : Machine) :
  writable m ->
  let T := now (world m) in
  let D := config_cacheTTL (config (self m)) in
  let m' := snd (saveToCache languageCode payload m) in
  fst (getFromCache languageCode false (atTime (T + D - 1) m'))
    = Js.Return (Some payload)
  /\ fst (getFromCache languageCode false (atTime (T + D + 1) m'))
     = Js.Return None
  /\ forall n, fst (getFromCache languageCode true (atTime n m'))
               = Js.Return (Some payload).
Proof.
  intros Hw. cbn zeta.
  destruct (saveToCache_tiers languageCode payload m Hw)
    as (_ & Hcfg & Hkey & Hmem & Hdur).
  set (m' := snd (saveToCache languageCode payload m)) in *.
  assert (Hlook : forall ign n,
            cacheLookup ign (atTime n m') languageCode
            = if ign || (n - now (world m)
                         <? config_cacheTTL (config (self m)))%Z
              then Some payload else None).
  { intros ign n. unfold cacheLookup, memoryLookup. rewrite Hdur.
    cbn [atTime self]. rewrite Hkey, Hmem. unfold valid.
    cbn [atTime self world set_now now timestamp entry_data]. rewrite Hcfg.
    destruct (localStorage (world m)); cbn [timestamp entry_data];
      now destruct (ign || (n - now (world m)
                            <? config_cacheTTL (config (self m)))%Z). }
  rewrite !getFromCache_run. cbn [fst]. repeat split.
  - rewrite Hlook. cbn [orb].
    now rewrite (proj2 (Z.ltb_lt _ _)) by lia.
  - rewrite Hlook. cbn [orb].
    now rewrite (proj2 (Z.ltb_ge _ _)) by lia.
  - intros n. rewrite getFromCache_run. cbn [fst]. now rewrite Hlook.
Qed.

(** ** Loading a language *)

Lemma fetchStrings_blocks (languageCode : string) :
  fetchStrings languageCode
  = (s ← this;
     hit ← (if config_cache (config s) then getFromCache languageCode false
            else mret None);
     match hit with
     | Some cached => mergeDataM cached ;; mret cached
     | None => tryCatch (tryBlock s languageCode) (catchBlock s languageCode)
     end).
Proof. reflexivity. Qed.

Lemma awaitFetch_run (languageCode : string) (m : Machine) :
  awaitFetch languageCode m
  = (match fetch (world m) languageCode with
     | NetworkError e => Js.Throw e
     | Response status statusText body =>
         Js.Return (status, statusText, body)
     end, requested languageCode m).
Proof.
  unfold awaitFetch. run. cbn.
  now destruct (fetch (world m) languageCode).
Qed.

(** The [try] block throws exactly when the transport fails, and then it
    has only sent the request. *)
Lemma tryBlock_throws (s : Tenlixor) (languageCode : string) (m : Machine)
    (e : Js.Thrown) :
  transport (world m) languageCode = Js.Throw e ->
  tryBlock s languageCode m = (Js.Throw e, requested languageCode m).
Proof.
  unfold transport, tryBlock. rewrite bind_run, awaitFetch_run.
  destruct (fetch (world m) languageCode) as [e'|status statusText body].
  - now intros [= ->].
  - destruct (negb (ok status)).
    + destruct (status =? 401)%Z; now intros [= <-].
    + destruct body as [r|e']; cbn [awaitJson].
      * rewrite bind_run. cbn [mret M_ret].
        destruct (negb (success r)); [now intros [= <-] | discriminate].
      * now intros [= ->].
Qed.

(** The [try] block returns the payload when the transport succeeds, and
    touches neither the lifecycle fields nor the listeners. *)
Lemma tryBlock_returns (s : Tenlixor) (languageCode : string) (m : Machine)
    (d : TenlixorResponseData) :
  transport (world m) languageCode = Js.Return d ->
  exists m', tryBlock s languageCode m = (Js.Return d, m')
    /\ store_languages (this_data (self m'))
       = store_languages (mergeData d (this_data (self m)))
    /\ config (self m') = config (self m)
    /\ listeners (self m') = listeners (self m)
    /\ isInitialized (self m') = isInitialized (self m)
    /\ currentLanguage (self m') = currentLanguage (self m)
    /\ isLoading (self m') = isLoading (self m)
    /\ callback (world m') = callback (world m)
    /\ document (world m') = document (world m).
Proof.
  unfold transport, tryBlock. rewrite bind_run, awaitFetch_run.
  destruct (fetch (world m) languageCode) as [e'|status statusText body];
    [discriminate|].
  destruct (negb (ok status)); [destruct (status =? 401)%Z; discriminate|].
  destruct body as [r|e']; [|discriminate]. cbn [awaitJson].
  rewrite bind_run. cbn [mret M_ret].
  destruct (negb (success r)); [discriminate|]. intros [= <-].
  rewrite bind_run.
  set (m1 := snd ((if Js.truthy (tenant_id (data r))
                   then update (fun s0 =>
                          set_data (set_tenant_id (tenant_id (data r))
                                                  (this_data s0)) s0)
                   else mret tt) (requested languageCode m))).
  assert (H1 : (if Js.truthy (tenant_id (data r))
                then update (fun s0 =>
                       set_data (set_tenant_id (tenant_id (data r))
                                               (this_data s0)) s0)
                else mret tt) (requested languageCode m)
               = (Js.Return tt, m1)).
  { subst m1. now destruct (Js.truthy (tenant_id (data r))). }
  rewrite H1, bind_run. unfold mergeDataM at 1. cbn [update].
  rewrite bind_run.
  assert (Hm1 : store_languages (this_data (self m1))
                = store_languages (this_data (self m))
                /\ config (self m1) = config (self m)
                /\ listeners (self m1) = listeners (self m)
                /\ isInitialized (self m1) = isInitialized (self m)
                /\ currentLanguage (self m1) = currentLanguage (self m)
                /\ isLoading (self m1) = isLoading (self m)
                /\ callback (world m1) = callback (world m)
                /\ document (world m1) = document (world m)).
  { subst m1. now destruct (Js.truthy (tenant_id (data r))). }
  destruct Hm1 as (Hl & Hc & Hli & Hi & Hcu & Hlo & Hcb & Hdoc).
  assert (Hmerge : store_languages (mergeData (data r) (this_data (self m1)))
                   = store_languages (mergeData (data r) (this_data (self m)))).
  { unfold mergeData. destruct (languages (data r)); cbn; now rewrite Hl. }
  destruct (config_cache (config s)).
  - unfold saveToCache. run. unfold tryCatch. rewrite bind_run.
    cbn [self world set_data memoryCache].
    destruct (localStorage (world m1)) as [ls|] eqn:E.
    + unfold setItem. destruct (quotaExceeded ls); cbn;
        (eexists; split; [reflexivity|]); cbn; now repeat split.
    + cbn. eexists. split; [reflexivity|]. cbn. now repeat split.
  - cbn. eexists. split; [reflexivity|]. cbn. now repeat split.
Qed.

Lemma afterRead_self (m : Machine) (c : string) : self (afterRead m c) = self m.
Proof. unfold afterRead. now destruct (unreadable m c). Qed.

Lemma afterRead_world (m : Machine) (c : string) :
  localStorage (world (afterRead m c)) = localStorage (world m)
  /\ fetch (world (afterRead m c)) = fetch (world m)
  /\ callback (world (afterRead m c)) = callback (world m)
  /\ document (world (afterRead m c)) = document (world m)
  /\ now (world (afterRead m c)) = now (world m).
Proof. unfold afterRead. destruct (unreadable m c); now repeat split. Qed.

Lemma cacheLookup_stale_stores (m m' : Machine) (c : string) :
  self m' = self m -> localStorage (world m') = localStorage (world m) ->
  cacheLookup true m' c = cacheLookup true m c.
Proof.
  intros Hs Hl. unfold cacheLookup, memoryLookup, durableItem, valid.
  cbn [orb]. now rewrite Hs, Hl.
Qed.

Lemma cacheLookup_stale_miss (m : Machine) (c : string) :
  cacheLookup true m c = None -> cacheLookup false m c = None.
Proof.
  unfold cacheLookup, memoryLookup, valid. cbn [orb].
  destruct (durableItem m c) as [[e|s]|]; [discriminate| |].
  - destruct (Js.truthy s); [reflexivity|].
    now destruct (memoryCache (self m) !! getCacheKey (self m) c).
  - now destruct (memoryCache (self m) !! getCacheKey (self m) c).
Qed.

Lemma transport_fetch (w w' : World) (c : string) :
  fetch w' = fetch w -> transport w' c = transport w c.
Proof. unfold transport. now intros ->. Qed.

Lemma sameLifecycle_refl (m : Machine) : sameLifecycle m m.
Proof. now repeat split. Qed.

Lemma sameLifecycle_trans (m1 m2 m3 : Machine) :
  sameLifecycle m1 m2 -> sameLifecycle m2 m3 -> sameLifecycle m1 m3.
Proof. unfold sameLifecycle. intuition congruence. Qed.

Lemma sameLifecycle_afterRead (m : Machine) (c : string) :
  sameLifecycle m (afterRead m c).
Proof. unfold afterRead. destruct (unreadable m c); now repeat split. Qed.

Lemma sameLifecycle_requested (m : Machine) (c : string) :
  sameLifecycle m (requested c m).
Proof. now repeat split. Qed.

Lemma sameLifecycle_merged (m : Machine) (d : TenlixorResponseData) :
  sameLifecycle m (merged d m).
Proof. now repeat split. Qed.

Lemma sameLifecycle_failedLoad (m : Machine) (c : string) :
  sameLifecycle m (failedLoad c m).
Proof.
  unfold failedLoad. destruct (config_cache (config (self m))).
  - eapply sameLifecycle_trans; [apply sameLifecycle_afterRead|].
    eapply sameLifecycle_trans; [apply sameLifecycle_requested|].
    apply sameLifecycle_afterRead.
  - apply sameLifecycle_requested.
Qed.

Lemma failedLoad_self (m : Machine) (c : string) :
  self (failedLoad c m) = self m.
Proof.
  unfold failedLoad. destruct (config_cache (config (self m)));
    [|reflexivity].
  rewrite afterRead_self. cbn. apply afterRead_self.
Qed.

Lemma mergeDataM_run (d : TenlixorResponseData) (m : Machine) :
  (mergeDataM d ;; mret d) m = (Js.Return d, merged d m).
Proof. reflexivity. Qed.

(** Every run of [fetchStrings]: it throws [e] when the load fails with
    [e], leaving the engine as it was; otherwise it returns a payload from
    the fresh cache, the network or the stale cache, merged into the
    table. *)
Lemma fetchStrings_cases (languageCode : string) (m : Machine) :
  (exists e, loadFails m languageCode e
             /\ fetchStrings languageCode m
                = (Js.Throw e, failedLoad languageCode m))
  \/ (exists p m',
        fetchStrings languageCode m = (Js.Return p, m')
        /\ Origin m languageCode p
        /\ store_languages (this_data (self m'))
           = store_languages (mergeData p (this_data (self m)))
        /\ sameLifecycle m m').
Proof.
  rewrite fetchStrings_blocks. unfold loadFails, failedLoad.
  rewrite bind_run. cbn [this]. rewrite bind_run.
  destruct (config_cache (config (self m))) eqn:Hc.
  - rewrite getFromCache_run.
    destruct (cacheLookup false m languageCode) as [p|] eqn:Hfresh.
    + right. exists p, (merged p (afterRead m languageCode)).
      split; [apply mergeDataM_run|]. split; [now apply FreshCache|].
      split; [cbn [merged self this_data set_data];
              now rewrite afterRead_self|].
      eapply sameLifecycle_trans;
        [apply sameLifecycle_afterRead | apply sameLifecycle_merged].
    + unfold tryCatch.
      assert (Ht : transport (world (afterRead m languageCode)) languageCode
                   = transport (world m) languageCode)
        by (apply transport_fetch, afterRead_world).
      destruct (transport (world m) languageCode) as [d|e] eqn:Htr.
      * right.
        destruct (tryBlock_returns (self m) languageCode
                    (afterRead m languageCode) d Ht)
          as (m' & -> & Hl & Hrest).
        exists d, m'. split; [reflexivity|].
        split; [apply Network; [intros _; exact Hfresh | exact Htr]|].
        split; [rewrite Hl; now rewrite afterRead_self|].
        eapply sameLifecycle_trans; [apply sameLifecycle_afterRead|].
        exact Hrest.
      * rewrite (tryBlock_throws _ _ _ _ Ht). unfold catchBlock.
        rewrite Hc, bind_run, getFromCache_run.
        set (m1 := requested languageCode (afterRead m languageCode)).
        assert (Hst : cacheLookup true m1 languageCode
                      = cacheLookup true m languageCode).
        { apply cacheLookup_stale_stores.
          - subst m1. cbn. apply afterRead_self.
          - subst m1. cbn. apply afterRead_world. }
        rewrite Hst.
        destruct (cacheLookup true m languageCode) as [p|] eqn:Hstale.
        -- right. exists p, (merged p (afterRead m1 languageCode)).
           split; [apply mergeDataM_run|].
           split; [now apply (StaleCache _ _ _ e)|].
           split.
           { cbn [merged self this_data set_data]. rewrite afterRead_self.
             subst m1. cbn [requested self]. now rewrite afterRead_self. }
           eapply sameLifecycle_trans; [apply sameLifecycle_afterRead|].
           eapply sameLifecycle_trans; [apply sameLifecycle_requested|].
           eapply sameLifecycle_trans;
             [apply sameLifecycle_afterRead | apply sameLifecycle_merged].
        -- left. exists e. now repeat split.
  - cbn [mret M_ret]. unfold tryCatch.
    destruct (transport (world m) languageCode) as [d|e] eqn:Htr.
    + right.
      destruct (tryBlock_returns (self m) languageCode m d Htr)
        as (m' & -> & Hl & Hrest).
      exists d, m'. split; [reflexivity|].
      split; [apply Network; [intros H; congruence | assumption]|].
      split; assumption.
    + rewrite (tryBlock_throws _ _ _ _ Htr). unfold catchBlock. rewrite Hc.
      left. exists e. split; [split; [reflexivity | intros H; congruence]|].
      reflexivity.
Qed.






Lemma fetchStrings_fails (languageCode : string) (m : Machine)
    (e : Js.Thrown) :
  loadFails m languageCode e ->
  fetchStrings languageCode m = (Js.Throw e, failedLoad languageCode m).
Proof.
  intros [Htr Hmiss].
  destruct (fetchStrings_cases languageCode m)
    as [(e' & [Htr' _] & ->) | (p & m' & _ & Horigin & _)].
  - rewrite Htr in Htr'. now injection Htr' as ->.
  - destruct Horigin as [Hc H | _ H | e' Hc _ _ H].
    + apply Hmiss, cacheLookup_stale_miss in Hc. congruence.
    + congruence.
    + apply Hmiss in Hc. congruence.
Qed.

Lemma fetchStrings_succeeds (languageCode : string) (m : Machine) :
  (forall e, ~ loadFails m languageCode e) ->
  exists p m',
    fetchStrings languageCode m = (Js.Return p, m')
    /\ Origin m languageCode p
    /\ store_languages (this_data (self m'))
       = store_languages (mergeData p (this_data (self m)))
    /\ sameLifecycle m m'.
Proof.
  intros Hno.
  destruct (fetchStrings_cases languageCode m) as [(e & Hf & _) | H];
    [now destruct (Hno e) | exact H].
Qed.

(** ** The orchestrator *)

Lemma scan_run (m : Machine) : scan m = (Js.Return tt, scanned m).
Proof.
  unfold scan, scanned. run.
  destruct (isInitialized (self m)); [|reflexivity].
  now destruct (document (world m)).
Qed.

Lemma scanned_self (m : Machine) : self (scanned m) = self m.
Proof.
  unfold scanned. destruct (isInitialized (self m)); [|reflexivity].
  now destruct (document (world m)).
Qed.


Lemma emitted_notified (w : World) (ev : TenlixorEventType)
    (payload : EventData) (cbs : list TenlixorEventHandler) :
  emitted (concat (List.map (notified w ev payload) cbs)) = [].
Proof.
  induction cbs as [|cb cbs IH]; [reflexivity|].
  cbn [List.map concat]. unfold emitted in *. rewrite omap_app, IH.
  unfold notified. now destruct (callback w cb payload).
Qed.

Lemma observe_app (a b : list Effect) :
  (emitted (a ++ b) = emitted a ++ emitted b
   /\ calls (a ++ b) = calls a ++ calls b
   /\ fetches (a ++ b) = fetches a ++ fetches b)%list.
Proof. unfold emitted, calls, fetches. now rewrite !omap_app. Qed.

Lemma fetches_notified (w : World) (ev : TenlixorEventType)
    (payload : EventData) (cbs : list TenlixorEventHandler) :
  fetches (concat (List.map (notified w ev payload) cbs)) = [].
Proof.
  induction cbs as [|cb cbs IH]; [reflexivity|].
  cbn [List.map concat]. unfold fetches in *. rewrite omap_app, IH.
  unfold notified. now destruct (callback w cb payload).
Qed.

Lemma observe_emitEffects (w : World) (ev : TenlixorEventType)
    (payload : EventData) (cbs : list TenlixorEventHandler) :
  emitted (emitEffects w ev payload cbs) = [(ev, payload)]
  /\ calls (emitEffects w ev payload cbs)
     = List.map (fun cb => (cb, payload)) cbs
  /\ fetches (emitEffects w ev payload cbs) = [].
Proof.
  unfold emitEffects. split; [|split].
  - change (emitted (Emitted ev payload
                     :: concat (List.map (notified w ev payload) cbs)))
      with ((ev, payload)
            :: emitted (concat (List.map (notified w ev payload) cbs))).
    now rewrite emitted_notified.
  - change (calls (Emitted ev payload
                   :: concat (List.map (notified w ev payload) cbs)))
      with (calls (concat (List.map (notified w ev payload) cbs))).
    apply calls_notified.
  - change (fetches (Emitted ev payload
                     :: concat (List.map (notified w ev payload) cbs)))
      with (fetches (concat (List.map (notified w ev payload) cbs))).
    apply fetches_notified.
Qed.

Lemma unreadable_stores (m m' : Machine) (c : string) :
  self m' = self m -> localStorage (world m') = localStorage (world m) ->
  unreadable m' c = unreadable m c.
Proof. intros Hs Hl. unfold unreadable, durableItem. now rewrite Hs, Hl. Qed.

Lemma failedLoad_effects (languageCode : string) (m : Machine) :
  effects (world (failedLoad languageCode m))
  = (effects (world m) ++ failedLoadEffects languageCode m)%list.
Proof.
  unfold failedLoad, failedLoadEffects.
  destruct (config_cache (config (self m))); [|reflexivity].
  unfold afterRead at 1.
  rewrite (unreadable_stores m).
  - unfold afterRead. destruct (unreadable m languageCode); cbn;
      now rewrite <- ?app_assoc.
  - cbn. apply afterRead_self.
  - cbn. apply afterRead_world.
Qed.

Lemma failedLoad_lifecycle (languageCode : string) (m : Machine) :
  callback (world (failedLoad languageCode m)) = callback (world m)
  /\ document (world (failedLoad languageCode m)) = document (world m)
  /\ localStorage (world (failedLoad languageCode m))
     = localStorage (world m)
  /\ fetch (world (failedLoad languageCode m)) = fetch (world m).
Proof.
  unfold failedLoad. destruct (config_cache (config (self m)));
    [|now repeat split].
  unfold afterRead at 1 3 5 7.
  destruct (unreadable (requested languageCode (afterRead m languageCode))
                       languageCode); cbn;
    unfold afterRead; destruct (unreadable m languageCode);
    now repeat split.
Qed.

Lemma emitted_failedLoadEffects (languageCode : string) (m : Machine) :
  emitted (failedLoadEffects languageCode m) = []
  /\ calls (failedLoadEffects languageCode m) = []
  /\ fetches (failedLoadEffects languageCode m) = [languageCode].
Proof.
  unfold failedLoadEffects.
  destruct (config_cache (config (self m))); [|now repeat split].
  now destruct (unreadable m languageCode).
Qed.

Lemma loadFails_withLanguage (l c : string) (m : Machine) (e : Js.Thrown) :
  loadFails (withLanguage l m) c e <-> loadFails m c e.
Proof. reflexivity. Qed.

Lemma set_currentLanguage_back (l : string) (s : Tenlixor) :
  set_currentLanguage (currentLanguage s) (set_currentLanguage l s) = s.
Proof. now destruct s. Qed.

(** C3.  [setLanguage code] with [code] equal to [currentLanguage] returns
    at once and leaves the machine as it is (no request, no event, no
    change).  With another [code] whose load fails with [e], the call throws
    [e] to its caller; afterwards the engine is as before the call, so
    [currentLanguage] is the previous language; exactly one event was
    emitted, [error] with code [LANGUAGE_CHANGE_FAILED], and every [error]
    listener was called with it; the document is untouched. *)
Theorem setLanguage_rollback (languageCode : string) (m : Machine) :
  (languageCode = currentLanguage (self m) ->
   setLanguage languageCode m = (Js.Return tt, m)) /\
  (forall e,
     languageCode <> currentLanguage (self m) ->
     loadFails m languageCode e ->
     exists m' added,
       setLanguage languageCode m = (Js.Throw e, m')
       /\ self m' = self m
       /\ getLanguage (self m') = getLanguage (self m)
       /\ effects (world m') = (effects (world m) ++ added)%list
       /\ emitted added = [(error, failure "LANGUAGE_CHANGE_FAILED" e)]
       /\ calls added
          = List.map (fun cb => (cb, failure "LANGUAGE_CHANGE_FAILED" e))
                     (on_error (listeners (self m)))
       /\ fetches added = [languageCode]
       /\ document (world m') = document (world m)).
Proof.
  split.
  - intros ->. unfold setLanguage. run.
    now rewrite bool_decide_eq_true_2.
  - intros e Hne Hfail. unfold setLanguage. run.
    rewrite bool_decide_eq_false_2 by assumption. run.
    fold (withLanguage languageCode m).
    unfold tryCatch. rewrite bind_run.
    rewrite (fetchStrings_fails languageCode (withLanguage languageCode m) e)
      by now apply loadFails_withLanguage.
    run. rewrite emit_run. run.
    set (m1 := failedLoad languageCode (withLanguage languageCode m)).
    assert (Hself : set_currentLanguage (currentLanguage (self m)) (self m1)
                    = self m).
    { subst m1. rewrite failedLoad_self. apply set_currentLanguage_back. }
    destruct (failedLoad_lifecycle languageCode (withLanguage languageCode m))
      as (Hcb & Hdoc & _). fold m1 in Hcb, Hdoc.
    destruct (emitted_failedLoadEffects languageCode
                (withLanguage languageCode m)) as (Hem & Hca & Hfe).
    eexists.
    exists (failedLoadEffects languageCode (withLanguage languageCode m)
            ++ emitEffects (world m1) error
                 (failure "LANGUAGE_CHANGE_FAILED" e)
                 (on_error (listeners (self m))))%list.
    split; [reflexivity|].
    cbn [logged self world set_effects effects document listeners].
    rewrite Hself.
    split; [reflexivity|]. split; [reflexivity|].
    split.
    { subst m1. rewrite failedLoad_effects, <- app_assoc. reflexivity. }
    destruct (observe_app
                (failedLoadEffects languageCode (withLanguage languageCode m))
                (emitEffects (world m1) error
                   (failure "LANGUAGE_CHANGE_FAILED" e)
                   (on_error (listeners (self m))))) as (-> & -> & ->).
    rewrite Hem, Hca, Hfe.
    destruct (observe_emitEffects (world m1) error
                (failure "LANGUAGE_CHANGE_FAILED" e)
                (on_error (listeners (self m)))) as (-> & -> & ->).
    now repeat split.
Qed.

Lemma tryFinally_update_run {A : Type} (body : M A)
    (f : Tenlixor -> Tenlixor) (m : Machine) :
  tryFinally body (update f) m
  = (fst (body m),
     {| self := f (self (snd (body m))); world := world (snd (body m)) |}).
Proof. unfold tryFinally. now destruct (body m) as [r m1]. Qed.

Lemma set_isLoading_back (s : Tenlixor) :
  isLoading s = false -> set_isLoading false (set_isLoading true s) = s.
Proof. destruct s. cbn. now intros ->. Qed.

Lemma init_blocks (m : Machine) :
  init m
  = if isLoading (self m) then (Js.Return tt, m)
    else tryFinally (tryCatch initBlock initHandler)
                    (update (set_isLoading false)) (loadingStarted m).
Proof. unfold init. run. now destruct (isLoading (self m)). Qed.

Lemma initBlock_fails (m : Machine) (e : Js.Thrown) :
  loadFails m (currentLanguage (self m)) e ->
  initBlock m = (Js.Throw e, failedLoad (currentLanguage (self m)) m).
Proof.
  intros Hfail. unfold initBlock. run.
  now rewrite (fetchStrings_fails _ _ _ Hfail).
Qed.

(** When the load succeeds the [try] block of [init] returns, with the
    engine initialized. *)
Lemma initBlock_succeeds (m : Machine) :
  (forall e, ~ loadFails m (currentLanguage (self m)) e) ->
  exists m', initBlock m = (Js.Return tt, m')
             /\ isInitialized (self m') = true.
Proof.
  intros Hno. unfold initBlock. run.
  destruct (fetchStrings_succeeds _ _ Hno) as (p & m1 & -> & _ & _ & Hsame).
  run.
  set (m2 := {| self := set_isInitialized true (self m1);
                world := world m1 |}).
  assert (Hscan : exists m3,
            (if config_autoScan (config (self m)) then
               w ← host;
               match document w with
               | Some d =>
                   match Dom.readyState d with
                   | Dom.loading => effect DomContentLoadedListener
                   | _ => scan
                   end
               | None => mret tt
               end
             else mret tt) m2 = (Js.Return tt, m3)
            /\ isInitialized (self m3) = true).
  { destruct (config_autoScan (config (self m)));
      [|exists m2; split; reflexivity].
    run. destruct (document (world m2)) as [d|];
      [|exists m2; split; reflexivity].
    destruct (Dom.readyState d).
    - eexists. split; [reflexivity|]. reflexivity.
    - rewrite scan_run. eexists. split; [reflexivity|].
      now rewrite scanned_self.
    - rewrite scan_run. eexists. split; [reflexivity|].
      now rewrite scanned_self. }
  destruct Hscan as (m3 & -> & Hinit). rewrite emit_run.
  eexists. split; [reflexivity|]. exact Hinit.
Qed.

(** Whether the load of a language fails is decided by the transport and
    the stale lookup. *)
Lemma loadFails_dec (m : Machine) (c : string) :
  (exists e, loadFails m c e) \/ (forall e, ~ loadFails m c e).
Proof.
  unfold loadFails.
  destruct (transport (world m) c) as [d|e]; [right; intros e [H _]; congruence|].
  destruct (config_cache (config (self m))).
  - destruct (cacheLookup true m c) as [p|].
    + right. intros e' [_ H]. now specialize (H eq_refl).
    + left. exists e. auto.
  - left. exists e. split; [reflexivity | discriminate].
Qed.

(** C5.  [init] on an engine that is loading returns at once and leaves the
    machine as it is.  Otherwise [init] never throws and [isLoading] is
    false when it returns, whether the load succeeded or failed; and when the
    load of the current language fails with [e], the engine afterwards is as
    before the call, so [isInitialized] is not set and [isReady()] is still
    false on an engine that was not initialized, and exactly one event was
    emitted, [error] with code [INIT_FAILED], to every [error] listener.
    When the load succeeds [isReady()] is true. *)
Theorem init_reports_failure (m : Machine) :
  (isLoading (self m) = true -> init m = (Js.Return tt, m)) /\
  (isLoading (self m) = false ->
   fst (init m) = Js.Return tt
   /\ isLoading (self (snd (init m))) = false
   /\ (forall e,
         loadFails m (currentLanguage (self m)) e ->
         exists added,
           self (snd (init m)) = self m
           /\ isInitialized (self (snd (init m))) = isInitialized (self m)
           /\ (isInitialized (self m) = false ->
               isReady (self (snd (init m))) = false)
           /\ effects (world (snd (init m)))
              = (effects (world m) ++ added)%list
           /\ emitted added = [(error, failure "INIT_FAILED" e)]
           /\ calls added
              = List.map (fun cb => (cb, failure "INIT_FAILED" e))
                         (on_error (listeners (self m))))
   /\ ((forall e, ~ loadFails m (currentLanguage (self m)) e) ->
       isReady (self (snd (init m))) = true)).
Proof.
  rewrite init_blocks. split; [now intros ->|]. intros Hl. rewrite Hl.
  rewrite tryFinally_update_run. cbn [fst snd self].
  split; [|split; [reflexivity|split]].
  - unfold tryCatch.
    destruct (initBlock (loadingStarted m)) as [[[]|e] m1]; [reflexivity|].
    unfold initHandler. now rewrite emit_run.
  - intros e Hfail. unfold tryCatch.
    rewrite (initBlock_fails (loadingStarted m) e Hfail).
    unfold initHandler. rewrite emit_run.
    cbn [logged self world snd set_effects effects loadingStarted
         currentLanguage set_isLoading listeners].
    set (cur := currentLanguage (self m)).
    rewrite !failedLoad_self. cbn [loadingStarted self listeners
                                    set_isLoading listenersOf].
    rewrite (set_isLoading_back _ Hl).
    exists (failedLoadEffects cur (loadingStarted m)
            ++ emitEffects (world (failedLoad cur (loadingStarted m))) error
                 (failure "INIT_FAILED" e)
                 (on_error (listeners (self m))))%list.
    split; [reflexivity|]. split; [reflexivity|].
    split; [intros H; exact H|].
    split; [rewrite failedLoad_effects, <- app_assoc; reflexivity|].
    destruct (observe_app (failedLoadEffects cur (loadingStarted m))
                (emitEffects (world (failedLoad cur (loadingStarted m)))
                   error (failure "INIT_FAILED" e)
                   (on_error (listeners (self m))))) as (-> & -> & _).
    destruct (emitted_failedLoadEffects cur (loadingStarted m))
      as (-> & -> & _).
    destruct (observe_emitEffects
                (world (failedLoad cur (loadingStarted m))) error
                (failure "INIT_FAILED" e) (on_error (listeners (self m))))
      as (-> & -> & _).
    now split.
  - intros Hno. unfold tryCatch.
    destruct (initBlock_succeeds (loadingStarted m) Hno) as (m' & -> & Hi).
    exact Hi.
Qed.

Lemma clearCache_run (languageCode : string) (m : Machine) :
  clearCache languageCode m = (Js.Return tt, cleared languageCode m).
Proof.
  unfold clearCache, cleared. run. unfold tryCatch. rewrite bind_run.
  now destruct (localStorage (world m)).
Qed.

Lemma cleared_lookup (languageCode : string) (m : Machine) :
  cacheLookup true (cleared languageCode m) languageCode = None.
Proof.
  unfold cacheLookup, memoryLookup, durableItem, cleared.
  cbn [self world set_memoryCache memoryCache this_data getCacheKey].
  change (getCacheKey
            (set_memoryCache
               (delete (getCacheKey (self m) languageCode)
                       (memoryCache (self m))) (self m)) languageCode)
    with (getCacheKey (self m) languageCode).
  rewrite lookup_delete_eq.
  destruct (localStorage (world m)) as [ls|] eqn:E; cbn.
  - now rewrite lookup_delete_eq.
  - now rewrite E.
Qed.

Lemma cleared_frame (languageCode : string) (m : Machine) :
  fetch (world (cleared languageCode m)) = fetch (world m)
  /\ effects (world (cleared languageCode m)) = effects (world m)
  /\ config (self (cleared languageCode m)) = config (self m)
  /\ currentLanguage (self (cleared languageCode m))
     = currentLanguage (self m).
Proof. unfold cleared. cbn. now destruct (localStorage (world m)). Qed.

(** C2, on the code.  When the transport fails for the current language,
    [reload] throws that failure to its caller, and what it did before was
    to clear the cache entry and send the request: no event was emitted and
    no listener was called.  The claim says the failure is caught, turned
    into an [error] event and not thrown. *)
Theorem reload_propagates_failure (m : Machine) (e : Js.Thrown) :
  transport (world m) (currentLanguage (self m)) = Js.Throw e ->
  exists m' added,
    reload m = (Js.Throw e, m')
    /\ effects (world m') = (effects (world m) ++ added)%list
    /\ emitted added = []
    /\ calls added = []
    /\ fetches added = [currentLanguage (self m)].
Proof.
  intros Htr. unfold reload. run.
  set (cur := currentLanguage (self m)) in *.
  assert (Hpre : (if config_cache (config (self m))
                  then clearCache cur else mret tt) m
                 = (Js.Return tt, beforeReload m)).
  { unfold beforeReload. fold cur.
    destruct (config_cache (config (self m)));
      [apply clearCache_run | reflexivity]. }
  rewrite Hpre. run.
  assert (Hfail : loadFails (beforeReload m) cur e).
  { unfold loadFails, beforeReload. fold cur.
    destruct (config_cache (config (self m))) eqn:Hc.
    - split; [|intros _; apply cleared_lookup].
      rewrite (transport_fetch (world m)); [exact Htr|].
      apply cleared_frame.
    - split; [exact Htr | congruence]. }
  rewrite (fetchStrings_fails _ _ _ Hfail).
  exists (failedLoad cur (beforeReload m)),
         (failedLoadEffects cur (beforeReload m)).
  split; [reflexivity|]. split.
  - rewrite failedLoad_effects. f_equal.
    unfold beforeReload. destruct (config_cache (config (self m)));
      [apply cleared_frame | reflexivity].
  - apply emitted_failedLoadEffects.
Qed.

(** ** The scanner *)

(** Induction on a tree, with the hypothesis on every child. *)
Lemma node_induction (P : Dom.Node -> Prop) :
  (forall content, P (Dom.Text content)) ->
  (forall text, P (Dom.Comment text)) ->
  (forall tg attrs cs, Forall P cs -> P (Dom.Element tg attrs cs)) ->
  forall n, P n.
Proof.
  intros text_case comment_case element_case.
  fix IH 1. intros [content|tg attrs cs|text].
  - apply text_case.
  - apply element_case. induction cs as [|c cs IHcs].
    + apply List.Forall_nil.
    + apply List.Forall_cons; [apply IH | exact IHcs].
  - apply comment_case.
Qed.

Section Scanner.

Variable self : Tenlixor.
Variable lang : string.

Lemma scanChildren_forEach (cs : list Dom.Node) (attrs : gmap string string) :
  (fix forEach (l : list Dom.Node) (a : gmap string string)
     : list Dom.Node * gmap string string :=
     match l with
     | [] => ([], a)
     | child :: rest =>
         let '(child', a1) := scanTextNodes self lang child a in
         let '(rest', a2) := forEach rest a1 in
         (child' :: rest', a2)
     end) cs attrs
  = scanChildren self lang cs attrs.
Proof.
  revert attrs. induction cs as [|c cs IH]; intros attrs; [reflexivity|].
  cbn [scanChildren]. destruct (scanTextNodes self lang c attrs) as [c' a1].
  now rewrite IH.
Qed.

Lemma scanTextNodes_element (tg : string) (attrs : gmap string string)
    (cs : list Dom.Node) (parent : gmap string string) :
  scanTextNodes self lang (Dom.Element tg attrs cs) parent
  = if Dom.hasAttribute attr_resolved attrs
    then (Dom.Element tg attrs cs, parent)
    else if skippedTag tg then (Dom.Element tg attrs cs, parent)
    else (Dom.Element tg (snd (scanChildren self lang cs attrs))
                      (fst (scanChildren self lang cs attrs)), parent).
Proof.
  cbn [scanTextNodes].
  destruct (Dom.hasAttribute attr_resolved attrs); [reflexivity|].
  destruct (skippedTag tg); [reflexivity|].
  rewrite scanChildren_forEach.
  now destruct (scanChildren self lang cs attrs).
Qed.

Lemma hasAttribute_insert (name v : string) (a : gmap string string) :
  Dom.hasAttribute name (<[name := v]> a) = true.
Proof.
  unfold Dom.hasAttribute. apply bool_decide_eq_true_2.
  rewrite lookup_insert_eq. eauto.
Qed.

Lemma hasAttribute_insert_ne (name name' v : string)
    (a : gmap string string) :
  name' <> name ->
  Dom.hasAttribute name (<[name' := v]> a) = Dom.hasAttribute name a.
Proof.
  intros Hne. unfold Dom.hasAttribute. now rewrite lookup_insert_ne.
Qed.

Lemma attr_lang_key : attr_lang <> attr_key.
Proof. discriminate. Qed.

Lemma attr_lang_resolved : attr_lang <> attr_resolved.
Proof. discriminate. Qed.

Lemma attr_resolved_key : attr_resolved <> attr_key.
Proof. discriminate. Qed.

Lemma attr_key_resolved : attr_key <> attr_resolved.
Proof. discriminate. Qed.

(** An element that carries a non-empty key, the resolved marker and the
    language [lang] is left alone by the attribute pass. *)
Lemma translateElement_marked (a : gmap string string) (k : string) :
  a !! attr_key = Some k ->
  Dom.hasAttribute attr_resolved a = true ->
  a !! attr_lang = Some lang ->
  translateElement self lang a = None.
Proof.
  intros Hk Hr Hl. unfold translateElement. rewrite Hk, Hr, Hl.
  rewrite andb_false_r. cbn [negb].
  rewrite bool_decide_eq_false_2 by (intros H; now apply H).
  now rewrite andb_false_r.
Qed.

Lemma translateElement_written (a a' : gmap string string) (v : string) :
  translateElement self lang a = Some (a', v) ->
  translateElement self lang a' = None.
Proof.
  unfold translateElement at 1.
  destruct (a !! attr_key) as [k|] eqn:Hk; [|discriminate].
  destruct (Js.truthy k) eqn:Tk; [|discriminate]. cbn [andb].
  destruct (Dom.hasAttribute attr_resolved a) eqn:Hr; cbn [negb].
  - case_bool_decide; [|discriminate]. intros [= <- <-].
    apply (translateElement_marked _ k).
    + rewrite lookup_insert_ne; [exact Hk | apply attr_lang_key].
    + rewrite hasAttribute_insert_ne; [exact Hr | apply attr_lang_resolved].
    + apply lookup_insert_eq.
  - intros [= <- <-]. apply (translateElement_marked _ k).
    + rewrite !lookup_insert_ne;
        [exact Hk | apply attr_resolved_key | apply attr_lang_key].
    + rewrite hasAttribute_insert_ne; [|apply attr_lang_resolved].
      apply hasAttribute_insert.
    + apply lookup_insert_eq.
Qed.

Lemma translateElement_markParent (text : string) (a : gmap string string) :
  Js.truthy text = true ->
  translateElement self lang (markParent lang text a) = None.
Proof.
  intros Ht. unfold markParent, translateElement.
  rewrite lookup_insert_ne by apply attr_lang_key.
  rewrite lookup_insert_eq, Ht.
  rewrite hasAttribute_insert_ne by apply attr_lang_resolved.
  rewrite hasAttribute_insert_ne by apply attr_key_resolved.
  rewrite hasAttribute_insert. cbn [negb andb].
  rewrite lookup_insert_eq.
  now rewrite bool_decide_eq_false_2 by (intros H; now apply H).
Qed.

Lemma hasAttribute_markParent (text : string) (a : gmap string string) :
  Dom.hasAttribute attr_resolved (markParent lang text a) = true.
Proof.
  unfold markParent.
  rewrite hasAttribute_insert_ne by apply attr_lang_resolved.
  rewrite hasAttribute_insert_ne by apply attr_key_resolved.
  apply hasAttribute_insert.
Qed.

Lemma matchesKey_truthy (text : string) :
  matchesKey self lang text = true -> Js.truthy text = true.
Proof. unfold matchesKey. now intros [H _]%andb_true_iff. Qed.

(** *** The attribute pass *)

Lemma quiet_setTextContent (v : string) :
  forallb (quiet self lang) (Dom.setTextContent v) = true.
Proof. unfold Dom.setTextContent. now destruct (Js.truthy v). Qed.

Lemma attributePass_quiet (n : Dom.Node) :
  quiet self lang (attributePass self lang n) = true.
Proof.
  induction n as [content|text|tg attrs cs IH] using node_induction;
    [reflexivity..|].
  cbn [attributePass].
  destruct (translateElement self lang attrs) as [[attrs' v]|] eqn:E;
    cbn [quiet].
  - rewrite (translateElement_written _ _ _ E), quiet_setTextContent.
    now rewrite bool_decide_eq_true_2.
  - rewrite E, bool_decide_eq_true_2 by reflexivity. cbn [andb].
    rewrite forallb_forall. intros c' [c [<- Hin]]%in_map_iff.
    rewrite List.Forall_forall in IH. now apply IH.
Qed.

Lemma attributePass_fixed (n : Dom.Node) :
  quiet self lang n = true -> attributePass self lang n = n.
Proof.
  induction n as [content|text|tg attrs cs IH] using node_induction;
    [reflexivity..|].
  cbn [quiet attributePass]. intros [Ht Hcs]%andb_true_iff.
  apply bool_decide_eq_true_1 in Ht. rewrite Ht. f_equal.
  rewrite forallb_forall in Hcs. rewrite List.Forall_forall in IH.
  rewrite <- (map_id cs) at 2. apply map_ext_in.
  intros c Hc. apply IH; auto.
Qed.

(** *** The text pass *)

Lemma scanTextNodes_quiet (n : Dom.Node) :
  forall parent,
    quiet self lang n = true ->
    translateElement self lang parent = None ->
    quiet self lang (fst (scanTextNodes self lang n parent)) = true
    /\ translateElement self lang (snd (scanTextNodes self lang n parent))
       = None.
Proof.
  induction n as [content|text|tg attrs cs IH] using node_induction;
    intros parent Hq Hp.
  - cbn [scanTextNodes].
    destruct (matchesKey self lang (Dom.trim content)) eqn:E; cbn [fst snd].
    + split; [reflexivity|].
      apply translateElement_markParent. now apply matchesKey_truthy.
    + now split.
  - now split.
  - rewrite scanTextNodes_element.
    destruct (Dom.hasAttribute attr_resolved attrs); [now split|].
    destruct (skippedTag tg); [now split|]. cbn [fst snd].
    split; [|exact Hp]. cbn [quiet] in *.
    apply andb_true_iff in Hq as [Ht Hcs].
    apply bool_decide_eq_true_1 in Ht.
    enough (H : forallb (quiet self lang)
                  (fst (scanChildren self lang cs attrs)) = true
                /\ translateElement self lang
                     (snd (scanChildren self lang cs attrs)) = None).
    { destruct H as [-> ->]. now rewrite bool_decide_eq_true_2. }
    clear tg Hp parent. revert attrs Ht.
    induction IH as [|c cs Hc _ IHcs]; intros attrs Ht; [now split|].
    cbn [forallb] in Hcs. apply andb_true_iff in Hcs as [Hqc Hqcs].
    cbn [scanChildren].
    destruct (Hc attrs Hqc Ht) as [Hc1 Hc2].
    destruct (scanTextNodes self lang c attrs) as [c' a1]. cbn [fst snd] in *.
    destruct (IHcs Hqcs a1 Hc2) as [Hr1 Hr2].
    destruct (scanChildren self lang cs a1) as [rest' a2]. cbn [fst snd] in *.
    split; [|exact Hr2]. cbn [forallb]. now rewrite Hc1, Hr1.
Qed.

(** What one visit of the text pass leaves behind: the node has nothing
    more to be written, or it is a text node whose parent is now marked
    resolved; an element or comment leaves the attributes of its parent as
    they were; and a resolved marker on the parent stays. *)
Lemma scanTextNodes_settles (n : Dom.Node) :
  forall parent,
    (settled self lang (fst (scanTextNodes self lang n parent)) = true
     \/ Dom.hasAttribute attr_resolved
          (snd (scanTextNodes self lang n parent)) = true)
    /\ (Dom.hasAttribute attr_resolved parent = true ->
        Dom.hasAttribute attr_resolved
          (snd (scanTextNodes self lang n parent)) = true)
    /\ ((forall content, n <> Dom.Text content) ->
        settled self lang (fst (scanTextNodes self lang n parent)) = true
        /\ snd (scanTextNodes self lang n parent) = parent).
Proof.
  induction n as [content|text|tg attrs cs IH] using node_induction;
    intros parent.
  - cbn [scanTextNodes].
    destruct (matchesKey self lang (Dom.trim content)) eqn:E; cbn [fst snd].
    + split; [right; apply hasAttribute_markParent|].
      split; [intros _; apply hasAttribute_markParent|].
      intros H. now destruct (H content).
    + split; [left; cbn [settled]; now rewrite E|].
      split; [auto|]. intros H. now destruct (H content).
  - cbn. auto.
  - assert (Hel : settled self lang
                    (fst (scanTextNodes self lang (Dom.Element tg attrs cs)
                                        parent)) = true
                  /\ snd (scanTextNodes self lang (Dom.Element tg attrs cs)
                                        parent) = parent).
    { rewrite scanTextNodes_element.
      destruct (Dom.hasAttribute attr_resolved attrs) eqn:Hr;
        [cbn [fst snd settled]; now rewrite Hr|].
      destruct (skippedTag tg) eqn:Hs;
        [cbn [fst snd settled]; now rewrite Hr, Hs|].
      cbn [fst snd settled]. split; [|reflexivity].
      enough (H : (forallb (settled self lang)
                     (fst (scanChildren self lang cs attrs)) = true
                   \/ Dom.hasAttribute attr_resolved
                        (snd (scanChildren self lang cs attrs)) = true)
                  /\ (Dom.hasAttribute attr_resolved attrs = true ->
                      Dom.hasAttribute attr_resolved
                        (snd (scanChildren self lang cs attrs)) = true)).
      { destruct H as [[-> | ->] _]; [now rewrite !orb_true_r | reflexivity]. }
      clear Hr Hs tg parent. revert attrs.
      induction IH as [|c cs Hc _ IHcs]; intros attrs; [cbn; auto|].
      cbn [scanChildren].
      destruct (Hc attrs) as (Hc1 & Hc2 & _).
      destruct (scanTextNodes self lang c attrs) as [c' a1].
      cbn [fst snd] in *.
      destruct (IHcs a1) as (Hr1 & Hr2).
      destruct (scanChildren self lang cs a1) as [rest' a2].
      cbn [fst snd forallb] in *.
      split; [|auto].
      destruct Hc1 as [Hc1|Hc1]; [|auto].
      destruct Hr1 as [Hr1|Hr1]; [|auto].
      left. now rewrite Hc1, Hr1. }
    destruct Hel as [Hs Hp]. rewrite Hp. auto.
Qed.

Lemma scanTextNodes_fixed (n : Dom.Node) :
  settled self lang n = true ->
  forall parent, scanTextNodes self lang n parent = (n, parent).
Proof.
  induction n as [content|text|tg attrs cs IH] using node_induction;
    intros Hs parent.
  - cbn [settled scanTextNodes] in *. apply negb_true_iff in Hs.
    now rewrite Hs.
  - reflexivity.
  - rewrite scanTextNodes_element. cbn [settled] in Hs.
    destruct (Dom.hasAttribute attr_resolved attrs); [reflexivity|].
    destruct (skippedTag tg); [reflexivity|]. cbn [orb] in Hs.
    enough (H : scanChildren self lang cs attrs = (cs, attrs))
      by now rewrite H.
    clear tg parent. revert attrs.
    induction IH as [|c cs Hc _ IHcs]; intros attrs; [reflexivity|].
    cbn [forallb] in Hs. apply andb_true_iff in Hs as [Hsc Hscs].
    cbn [scanChildren]. now rewrite (Hc Hsc), (IHcs Hscs).
Qed.

Lemma scanTextNodes_isBody (b : Dom.Node) (parent : gmap string string) :
  Dom.isBody (fst (scanTextNodes self lang b parent)) = Dom.isBody b.
Proof.
  destruct b as [content|tg attrs cs|text]; [| |reflexivity].
  - cbn [scanTextNodes]. now destruct (matchesKey self lang (Dom.trim content)).
  - rewrite scanTextNodes_element.
    destruct (Dom.hasAttribute attr_resolved attrs); [reflexivity|].
    now destruct (skippedTag tg).
Qed.

End Scanner.

Lemma onBody_idempotent (f : Dom.Node -> Dom.Node) (cs : list Dom.Node) :
  (forall b, Dom.isBody b = true ->
             Dom.isBody (f b) = true /\ f (f b) = f b) ->
  Dom.onBody f (Dom.onBody f cs) = Dom.onBody f cs.
Proof.
  intros Hf. induction cs as [|c cs IH]; [reflexivity|].
  cbn [Dom.onBody]. destruct (Dom.isBody c) eqn:E.
  - destruct (Hf c E) as [Hb Hff]. cbn [Dom.onBody]. now rewrite Hb, Hff.
  - cbn [Dom.onBody]. now rewrite E, IH.
Qed.

Lemma onBody_quiet (self : Tenlixor) (lang : string)
    (f : Dom.Node -> Dom.Node) (cs : list Dom.Node) :
  (forall b, quiet self lang b = true -> quiet self lang (f b) = true) ->
  forallb (quiet self lang) cs = true ->
  forallb (quiet self lang) (Dom.onBody f cs) = true.
Proof.
  intros Hf. induction cs as [|c cs IH]; [reflexivity|].
  cbn [Dom.onBody forallb]. intros [Hc Hcs]%andb_true_iff.
  destruct (Dom.isBody c); cbn [forallb].
  - now rewrite (Hf c Hc), Hcs.
  - now rewrite Hc, (IH Hcs).
Qed.

(** The two passes of [scan], run on their own result, change nothing. *)
Lemma scanDocument_idempotent (self : Tenlixor) (d : Dom.Document) :
  scanDocument self (scanDocument self d) = scanDocument self d.
Proof.
  unfold scanDocument at 2 3.
  set (lang := currentLanguage self).
  pose proof (attributePass_quiet self lang (Dom.documentElement d)) as Hq.
  destruct (attributePass self lang (Dom.documentElement d))
    as [content|tg attrs cs|text] eqn:E.
  - reflexivity.
  - cbn [quiet] in Hq. apply andb_true_iff in Hq as [Ht Hcs].
    pose proof Ht as Ht'. apply bool_decide_eq_true_1 in Ht'.
    set (f := fun b => fst (scanTextNodes self lang b attrs)).
    assert (Hfq : forall b, quiet self lang b = true ->
                            quiet self lang (f b) = true).
    { intros b Hb. now apply scanTextNodes_quiet. }
    assert (Hff : forall b, Dom.isBody b = true ->
                            Dom.isBody (f b) = true /\ f (f b) = f b).
    { intros b Hb. subst f. cbn beta. split.
      - now rewrite scanTextNodes_isBody.
      - destruct b as [content|tg' attrs' cs'|text]; [discriminate| |discriminate].
        destruct (scanTextNodes_settles self lang (Dom.Element tg' attrs' cs')
                    attrs) as (_ & _ & H).
        destruct H as [Hs _]; [discriminate|].
        now rewrite (scanTextNodes_fixed _ _ _ Hs). }
    destruct (Dom.isHtml tg) eqn:Hh.
    + unfold scanDocument. cbn [Dom.documentElement Dom.readyState].
      fold lang.
      rewrite attributePass_fixed.
      * rewrite Hh. fold f. now rewrite onBody_idempotent.
      * cbn [quiet]. rewrite Ht. now apply onBody_quiet.
    + unfold scanDocument. cbn [Dom.documentElement Dom.readyState].
      fold lang.
      rewrite attributePass_fixed; [now rewrite Hh|].
      cbn [quiet]. now rewrite Ht, Hcs.
  - reflexivity.
Qed.

Lemma scanned_idempotent (m : Machine) : scanned (scanned m) = scanned m.
Proof.
  assert (H : scanned m = m
              \/ exists d, isInitialized (self m) = true
                           /\ scanned m
                              = {| self := self m;
                                   world := set_document
                                              (Some (scanDocument (self m) d))
                                              (world m) |}).
  { unfold scanned. destruct (isInitialized (self m)); [|auto].
    destruct (document (world m)) as [d|]; [|auto]. right. eauto. }
  destruct H as [H|(d & Hi & H)]; [now rewrite !H|].
  rewrite H. unfold scanned at 1. cbn [self world document set_document].
  now rewrite Hi, scanDocument_idempotent.
Qed.

(** C9.  [scan] called twice in a row leaves the machine, and so the
    document tree with every text and every marker attribute, exactly as
    [scan] called once leaves it; [scan] on an engine that is not
    initialized, or without a document, changes nothing; [scan] never
    throws. *)
Theorem scan_idempotent (m : Machine) :
  fst (scan m) = Js.Return tt
  /\ scan (snd (scan m)) = scan m
  /\ document (world (snd (scan (snd (scan m)))))
     = document (world (snd (scan m)))
  /\ (forall d, scanDocument (self m) (scanDocument (self m) d)
                = scanDocument (self m) d)
  /\ (isInitialized (self m) = false -> scan m = (Js.Return tt, m))
  /\ (document (world m) = None -> scan m = (Js.Return tt, m)).
Proof.
  rewrite !scan_run. cbn [fst snd]. rewrite ?scan_run, !scanned_idempotent.
  repeat split.
  - apply scanDocument_idempotent.
  - intros Hi. unfold scanned. now rewrite Hi.
  - intros Hd. unfold scanned. rewrite Hd.
    now destruct (isInitialized (self m)).
Qed.

(** ** The scenarios of the specification, evaluated *)

(** C10 on [falsyConfig]: construction succeeds with the defaults. *)
Lemma constructor_falsy_defaults_witness :
  exists s, constructor falsyConfig = Js.Return s
            /\ config_cacheTTL (config s) = 300000%Z
            /\ config_language (config s) = "en"
            /\ config_apiUrl (config s) = defaultApiUrl
            /\ config_fallbackLanguage (config s) = "en".
Proof.
  destruct (constructor falsyConfig) as [s|e] eqn:E; [|discriminate E].
  exists s. split; [reflexivity|].
  destruct (proj2 (constructor_falsy_defaults falsyConfig) s E)
    as (_ & _ & Httl & Hlang & Hurl & Hfb & _).
  repeat split; [apply Httl | apply Hlang | apply Hurl | apply Hfb];
    reflexivity.
Defined.

(** C6 on [welcomePayload] merged into the tables of [turkishStore]: the
    table of ["en"] is that of the payload, the table of ["tr"] is kept. *)
Lemma mergeData_replaces_tables_witness :
  Plain.own (Plain.mergeData welcomePayload
               {| Plain.own := store_languages turkishStore;
                  Plain.prototype := None |}) !! "en"
    = Some {[ "app.welcome" := "Welcome!" ]}
  /\ Plain.own (Plain.mergeData welcomePayload
                  {| Plain.own := store_languages turkishStore;
                     Plain.prototype := None |}) !! "tr"
     = Some {[ "app.welcome" := "Merhaba!" ]}.
Proof.
  destruct (mergeData_replaces_tables welcomePayload
              {| Plain.own := store_languages turkishStore;
                 Plain.prototype := None |})
    as (Hin & Hout & _).
  split.
  - apply (Hin [] {| code := "en";
                     resources := Some [ {| key := "app.welcome";
                                            value := "Welcome!" |} ] |} []).
    + reflexivity.
    + apply not_elem_of_nil.
    + discriminate.
  - rewrite (Hout "tr"); [reflexivity|].
    intros langs [= <-]. cbn. intros H%list_elem_of_singleton.
    discriminate H.
Defined.

(** C1, amended, on the tables of [engineWithEmptyValue]: the empty value
    falls through to the fallback table, a given language is used, and an
    unknown key resolves to itself. *)
Lemma t_resolution_witness :
  Plain.t (Plain.languagesOf engineWithEmptyValue) "tr" "en" "app.title" None
  = Plain.Returns "Title"
  /\ Plain.t (Plain.languagesOf engineWithEmptyValue) "tr" "en" "app.title"
             (Some "en")
     = Plain.Returns "Title"
  /\ Plain.t (Plain.languagesOf engineWithEmptyValue) "tr" "en" "missing.key"
             None
     = Plain.Returns "missing.key".
Proof.
  split; [|split].
  - apply (proj1 (proj2 (proj2 (t_resolution
                                   (Plain.languagesOf engineWithEmptyValue)
                                   "tr" "en" "app.title" None
                                   eq_refl eq_refl eq_refl eq_refl)))).
    + apply truthyEntry_None. reflexivity.
    + discriminate.
    + apply truthyEntry_Some. reflexivity.
  - apply (proj1 (proj2 (t_resolution
                           (Plain.languagesOf engineWithEmptyValue)
                           "tr" "en" "app.title" (Some "en")
                           eq_refl eq_refl eq_refl eq_refl))).
    apply truthyEntry_Some. reflexivity.
  - apply (proj1 (proj2 (proj2 (proj2 (t_resolution
                                          (Plain.languagesOf
                                             engineWithEmptyValue)
                                          "tr" "en" "missing.key" None
                                          eq_refl eq_refl eq_refl
                                          eq_refl))))).
    + apply truthyEntry_None. reflexivity.
    + right. apply truthyEntry_None. reflexivity.
Defined.

(** C8 on [freshOnline]: of the two [loaded] listeners the first throws,
    and both are called once. *)
Lemma emit_calls_every_listener_once_witness :
  exists added,
    emit loaded (LoadedEvent "en" false) freshOnline
    = (Js.Return tt,
       logged (Emitted loaded (LoadedEvent "en" false) :: added) freshOnline)
    /\ calls added = [(1%nat, LoadedEvent "en" false);
                      (2%nat, LoadedEvent "en" false)].
Proof.
  apply (proj2 (proj2 (emit_calls_every_listener_once
                         loaded (LoadedEvent "en" false) freshOnline))
           1%nat 2%nat eq_refl).
  cbn. eauto.
Defined.

(** C7 on [freshOnline]: written at 1000000 under a TTL of 300000, the
    entry is returned at 1299999 and not at 1300001. *)
Lemma cache_entry_freshness_witness :
  writable freshOnline
  /\ fst (getFromCache "en" false
            (atTime 1299999
               (snd (saveToCache "en" welcomePayload freshOnline))))
     = Js.Return (Some welcomePayload)
  /\ fst (getFromCache "en" false
            (atTime 1300001
               (snd (saveToCache "en" welcomePayload freshOnline))))
     = Js.Return None.
Proof.
  assert (Hw : writable freshOnline) by (intros ls [= <-]; reflexivity).
  split; [exact Hw|].
  destruct (cache_entry_freshness "en" welcomePayload freshOnline Hw)
    as (Hfresh & Hstale & _).
  split; [exact Hfresh | exact Hstale].
Defined.


(** C3 on [readyOffline]: [setLanguage("tr")] with the network down
    throws, leaves the language at ["en"] and emits the [error] event. *)
Lemma setLanguage_rollback_witness :
  getLanguage (self readyOffline) = "en"
  /\ exists m' added,
       setLanguage "tr" readyOffline = (Js.Throw networkDown, m')
       /\ self m' = self readyOffline
       /\ getLanguage (self m') = "en"
       /\ effects (world m') = (effects (world readyOffline) ++ added)%list
       /\ emitted added
          = [(error, failure "LANGUAGE_CHANGE_FAILED" networkDown)]
       /\ calls added
          = [(3%nat, failure "LANGUAGE_CHANGE_FAILED" networkDown)]
       /\ fetches added = ["tr"]
       /\ document (world m') = document (world readyOffline).
Proof.
  split; [reflexivity|].
  apply (proj2 (setLanguage_rollback "tr" readyOffline) networkDown).
  - discriminate.
  - split; [reflexivity|]. intros _. vm_compute. reflexivity.
Defined.

(** C5 on [freshOffline]: [init] with the network down returns, the
    engine is neither loading nor ready, and the [error] event was
    emitted. *)
Lemma init_reports_failure_witness :
  fst (init freshOffline) = Js.Return tt
  /\ isLoading (self (snd (init freshOffline))) = false
  /\ exists added,
       self (snd (init freshOffline)) = self freshOffline
       /\ isInitialized (self (snd (init freshOffline))) = false
       /\ (isInitialized (self freshOffline) = false ->
           isReady (self (snd (init freshOffline))) = false)
       /\ effects (world (snd (init freshOffline)))
          = (effects (world freshOffline) ++ added)%list
       /\ emitted added = [(error, failure "INIT_FAILED" networkDown)]
       /\ calls added = [(3%nat, failure "INIT_FAILED" networkDown)].
Proof.
  destruct (proj2 (init_reports_failure freshOffline) eq_refl)
    as (Hret & Hload & Hfail & _).
  split; [exact Hret|]. split; [exact Hload|].
  apply (Hfail networkDown).
  split; [reflexivity|]. intros _. vm_compute. reflexivity.
Defined.

(** C2 on [readyOffline]: [reload] with the network down throws, and no
    event is emitted. *)
Lemma reload_propagates_failure_witness :
  exists m' added,
    reload readyOffline = (Js.Throw networkDown, m')
    /\ effects (world m') = (effects (world readyOffline) ++ added)%list
    /\ emitted added = []
    /\ calls added = []
    /\ fetches added = ["en"].
Proof. apply (reload_propagates_failure readyOffline networkDown eq_refl). Defined.

(** C9 on [readyOnline]: the first [scan] rewrites the page, the second
    changes nothing. *)
Lemma scan_idempotent_witness :
  isInitialized (self readyOnline) = true
  /\ document (world (snd (scan readyOnline))) <> document (world readyOnline)
  /\ scan (snd (scan readyOnline)) = scan readyOnline.
Proof.
  split; [reflexivity|]. split.
  - vm_compute. discriminate.
  - apply (proj1 (proj2 (scan_idempotent readyOnline))).
Defined.

(** ** Further properties of the cache store and of the scenario *)

(** When the durable item under the cache key cannot be parsed,
    [getFromCache] logs the read error and returns [null], with or without
    [ignoreTTL], whatever the in-memory tier holds: the [catch] ends the
    lookup before the in-memory tier is consulted. *)
Theorem unreadable_item_masks_memory (languageCode : string)
    (ignoreTTL : bool) (m : Machine) :
  unreadable m languageCode = true ->
  getFromCache languageCode ignoreTTL m
  = (Js.Return None, logged [ConsoleWarn "Tenlixor: Cache read error:"] m).
Proof.
  intros Hu. rewrite getFromCache_run. unfold afterRead. rewrite Hu.
  f_equal. f_equal. unfold cacheLookup. unfold unreadable in Hu.
  destruct (durableItem m languageCode) as [[e|s]|]; try discriminate.
  now rewrite Hu.
Qed.

(** On [readyOfflineMasked] the in-memory tier holds an entry for ["tr"],
    the lookup misses, and the load throws. *)
Lemma unreadable_item_masks_memory_witness :
  memoryEntry readyOfflineMasked "tr" staleEntry
  /\ getFromCache "tr" true readyOfflineMasked
     = (Js.Return None,
        logged [ConsoleWarn "Tenlixor: Cache read error:"] readyOfflineMasked)
  /\ fst (fetchStrings "tr" readyOfflineMasked) = Js.Throw networkDown.
Proof.
  split; [vm_compute; reflexivity|]. split.
  - apply (unreadable_item_masks_memory "tr" true readyOfflineMasked).
    reflexivity.
  - vm_compute. reflexivity.
Defined.

(** When [setItem] throws, [saveToCache] logs the write error and returns
    without having written the in-memory tier either. *)
Theorem saveToCache_quota_skips_memory (languageCode : string)
    (d : TenlixorResponseData) (m : Machine) (ls : Storage) :
  localStorage (world m) = Some ls ->
  quotaExceeded ls = true ->
  saveToCache languageCode d m
  = (Js.Return tt, logged [ConsoleWarn "Tenlixor: Cache write error:"] m).
Proof.
  intros Hls Hq. unfold saveToCache. run. unfold tryCatch. rewrite bind_run.
  rewrite Hls. unfold setItem. now rewrite Hq.
Qed.

(** On [quotaFull] the in-memory map stays empty after [saveToCache]. *)
Lemma saveToCache_quota_skips_memory_witness :
  memoryCache (self (snd (saveToCache "en" welcomePayload quotaFull))) = ∅
  /\ fst (saveToCache "en" welcomePayload quotaFull) = Js.Return tt.
Proof.
  rewrite (saveToCache_quota_skips_memory "en" welcomePayload quotaFull
             {| items := ∅; quotaExceeded := true |} eq_refl eq_refl).
  split; reflexivity.
Defined.

(** The scenario of the specification: after [init] on the engine built
    from [{token: "t1", tenantSlug: "acme"}] with the transport returning
    [welcomePayload], [t("app.welcome")] is ["Welcome!"], [t("missing.key")]
    is ["missing.key"], the only loaded language is ["en"], the engine is
    ready, and both [loaded] listeners were called once although the first
    throws. *)
Theorem init_scenario :
  let m := snd (init freshOnline) in
  fst (init freshOnline) = Js.Return tt
  /\ t (self m) "app.welcome" None = "Welcome!"
  /\ t (self m) "missing.key" None = "missing.key"
  /\ dom (store_languages (this_data (self m))) = {[ "en" ]}
  /\ isReady (self m) = true
  /\ calls (effects (world m))
     = [(1%nat, LoadedEvent "en" false); (2%nat, LoadedEvent "en" false)].
Proof.
  cbn zeta. repeat split; vm_compute; reflexivity.
Qed.

(** * Further properties of the code *)

(** ** Exact runs of the cache writes and of the successful loads *)

Lemma saveToCache_run (languageCode : string) (d : TenlixorResponseData)
    (m : Machine) :
  saveToCache languageCode d m = (Js.Return tt, saved languageCode d m).
Proof.
  unfold saveToCache, saved. run. unfold tryCatch. rewrite bind_run.
  destruct (localStorage (world m)) as [ls|]; [|reflexivity].
  unfold setItem. now destruct (quotaExceeded ls).
Qed.

Lemma tryBlock_received (s : Tenlixor) (languageCode : string) (m : Machine)
    (d : TenlixorResponseData) :
  config s = config (self m) ->
  transport (world m) languageCode = Js.Return d ->
  tryBlock s languageCode m = (Js.Return d, received languageCode d m).
Proof.
  intros Hs. unfold transport, tryBlock, received.
  rewrite bind_run, awaitFetch_run.
  destruct (fetch (world m) languageCode) as [e'|status statusText body];
    [discriminate|].
  destruct (negb (ok status)); [destruct (status =? 401)%Z; discriminate|].
  destruct body as [r|e']; [|discriminate]. cbn [awaitJson].
  rewrite bind_run. cbn [mret M_ret].
  destruct (negb (success r)); [discriminate|]. intros [= <-].
  rewrite Hs. unfold withTenant.
  destruct (Js.truthy (tenant_id (data r))); run; unfold mergeDataM;
    cbn [update];
    (destruct (config_cache (config (self m)));
     [rewrite bind_run, saveToCache_run; reflexivity | reflexivity]).
Qed.



(** The machine on which the request is sent. *)
Lemma fetchStrings_network (languageCode : string) (m : Machine)
    (d : TenlixorResponseData) :
  (config_cache (config (self m)) = true ->
   cacheLookup false m languageCode = None) ->
  transport (world m) languageCode = Js.Return d ->
  fetchStrings languageCode m
  = (Js.Return d,
     received languageCode d
       (if config_cache (config (self m)) then afterRead m languageCode
        else m)).
Proof.
  intros Hmiss Htr. rewrite fetchStrings_blocks. run.
  destruct (config_cache (config (self m))) eqn:Hc.
  - rewrite getFromCache_run, (Hmiss eq_refl). unfold tryCatch.
    rewrite (tryBlock_received (self m) languageCode
               (afterRead m languageCode) d).
    + reflexivity.
    + now rewrite afterRead_self.
    + rewrite (transport_fetch (world m)); [exact Htr|].
      apply afterRead_world.
  - cbn [mret M_ret]. unfold tryCatch.
    now rewrite (tryBlock_received (self m) languageCode m d).
Qed.


(** ** The resolver and the table *)

Lemma plain_lookup_found (l : Plain.Languages) (lang k v : string) :
  Plain.lookup l lang k = Plain.Found v ->
  exists tbl, Plain.readLanguage l lang = Plain.Found tbl
              /\ tbl !! k = Some v.
Proof.
  unfold Plain.lookup.
  destruct (Plain.readLanguage l lang) as [tbl| |]; [|discriminate..].
  unfold Plain.readKey. destruct (tbl !! k) as [v0|] eqn:E.
  - intros [= <-]. eauto.
  - now destruct (Plain.inherited k).
Qed.

Lemma plain_lookup_other (l : Plain.Languages) (lang k : string) :
  Plain.lookup l lang k = Plain.Other ->
  Plain.prototype l <> None \/ Plain.inherited lang = true
  \/ Plain.inherited k = true.
Proof.
  unfold Plain.lookup, Plain.readLanguage, Plain.readKey.
  destruct (Plain.own l !! lang) as [tbl|].
  - destruct (tbl !! k); [discriminate|].
    destruct (Plain.inherited k); [auto | discriminate].
  - destruct (Plain.prototype l) as [p|]; [left; discriminate|].
    destruct (Plain.inherited lang); [auto | discriminate].
Qed.

(** What an [if] of [t] yields. *)
Lemma plain_entry_cases (l : Plain.Languages) (lang k : string)
    (otherwise : Plain.Resolution) :
  (exists v, Plain.entry l lang k otherwise = Plain.Returns v
             /\ tableHolds l lang k v)
  \/ Plain.entry l lang k otherwise = otherwise
  \/ (Plain.entry l lang k otherwise = Plain.Escapes
      /\ (Plain.prototype l <> None \/ Plain.inherited lang = true
          \/ Plain.inherited k = true)).
Proof.
  unfold Plain.entry.
  destruct (Plain.lookup l lang k) as [v| |] eqn:E.
  - destruct (Js.truthy v) eqn:T; [left | auto].
    apply plain_lookup_found in E as (tbl & Hl & Hk).
    exists v. split; [reflexivity|]. exists tbl.
    now rewrite <- truthy_true_iff.
  - auto.
  - right. right. split; [reflexivity|]. now apply plain_lookup_other.
Qed.

(** When [t] returns a string, it is the key itself or a non-empty value
    that a table read for the effective language or for the fallback
    language holds for the key, so the translation of a non-empty key is
    never empty.  The outcome is left to the members of [Object.prototype]
    only when the prototype of [this.data.languages] has been replaced or
    one of the three names is a member of [Object.prototype]; and it is
    left to them whenever the table of the effective language has no own
    entry for a key of that kind: such a key is not returned as it is. *)
Theorem t_returns_key_or_value (l : Plain.Languages)
    (currentLanguage fallbackLanguage k : string)
    (languageCode : option string) :
  let lang := Js.orString languageCode currentLanguage in
  match Plain.t l currentLanguage fallbackLanguage k languageCode with
  | Plain.Returns v =>
      (v = k \/ tableHolds l lang k v \/ tableHolds l fallbackLanguage k v)
      /\ (k <> "" -> v <> "")
  | Plain.Escapes =>
      Plain.prototype l <> None \/ Plain.inherited lang = true
      \/ Plain.inherited fallbackLanguage = true \/ Plain.inherited k = true
  end
  /\ (forall tbl,
        Plain.readLanguage l lang = Plain.Found tbl ->
        tbl !! k = None ->
        Plain.inherited k = true ->
        Plain.t l currentLanguage fallbackLanguage k languageCode
        = Plain.Escapes).
Proof.
  cbn zeta. unfold Plain.t.
  set (lang := Js.orString languageCode currentLanguage).
  split.
  - set (second := if bool_decide (lang <> fallbackLanguage)
                   then Plain.entry l fallbackLanguage k (Plain.Returns k)
                   else Plain.Returns k).
    assert (Hsecond :
              match second with
              | Plain.Returns v =>
                  (v = k \/ tableHolds l lang k v
                   \/ tableHolds l fallbackLanguage k v)
                  /\ (k <> "" -> v <> "")
              | Plain.Escapes =>
                  Plain.prototype l <> None \/ Plain.inherited lang = true
                  \/ Plain.inherited fallbackLanguage = true
                  \/ Plain.inherited k = true
              end).
    { subst second. case_bool_decide; [|auto].
      destruct (plain_entry_cases l fallbackLanguage k (Plain.Returns k))
        as [(v & -> & Hv) | [-> | [-> Hout]]].
      - split; [auto|]. intros _. now destruct Hv as (_ & _ & _ & Hv).
      - auto.
      - destruct Hout as [Hout|[Hout|Hout]]; auto. }
    destruct (plain_entry_cases l lang k second)
      as [(v & -> & Hv) | [-> | [-> Hout]]].
    + split; [auto|]. intros _. now destruct Hv as (_ & _ & _ & Hv).
    + exact Hsecond.
    + destruct Hout as [Hout|[Hout|Hout]]; auto.
  - intros tbl Hl Hk Hi. unfold Plain.entry at 1. unfold Plain.lookup.
    rewrite Hl. unfold Plain.readKey. now rewrite Hk, Hi.
Qed.


(** A listed language code has a last block. *)
Lemma mergeLanguages_cover (langs : list TenlixorLanguage) (c : string) :
  c ∈ code <$> langs ->
  exists pre lang rest,
    langs = (pre ++ lang :: rest)%list /\ code lang = c
    /\ c ∉ code <$> rest.
Proof.
  induction langs as [|x langs IH] using rev_ind; [intros H; inversion H|].
  rewrite fmap_app. intros Hin.
  destruct (decide (code x = c)) as [Hx|Hx].
  - exists langs, x, []. repeat split; [assumption|]. apply not_elem_of_nil.
  - apply elem_of_app in Hin as [Hin|Hin].
    + destruct (IH Hin) as (pre & lang & rest & -> & Hc & Hnot).
      exists pre, lang, (rest ++ [x])%list.
      rewrite <- app_assoc. repeat split; [assumption|].
      rewrite fmap_app. set_solver.
    + cbn in Hin. apply list_elem_of_singleton in Hin. congruence.
Qed.

Lemma mergeLanguages_idempotent (langs : list TenlixorLanguage)
    (tbl : gmap string (gmap string string)) :
  mergeLanguages langs (mergeLanguages langs tbl) = mergeLanguages langs tbl.
Proof.
  apply map_eq. intros c.
  destruct (decide (c ∈ code <$> langs)) as [Hin|Hnot].
  - destruct (mergeLanguages_cover _ _ Hin)
      as (pre & lang & rest & -> & <- & Hnot).
    now rewrite !mergeLanguages_last.
  - now rewrite !mergeLanguages_other.
Qed.

(** Merging a payload a second time changes nothing: a cache hit that
    merges the payload the table was built from leaves the table as it
    is. *)
Theorem mergeData_idempotent (d : TenlixorResponseData)
    (s : TenlixorDataStore) :
  mergeData d (mergeData d s) = mergeData d s.
Proof.
  unfold mergeData. destruct (languages d) as [langs|]; [|reflexivity].
  cbn [store_tenant_id store_languages].
  now rewrite mergeLanguages_idempotent.
Qed.

(** After a payload has been merged, [t] finds what the payload lists: for
    the last block of a non-empty language code and the last resource of a
    key in it, with a non-empty value, [t(key, code)] is that value, also
    when the key or the code is the name of a member of [Object.prototype];
    only the name [__proto__] is excepted, which no assignment stores. *)
Theorem t_after_mergeData (l : Plain.Languages)
    (currentLanguage fallbackLanguage : string) (d : TenlixorResponseData)
    (pre rest : list TenlixorLanguage) (lang : TenlixorLanguage)
    (rpre rrest : list TenlixorResource) (r : TenlixorResource) :
  languages d = Some (pre ++ lang :: rest)%list ->
  code lang ∉ code <$> rest ->
  resources lang = Some (rpre ++ r :: rrest)%list ->
  key r ∉ key <$> rrest ->
  code lang <> "" ->
  value r <> "" ->
  code lang <> "__proto__" ->
  key r <> "__proto__" ->
  Plain.t (Plain.mergeData d l) currentLanguage fallbackLanguage
          (key r) (Some (code lang))
  = Plain.Returns (value r).
Proof.
  intros Hl Hcode Hr Hkey Hc Hv Hpc Hpk. unfold Plain.t, Js.orString.
  apply truthy_true_iff in Hc. rewrite Hc.
  apply plain_entry_found. exists (Plain.keyValueMap (resources lang)).
  split; [|split; [|exact Hv]].
  - rewrite (plain_mergeData_list _ _ _ Hl).
    now apply plain_mergeData_last.
  - rewrite plain_keyValueMap_lookup by exact Hpk.
    rewrite Hr. now apply keyValueMap_last.
Qed.

(** [t_after_mergeData] on a payload that lists the key ["toString"]. *)
Lemma t_after_mergeData_witness :
  Plain.t (Plain.mergeData
             {| tenant_id := "acme-1";
                languages :=
                  Some [ {| code := "en";
                            resources :=
                              Some [ {| key := "toString";
                                        value := "To text" |} ] |} ] |}
             noLanguages)
          "tr" "en" "toString" (Some "en")
  = Plain.Returns "To text".
Proof.
  apply (t_after_mergeData noLanguages "tr" "en" _ []
           [] {| code := "en";
                 resources := Some [ {| key := "toString";
                                        value := "To text" |} ] |}
           [] [] {| key := "toString"; value := "To text" |});
    try reflexivity; try apply not_elem_of_nil; discriminate.
Defined.

(** ** The cache store *)

Lemma append_eq_l (p a b : string) : p ++ a = p ++ b -> a = b.
Proof. induction p as [|c p IH]; simpl; [auto|]. intros [= H]. auto. Qed.

Lemma length_append (a b : string) :
  String.length (a ++ b) = (String.length a + String.length b)%nat.
Proof. induction a as [|c a IH]; simpl; [reflexivity|]. now rewrite IH. Qed.

Lemma append_eq_r (a b s : string) : a ++ s = b ++ s -> a = b.
Proof.
  revert b. induction a as [|x a IH]; intros [|y b] H.
  - reflexivity.
  - apply (f_equal String.length) in H.
    rewrite !length_append in H. simpl in H. lia.
  - apply (f_equal String.length) in H.
    rewrite !length_append in H. simpl in H. lia.
  - simpl in H. injection H as -> H. f_equal. now apply IH.
Qed.

Lemma getCacheKey_tenantOf (s : Tenlixor) (c : string) :
  getCacheKey s c = "txr_" ++ tenantOf s ++ "_" ++ c.
Proof. reflexivity. Qed.

Lemma append_assoc (a b c : string) : (a ++ b) ++ c = a ++ b ++ c.
Proof.
  induction a as [|x a IH]; [reflexivity|].
  change (String x ((a ++ b) ++ c) = String x (a ++ b ++ c)). now f_equal.
Qed.

(** What the cache key tells apart.  Under one tenant two language codes
    never share a key, and for one language code two tenants never share a
    key; but the key does not separate the two parts, so a tenant [a_b] with
    the code [c] and a tenant [a] with the code [b_c] share theirs. *)
Theorem getCacheKey_separation :
  (forall s c1 c2, getCacheKey s c1 = getCacheKey s c2 -> c1 = c2) /\
  (forall s1 s2 c,
     getCacheKey s1 c = getCacheKey s2 c -> tenantOf s1 = tenantOf s2) /\
  (forall s1 s2 b c,
     tenantOf s2 = tenantOf s1 ++ "_" ++ b ->
     getCacheKey s2 c = getCacheKey s1 (b ++ "_" ++ c)).
Proof.
  split; [|split].
  - intros s c1 c2. rewrite !getCacheKey_tenantOf.
    intros H%append_eq_l%append_eq_l%append_eq_l. exact H.
  - intros s1 s2 c. rewrite !getCacheKey_tenantOf.
    intros H%append_eq_l. now apply append_eq_r in H.
  - intros s1 s2 b c H. rewrite !getCacheKey_tenantOf, H.
    now rewrite !append_assoc.
Qed.

Lemma getCacheKey_inj (s : Tenlixor) (c1 c2 : string) :
  c1 <> c2 -> getCacheKey s c1 <> getCacheKey s c2.
Proof.
  intros Hne H. apply Hne. rewrite !getCacheKey_tenantOf in H.
  now apply append_eq_l, append_eq_l, append_eq_l in H.
Qed.

(** The lookup as a function of the two tiers under the cache key. *)
Lemma cacheLookup_tiers (ignoreTTL : bool) (m m' : Machine) (c : string) :
  durableItem m' c = durableItem m c ->
  memoryCache (self m') !! getCacheKey (self m') c
  = memoryCache (self m) !! getCacheKey (self m) c ->
  config (self m') = config (self m) ->
  now (world m') = now (world m) ->
  cacheLookup ignoreTTL m' c = cacheLookup ignoreTTL m c.
Proof.
  intros Hd Hm Hc Hn. unfold cacheLookup, memoryLookup, valid.
  now rewrite Hd, Hm, Hc, Hn.
Qed.

(** An entry written by [saveToCache] at time [T] under the TTL [D] is
    returned by a read without [ignoreTTL] at time [n] exactly when
    [n - T < D]: it is rejected from [T + D] on, and a clock that went back
    before [T] does not invalidate it. *)
Theorem cache_entry_valid_until (languageCode : string)
    (payload : TenlixorResponseData) (m : Machine) (n : Z) :
  writable m ->
  fst (getFromCache languageCode false
         (atTime n (snd (saveToCache languageCode payload m))))
  = Js.Return (if (n - now (world m) <? config_cacheTTL (config (self m)))%Z
               then Some payload else None).
Proof.
  intros Hw.
  destruct (saveToCache_tiers languageCode payload m Hw)
    as (_ & Hcfg & Hkey & Hmem & Hdur).
  set (m' := snd (saveToCache languageCode payload m)) in *.
  rewrite getFromCache_run. cbn [fst]. f_equal.
  unfold cacheLookup, memoryLookup. rewrite Hdur.
  cbn [atTime self]. rewrite Hkey, Hmem. unfold valid.
  cbn [atTime self world set_now now timestamp entry_data orb].
  rewrite Hcfg.
  destruct (localStorage (world m)); cbn [timestamp entry_data];
    now destruct (n - now (world m) <? config_cacheTTL (config (self m)))%Z.
Qed.

(** [cache_entry_valid_until] at the boundary: written at 1000000 under
    the TTL 300000, the entry is rejected at 1300000 and returned at
    999000. *)
Lemma cache_entry_valid_until_witness :
  fst (getFromCache "en" false
         (atTime 1300000 (snd (saveToCache "en" welcomePayload freshOnline))))
  = Js.Return None
  /\ fst (getFromCache "en" false
            (atTime 999000 (snd (saveToCache "en" welcomePayload freshOnline))))
     = Js.Return (Some welcomePayload).
Proof.
  assert (Hw : writable freshOnline) by (intros ls [= <-]; reflexivity).
  split.
  - apply (cache_entry_valid_until "en" welcomePayload freshOnline 1300000 Hw).
  - apply (cache_entry_valid_until "en" welcomePayload freshOnline 999000 Hw).
Defined.

Lemma durableItem_cleared (c c' : string) (m : Machine) :
  durableItem (cleared c m) c'
  = if bool_decide (c' = c) then None else durableItem m c'.
Proof.
  unfold durableItem, cleared. cbn [self world].
  change (getCacheKey
            (set_memoryCache
               (delete (getCacheKey (self m) c) (memoryCache (self m)))
               (self m)) c')
    with (getCacheKey (self m) c').
  destruct (localStorage (world m)) as [ls|] eqn:E; cbn [localStorage
    set_localStorage items set_items].
  - case_bool_decide as Hc.
    + subst. apply lookup_delete_eq.
    + apply lookup_delete_ne. intros H. now apply getCacheKey_inj in H.
  - rewrite E. now case_bool_decide.
Qed.

(** [clearCache(code)] never throws; afterwards no read for [code] finds an
    entry, with or without [ignoreTTL], and every read for another language
    code returns what it returned before. *)
Theorem clearCache_forgets_one_language (languageCode : string)
    (m : Machine) :
  fst (clearCache languageCode m) = Js.Return tt
  /\ (forall ignoreTTL,
        fst (getFromCache languageCode ignoreTTL
               (snd (clearCache languageCode m))) = Js.Return None)
  /\ (forall ignoreTTL other,
        other <> languageCode ->
        fst (getFromCache other ignoreTTL (snd (clearCache languageCode m)))
        = fst (getFromCache other ignoreTTL m)).
Proof.
  rewrite clearCache_run. cbn [fst snd]. split; [reflexivity|]. split.
  - intros ign. rewrite getFromCache_run. cbn [fst]. f_equal.
    unfold cacheLookup, memoryLookup. rewrite durableItem_cleared.
    rewrite bool_decide_eq_true_2 by reflexivity.
    cbn [cleared self memoryCache set_memoryCache].
    change (getCacheKey
              (set_memoryCache
                 (delete (getCacheKey (self m) languageCode)
                         (memoryCache (self m))) (self m)) languageCode)
      with (getCacheKey (self m) languageCode).
    now rewrite lookup_delete_eq.
  - intros ign other Hne. rewrite !getFromCache_run. cbn [fst]. f_equal.
    apply cacheLookup_tiers.
    + rewrite durableItem_cleared. now rewrite bool_decide_eq_false_2.
    + cbn [cleared self memoryCache set_memoryCache].
      change (getCacheKey
                (set_memoryCache
                   (delete (getCacheKey (self m) languageCode)
                           (memoryCache (self m))) (self m)) other)
        with (getCacheKey (self m) other).
      apply lookup_delete_ne. intros H. now apply getCacheKey_inj in H.
    + reflexivity.
    + unfold cleared. cbn. now destruct (localStorage (world m)).
Qed.

(** [saveToCache(code, data)] never throws, and every read for another
    language code returns afterwards what it returned before. *)
Theorem saveToCache_keeps_other_languages (languageCode other : string)
    (d : TenlixorResponseData) (ignoreTTL : bool) (m : Machine) :
  other <> languageCode ->
  fst (saveToCache languageCode d m) = Js.Return tt
  /\ fst (getFromCache other ignoreTTL (snd (saveToCache languageCode d m)))
     = fst (getFromCache other ignoreTTL m).
Proof.
  intros Hne. rewrite saveToCache_run. cbn [fst snd].
  split; [reflexivity|]. rewrite !getFromCache_run. cbn [fst]. f_equal.
  assert (Hk : getCacheKey (self m) languageCode <> getCacheKey (self m) other).
  { intros H. now apply getCacheKey_inj in H. }
  unfold saved.
  destruct (localStorage (world m)) as [ls|] eqn:E.
  - destruct (quotaExceeded ls); [reflexivity|].
    apply cacheLookup_tiers; try reflexivity.
    + unfold durableItem. cbn. rewrite E. now apply lookup_insert_ne.
    + cbn. now apply lookup_insert_ne.
  - apply cacheLookup_tiers; try reflexivity.
    cbn. now apply lookup_insert_ne.
Qed.

(** [saveToCache_keeps_other_languages] for ["tr"] after a write for
    ["en"]. *)
Lemma saveToCache_keeps_other_languages_witness :
  fst (getFromCache "tr" true
         (snd (saveToCache "en" welcomePayload readyOfflineStale)))
  = Js.Return (Some welcomePayload).
Proof.
  rewrite (proj2 (saveToCache_keeps_other_languages "en" "tr" welcomePayload
                    true readyOfflineStale ltac:(discriminate))).
  reflexivity.
Defined.

(** ** Loads that succeed *)






(** With caching disabled [fetchStrings] is the transport: it sends exactly
    one request, returns or throws what the checked response gives, and
    neither reads nor writes the two cache tiers. *)
Theorem uncached_load_is_the_transport (languageCode : string)
    (m : Machine) :
  config_cache (config (self m)) = false ->
  let r := fetchStrings languageCode m in
  fst r = transport (world m) languageCode
  /\ memoryCache (self (snd r)) = memoryCache (self m)
  /\ localStorage (world (snd r)) = localStorage (world m)
  /\ effects (world (snd r))
     = (effects (world m) ++ [Fetched languageCode])%list.
Proof.
  intros Hc. cbn zeta.
  destruct (transport (world m) languageCode) as [d|e] eqn:Htr.
  - rewrite (fetchStrings_network languageCode m d); [|congruence|exact Htr].
    rewrite Hc. unfold received. rewrite Hc. unfold withTenant.
    now destruct (Js.truthy (tenant_id d)).
  - rewrite (fetchStrings_fails languageCode m e).
    + unfold failedLoad. rewrite Hc. now repeat split.
    + split; [exact Htr | congruence].
Qed.

(** [uncached_load_is_the_transport] with the network down. *)
Lemma uncached_load_is_the_transport_witness :
  fst (fetchStrings "en" uncachedOffline) = Js.Throw networkDown
  /\ effects (world (snd (fetchStrings "en" uncachedOffline)))
     = [Fetched "en"].
Proof.
  destruct (uncached_load_is_the_transport "en" uncachedOffline eq_refl)
    as (H1 & _ & _ & H2).
  split; [exact H1 | exact H2].
Defined.


Lemma mergeData_tenant (d : TenlixorResponseData) (s : TenlixorDataStore) :
  store_tenant_id (mergeData d s) = store_tenant_id s.
Proof. unfold mergeData. now destruct (languages d). Qed.

Lemma fetchStrings_miss_is_transport (languageCode : string) (m : Machine) :
  (config_cache (config (self m)) = true ->
   cacheLookup true m languageCode = None) ->
  fst (fetchStrings languageCode m) = transport (world m) languageCode.
Proof.
  intros Hmiss.
  destruct (transport (world m) languageCode) as [d|e] eqn:Htr.
  - rewrite (fetchStrings_network languageCode m d); [reflexivity| |exact Htr].
    intros Hc. now apply cacheLookup_stale_miss, Hmiss.
  - now rewrite (fetchStrings_fails languageCode m e).
Qed.

(** What a load throws when no cache entry can answer it.  A response
    outside 200..299 is never parsed: status 401 gives the error
    [UNAUTHORIZED: Invalid API token], any other status the error
    [HTTP <status>: <statusText>]; a 2xx response whose body cannot be read
    throws what [json()] threw, one whose [success] flag is false gives
    [API returned success: false], and only the remaining case returns the
    payload. *)
Theorem load_error_messages (languageCode : string) (m : Machine)
    (status : Z) (statusText : string)
    (body : Js.Completion TenlixorResponse) :
  (config_cache (config (self m)) = true ->
   cacheLookup true m languageCode = None) ->
  fetch (world m) languageCode = Response status statusText body ->
  fst (fetchStrings languageCode m)
  = if (200 <=? status)%Z && (status <=? 299)%Z then
      match body with
      | Js.Throw e => Js.Throw e
      | Js.Return r =>
          if success r then Js.Return (data r)
          else Js.Throw (Js.Error "API returned success: false")
      end
    else if (status =? 401)%Z
         then Js.Throw (Js.Error "UNAUTHORIZED: Invalid API token")
         else Js.Throw
                (Js.Error ("HTTP " ++ showZ status ++ ": " ++ statusText)).
Proof.
  intros Hmiss Hf. rewrite (fetchStrings_miss_is_transport _ _ Hmiss).
  unfold transport, ok. rewrite Hf.
  destruct ((200 <=? status)%Z && (status <=? 299)%Z); cbn [negb];
    [|reflexivity].
  destruct body as [r|e]; [|reflexivity]. now destruct (success r).
Qed.

(** [load_error_messages] for a 503 answer on a fresh engine. *)
Lemma load_error_messages_witness :
  fst (fetchStrings "en"
         {| self := acmeEngine;
            world := set_fetch
                       (fun _ => Response 503 "Service Unavailable"
                                   (Js.Throw (Js.Error "no body")))
                       offline |})
  = Js.Throw (Js.Error "HTTP 503: Service Unavailable").
Proof.
  apply (load_error_messages "en"
           {| self := acmeEngine;
              world := set_fetch
                         (fun _ => Response 503 "Service Unavailable"
                                     (Js.Throw (Js.Error "no body")))
                         offline |}
           503 "Service Unavailable" (Js.Throw (Js.Error "no body"))).
  - intros _. vm_compute. reflexivity.
  - reflexivity.
Defined.

(** The durable cache does not outlive the session that wrote it.  An
    engine as constructed has no tenant identifier and looks entries up
    under the placeholder [default]; once the server has supplied another
    identifier, the entry of a successful load is written under that one.
    So when the same engine is constructed again on the same browser (a
    page reload) and the network is down, the load of that language throws,
    although the durable store holds the fresh entry of the first
    session. *)
Theorem persisted_cache_is_lost_on_restart (languageCode : string)
    (m : Machine) (d : TenlixorResponseData) (f : string -> FetchResult)
    (e : Js.Thrown) (ls : Storage) :
  config_cache (config (self m)) = true ->
  store_tenant_id (this_data (self m)) = None ->
  memoryCache (self m) = ∅ ->
  localStorage (world m) = Some ls ->
  quotaExceeded ls = false ->
  items ls !! getCacheKey (self m) languageCode = None ->
  transport (world m) languageCode = Js.Return d ->
  Js.truthy (tenant_id d) = true ->
  tenant_id d <> "default" ->
  f languageCode = NetworkError e ->
  let firstSession := snd (fetchStrings languageCode m) in
  let secondSession := newSession (self m) f firstSession in
  (exists ls',
     localStorage (world secondSession) = Some ls'
     /\ items ls' !! ("txr_" ++ tenant_id d ++ "_" ++ languageCode)
        = Some (Json {| timestamp := now (world m) + fetchTime (world m);
                        entry_data := d |}))
  /\ fst (fetchStrings languageCode secondSession) = Js.Throw e.
Proof.
  intros Hc Hten Hmem Hls Hq Hnone Htr Htruthy Hdef Hf. cbn zeta.
  assert (Hdur : durableItem m languageCode = None).
  { unfold durableItem. now rewrite Hls. }
  assert (Hfresh : cacheLookup false m languageCode = None).
  { unfold cacheLookup, memoryLookup. now rewrite Hdur, Hmem, lookup_empty. }
  rewrite (fetchStrings_network languageCode m d (fun _ => Hfresh) Htr).
  rewrite Hc. cbn [snd].
  assert (Hread : afterRead m languageCode = m).
  { unfold afterRead, unreadable. now rewrite Hdur. }
  rewrite Hread. unfold received, withTenant. rewrite Hc, Htruthy.
  unfold saved. cbn [merged requested self world localStorage set_now
                     set_effects]. rewrite Hls, Hq.
  split.
  - eexists. split; [reflexivity|]. cbn [items set_items].
    unfold getCacheKey. cbn [this_data set_data].
    rewrite mergeData_tenant. cbn [store_tenant_id set_tenant_id Js.orString].
    rewrite Htruthy. cbn [now set_now set_effects]. apply lookup_insert_eq.
  - rewrite (fetchStrings_fails _ _ e); [reflexivity|]. split.
    + unfold transport, newSession. cbn. now rewrite Hf.
    + intros _. unfold cacheLookup, memoryLookup, durableItem, newSession.
      cbn [self world localStorage set_fetch set_localStorage items
           set_items].
      rewrite Hmem, lookup_empty.
      rewrite lookup_insert_ne; [now rewrite Hnone|].
      unfold getCacheKey. cbn [this_data set_data].
      rewrite mergeData_tenant. cbn [store_tenant_id set_tenant_id
                                     Js.orString].
      rewrite Htruthy, Hten. cbn [Js.orString].
      intros H%append_eq_l%append_eq_r. now apply Hdef.
Qed.

(** [persisted_cache_is_lost_on_restart] on [freshOnline], the network
    being down at the restart. *)
Lemma persisted_cache_is_lost_on_restart_witness :
  fst (fetchStrings "en"
         (newSession acmeEngine (fun _ => NetworkError networkDown)
            (snd (fetchStrings "en" freshOnline))))
  = Js.Throw networkDown.
Proof.
  apply (proj2 (persisted_cache_is_lost_on_restart "en" freshOnline
                  welcomePayload (fun _ => NetworkError networkDown)
                  networkDown {| items := ∅; quotaExceeded := false |}
                  eq_refl eq_refl eq_refl eq_refl eq_refl eq_refl eq_refl
                  eq_refl ltac:(discriminate) eq_refl)).
Defined.

(** ** The orchestrator on loads that succeed *)

(** The scanner reads the engine through its table, its current language
    and its configuration alone. *)
Section ScannerReads.

Variables s1 s2 : Tenlixor.
Hypothesis same_data : this_data s1 = this_data s2.
Hypothesis same_language : currentLanguage s1 = currentLanguage s2.
Hypothesis same_config : config s1 = config s2.






End ScannerReads.






Lemma scanned_callback (m : Machine) :
  callback (world (scanned m)) = callback (world m).
Proof.
  unfold scanned. destruct (isInitialized (self m)); [|reflexivity].
  now destruct (document (world m)).
Qed.













(** ** The event bus: [off] *)

(** [off(event, callback)] returns, leaves the host and the listeners of
    the other events as they are, and removes every registration of the
    callback for the event, keeping the others in order; a later [emit] of
    the event does not call it.  An [off] right after the [on] of a
    callback that was not registered restores the engine. *)
Theorem off_removes_every_registration (ev : TenlixorEventType)
    (cb : TenlixorEventHandler) (m : Machine) :
  let m' := snd (off ev cb m) in
  fst (off ev cb m) = Js.Return tt
  /\ world m' = world m
  /\ listenersOf ev (listeners (self m'))
     = List.filter (fun c => negb (Nat.eqb c cb))
                   (listenersOf ev (listeners (self m)))
  /\ (cb ∉ listenersOf ev (listeners (self m')))
  /\ (forall ev', ev' <> ev ->
        listenersOf ev' (listeners (self m'))
        = listenersOf ev' (listeners (self m)))
  /\ (forall payload,
        ((cb, payload)
         ∉ calls (emitEffects (world m') ev payload
                    (listenersOf ev (listeners (self m')))))
        /\ emit ev payload m'
           = (Js.Return tt,
              logged (emitEffects (world m') ev payload
                        (listenersOf ev (listeners (self m')))) m'))
  /\ (cb ∉ listenersOf ev (listeners (self m)) ->
      snd (off ev cb (snd (on ev cb m))) = m).
Proof.
  cbn zeta.
  assert (Hfilter : listenersOf ev (listeners (self (snd (off ev cb m))))
                    = List.filter (fun c => negb (Nat.eqb c cb))
                                  (listenersOf ev (listeners (self m))))
    by now destruct ev.
  assert (Hnot : cb ∉ listenersOf ev (listeners (self (snd (off ev cb m))))).
  { rewrite Hfilter. intros Hin%list_elem_of_In%filter_In.
    destruct Hin as [_ H]. now rewrite Nat.eqb_refl in H. }
  split; [reflexivity|]. split; [reflexivity|]. split; [exact Hfilter|].
  split; [exact Hnot|]. split; [|split].
  - intros ev' Hne. destruct ev, ev'; try reflexivity; now destruct Hne.
  - intros payload. split; [|apply emit_run].
    destruct (observe_emitEffects (world (snd (off ev cb m))) ev payload
                (listenersOf ev (listeners (self (snd (off ev cb m))))))
      as (_ & -> & _).
    intros Hin%list_elem_of_In%in_map_iff. destruct Hin as (c & [= ->] & Hc).
    now apply Hnot, list_elem_of_In.
  - intros Habsent. destruct m as [s w]. destruct s as [c d l i cur lo mc].
    cbn in *. unfold set_listeners. cbn. f_equal. f_equal.
    assert (Hf : forall l0 : list TenlixorEventHandler,
               cb ∉ l0 ->
               List.filter (fun c0 => negb (Nat.eqb c0 cb)) (l0 ++ [cb]) = l0).
    { intros l0 H0. rewrite List.filter_app. cbn. rewrite Nat.eqb_refl. cbn.
      rewrite app_nil_r. induction l0 as [|x l0 IH]; [reflexivity|].
      cbn. destruct (Nat.eqb_spec x cb) as [->|Hx].
      - exfalso. apply H0. left.
      - cbn. f_equal. apply IH. intros H. apply H0. now right. }
    destruct l as [l1 l2 l3]. destruct ev; cbn in *; now rewrite Hf.
Qed.

(** ** The scanner: what it writes and what it leaves *)

Section ScannerWrites.

Variable self : Tenlixor.
Variable lang : string.

Lemma unmarked_markParent (text : string) (a : gmap string string) :
  unmarked (markParent lang text a) = unmarked a.
Proof.
  unfold unmarked, markParent. apply map_eq. intros i.
  destruct (decide (i = attr_lang)) as [->|Hl];
    [now rewrite !lookup_delete_eq|].
  rewrite !(lookup_delete_ne _ attr_lang) by congruence.
  destruct (decide (i = attr_key)) as [->|Hk];
    [now rewrite !lookup_delete_eq|].
  rewrite !(lookup_delete_ne _ attr_key) by congruence.
  destruct (decide (i = attr_resolved)) as [->|Hr];
    [now rewrite !lookup_delete_eq|].
  rewrite !(lookup_delete_ne _ attr_resolved) by congruence.
  now rewrite !lookup_insert_ne by congruence.
Qed.



Lemma quiet_elements (n : Dom.Node) :
  quiet self lang n = true ->
  forall attrs, In attrs (elementsOf n) ->
                translateElement self lang attrs = None.
Proof.
  induction n as [content|text|tg attrs cs IH] using node_induction;
    [intros _ a []..|].
  cbn [quiet elementsOf]. intros [Ht Hcs]%andb_true_iff a [<-|Hin].
  - now apply bool_decide_eq_true_1 in Ht.
  - apply in_concat in Hin as (l & Hl & Ha).
    apply in_map_iff in Hl as (c & <- & Hc).
    rewrite List.Forall_forall in IH. rewrite forallb_forall in Hcs.
    now apply (IH c Hc (Hcs c Hc)).
Qed.

Lemma translateElement_none (attrs : gmap string string) (k : string) :
  translateElement self lang attrs = None ->
  attrs !! attr_key = Some k ->
  Js.truthy k = true ->
  Dom.hasAttribute attr_resolved attrs = true
  /\ attrs !! attr_lang = Some lang.
Proof.
  unfold translateElement. intros H Hk Tk. rewrite Hk, Tk in H.
  cbn [andb] in H.
  destruct (Dom.hasAttribute attr_resolved attrs); [|discriminate].
  cbn [negb] in H. split; [reflexivity|].
  case_bool_decide as Hl; [discriminate|].
  destruct (decide (attrs !! attr_lang = Some lang)) as [E|E];
    [exact E | now destruct Hl].
Qed.

End ScannerWrites.



Lemma scanDocument_quiet (self : Tenlixor) (d : Dom.Document) :
  quiet self (currentLanguage self)
        (Dom.documentElement (scanDocument self d)) = true.
Proof.
  unfold scanDocument. set (lang := currentLanguage self).
  pose proof (attributePass_quiet self lang (Dom.documentElement d)) as Hq.
  destruct (attributePass self lang (Dom.documentElement d))
    as [content|tg attrs cs|text]; [reflexivity| |reflexivity].
  cbn [Dom.documentElement].
  destruct (Dom.isHtml tg); [|exact Hq].
  cbn [quiet] in *. apply andb_true_iff in Hq as [Ht Hcs].
  rewrite Ht. cbn [andb]. apply onBody_quiet; [|exact Hcs].
  intros b Hb. apply scanTextNodes_quiet; [exact Hb|].
  now apply bool_decide_eq_true_1 in Ht.
Qed.

(** The text pass of [scan] changes the content of text nodes and the three
    marker attributes, and nothing else: the tree it returns has the nodes
    of the tree it was given, with the same tags, comments and other
    attributes, in the same order, and the attributes of the parent element
    differ at most in the three markers. *)
Theorem scanTextNodes_keeps_the_tree (self : Tenlixor) (lang : string)
    (n : Dom.Node) (parent : gmap string string) :
  skeleton (fst (scanTextNodes self lang n parent)) = skeleton n
  /\ unmarked (snd (scanTextNodes self lang n parent)) = unmarked parent.
Proof.
  revert parent.
  induction n as [content|text|tg attrs cs IH] using node_induction;
    intros parent.
  - cbn [scanTextNodes].
    destruct (matchesKey self lang (Dom.trim content)); cbn [fst snd].
    + split; [reflexivity | apply unmarked_markParent].
    + now split.
  - now split.
  - rewrite scanTextNodes_element.
    destruct (Dom.hasAttribute attr_resolved attrs); [now split|].
    destruct (skippedTag tg); [now split|]. cbn [fst snd skeleton].
    split; [|reflexivity].
    enough (H : List.map skeleton (fst (scanChildren self lang cs attrs))
                = List.map skeleton cs
                /\ unmarked (snd (scanChildren self lang cs attrs))
                   = unmarked attrs)
      by (destruct H as [-> ->]; reflexivity).
    clear tg parent. revert attrs.
    induction IH as [|c cs Hc _ IHcs]; intros attrs; [now split|].
    cbn [scanChildren]. destruct (Hc attrs) as [Hc1 Hc2].
    destruct (scanTextNodes self lang c attrs) as [c' a1]. cbn [fst snd] in *.
    destruct (IHcs a1) as [Hr1 Hr2].
    destruct (scanChildren self lang cs a1) as [rest' a2]. cbn [fst snd] in *.
    split; [cbn [List.map]; now rewrite Hc1, Hr1 | now rewrite Hr2].
Qed.


(** After the two passes of [scan], every element of the document that
    carries a non-empty [data-txr-key] carries [data-txr-resolved] and has
    [data-txr-lang] equal to the current language. *)
Theorem scan_marks_every_keyed_element (self : Tenlixor) (d : Dom.Document)
    (attrs : gmap string string) (k : string) :
  In attrs (elementsOf (Dom.documentElement (scanDocument self d))) ->
  attrs !! attr_key = Some k ->
  k <> "" ->
  Dom.hasAttribute attr_resolved attrs = true
  /\ attrs !! attr_lang = Some (currentLanguage self).
Proof.
  intros Hin Hk Hne.
  apply (translateElement_none self _ attrs k); [|exact Hk|].
  - apply (quiet_elements self _ _ (scanDocument_quiet self d)), Hin.
  - now destruct k.
Qed.

Lemma scan_marks_every_keyed_element_witness :
  Dom.hasAttribute attr_resolved
    (markParent "en" "app.welcome" ∅) = true
  /\ markParent "en" "app.welcome" ∅ !! attr_lang
     = Some (currentLanguage (self readyOffline)).
Proof.
  apply (scan_marks_every_keyed_element (self readyOffline) page _
           "app.welcome").
  - vm_compute. right. right. right. now left.
  - reflexivity.
  - discriminate.
Defined.



(** ** The Angular pipe *)

(** [t] sees its language argument only through the effective language. *)
Lemma t_effectiveLanguage (s : Tenlixor) (k : string)
    (languageCode : option string) :
  t s k (Some (effectiveLanguage s languageCode)) = t s k languageCode.
Proof.
  assert (H : effectiveLanguage s (Some (effectiveLanguage s languageCode))
              = effectiveLanguage s languageCode).
  { unfold effectiveLanguage. unfold Js.orString at 1.
    destruct (Js.truthy (Js.orString languageCode (currentLanguage s))) eqn:E;
      [reflexivity|].
    unfold Js.orString in *. destruct languageCode as [x|]; [|reflexivity].
    destruct (Js.truthy x) eqn:Tx; [congruence | reflexivity]. }
  unfold t. now rewrite H.
Qed.

Lemma transform_memo (s : Tenlixor) (pipe : TxrTranslatePipe) (k : string)
    (languageCode : option string) :
  currentLanguage s <> "" ->
  memoOf s pipe ->
  fst (fst (transform (Some s) pipe k languageCode)) = t s k languageCode
  /\ memoOf s (snd (fst (transform (Some s) pipe k languageCode))).
Proof.
  intros Hcur Hmemo. unfold transform, getLanguage.
  pose proof (orString_truthy languageCode _ Hcur) as Hlang.
  pose proof (t_effectiveLanguage s k languageCode) as Ht.
  unfold effectiveLanguage in Ht.
  destruct (bool_decide (k = lastKey pipe)) eqn:Ek; cbn [andb];
    [destruct (bool_decide (Js.orString languageCode (currentLanguage s)
                            = lastLanguage pipe)) eqn:El|];
    cbn [fst snd].
  - apply bool_decide_eq_true_1 in Ek, El. subst k.
    split; [|exact Hmemo]. rewrite <- Ht, El. apply Hmemo. now rewrite <- El.
  - split; [reflexivity|]. intros _. cbn. now rewrite Ht.
  - split; [reflexivity|]. intros _. cbn. now rewrite Ht.
Qed.

(** Against an engine that does not change and whose current language is
    not empty, a new pipe returns for every call of [transform] what [t]
    returns for the same arguments, whatever the sequence of calls: the
    remembered value is returned only when it is the one [t] would give. *)
Theorem transform_agrees_with_t (s : Tenlixor)
    (l : list (string * option string)) :
  currentLanguage s <> "" ->
  transformAll s newPipe l = List.map (fun c => t s (fst c) (snd c)) l.
Proof.
  intros Hcur.
  assert (Hnew : memoOf s newPipe) by (intros H; now destruct H).
  revert Hnew. generalize newPipe as pipe.
  induction l as [|[k languageCode] rest IH]; intros pipe Hmemo;
    [reflexivity|].
  cbn [transformAll List.map fst snd].
  destruct (transform_memo s pipe k languageCode Hcur Hmemo) as [Hv Hp].
  destruct (transform (Some s) pipe k languageCode) as [[v pipe'] w].
  cbn [fst snd] in *. now rewrite Hv, (IH pipe' Hp).
Qed.

Lemma transform_agrees_with_t_witness :
  transformAll (self readyOffline) newPipe
    [("app.welcome", None); ("app.welcome", None); ("", Some "tr")]
  = List.map (fun c => t (self readyOffline) (fst c) (snd c))
      [("app.welcome", None); ("app.welcome", None); ("", Some "tr")].
Proof.
  apply (transform_agrees_with_t (self readyOffline)). discriminate.
Defined.

(** The pipe does not see the engine change.  After a call of [transform],
    a call with the same key for which the effective language is the same
    returns the value of the first call and leaves the pipe as it is,
    whatever the tables of the engine have become in between: a binding
    first rendered before the tables are loaded keeps showing what it
    showed. *)
Theorem transform_returns_the_remembered_value (s1 s2 : Tenlixor)
    (pipe : TxrTranslatePipe) (k : string) (languageCode : option string) :
  Js.orString languageCode (getLanguage s2)
  = Js.orString languageCode (getLanguage s1) ->
  let first := transform (Some s1) pipe k languageCode in
  transform (Some s2) (snd (fst first)) k languageCode
  = (fst (fst first), snd (fst first), []).
Proof.
  intros Hlang. cbn zeta. unfold transform at 2 3 4. 
  destruct (bool_decide (k = lastKey pipe)
            && bool_decide (Js.orString languageCode (getLanguage s1)
                            = lastLanguage pipe)) eqn:E; cbn [fst snd].
  - unfold transform. rewrite Hlang, E. reflexivity.
  - unfold transform. cbn [lastKey lastLanguage lastValue]. rewrite Hlang.
    now rewrite !bool_decide_eq_true_2 by reflexivity.
Qed.

Lemma transform_returns_the_remembered_value_witness :
  (let first := transform (Some acmeEngine) newPipe "app.welcome" None in
   transform (Some (self readyOffline)) (snd (fst first)) "app.welcome" None
   = (fst (fst first), snd (fst first), []))
  /\ fst (fst (transform (Some acmeEngine) newPipe "app.welcome" None))
     = "app.welcome"
  /\ t (self readyOffline) "app.welcome" None = "Welcome!".
Proof.
  split; [|split; reflexivity].
  apply (transform_returns_the_remembered_value acmeEngine
           (self readyOffline) newPipe "app.welcome" None).
  reflexivity.
Defined.

(** ** The available languages *)

Lemma plain_dom_mergeData (langs : list TenlixorLanguage)
    (l : Plain.Languages) :
  dom (Plain.own (Plain.mergeData
                    {| tenant_id := ""; languages := Some langs |} l))
  = dom (Plain.own l) ∪ (list_to_set (code <$> langs) ∖ {[ "__proto__" ]}).
Proof.
  induction langs as [|x langs IH] using rev_ind.
  - cbn. set_solver.
  - rewrite plain_mergeData_snoc, fmap_app, list_to_set_app_L.
    unfold Plain.assignLanguage. case_bool_decide as E; cbn [Plain.own].
    + rewrite IH. cbn. rewrite E. set_solver.
    + rewrite dom_insert_L, IH. cbn. set_solver.
Qed.

(** Merging a payload makes available exactly the languages that were
    available and the codes the payload lists, whether or not their blocks
    carry resources, the code [__proto__] excepted, which never becomes an
    own property; no language is ever removed. *)
Theorem mergeData_available_languages (d : TenlixorResponseData)
    (l : Plain.Languages) :
  Plain.getAvailableLanguages (Plain.mergeData d l)
  = Plain.getAvailableLanguages l
    ∪ (list_to_set (codesOf d) ∖ {[ "__proto__" ]}).
Proof.
  unfold Plain.getAvailableLanguages, codesOf.
  destruct (languages d) as [langs|] eqn:E.
  - rewrite (plain_mergeData_list _ _ _ E). apply plain_dom_mergeData.
  - unfold Plain.mergeData. rewrite E. set_solver.
Qed.

(** ** The own properties and the plain objects *)

Lemma plain_keyValueMap_ordinary (rs : option (list TenlixorResource)) :
  (forall l r, rs = Some l -> r ∈ l -> key r <> "__proto__") ->
  Plain.keyValueMap rs = keyValueMap rs.
Proof.
  intros Hrs. rewrite plain_keyValueMap_own. apply delete_id.
  destruct rs as [l|]; [|reflexivity].
  destruct (keyValueMap (Some l) !! "__proto__") as [v|] eqn:E; [|reflexivity].
  apply keyValueMap_sound in E as (r & Hin & Hk & _).
  now destruct (Hrs l r eq_refl Hin).
Qed.

Lemma plain_mergeData_ordinary (langs : list TenlixorLanguage)
    (tbl : gmap string (gmap string string))
    (proto : option (gmap string string)) :
  (forall lang, lang ∈ langs ->
     code lang <> "__proto__"
     /\ forall rs r, resources lang = Some rs -> r ∈ rs ->
                     key r <> "__proto__") ->
  Plain.mergeData {| tenant_id := ""; languages := Some langs |}
                  {| Plain.own := tbl; Plain.prototype := proto |}
  = {| Plain.own := mergeLanguages langs tbl; Plain.prototype := proto |}.
Proof.
  induction langs as [|x langs IH] using rev_ind; intros Hord; [reflexivity|].
  rewrite plain_mergeData_snoc, mergeLanguages_snoc, IH by set_solver.
  destruct (Hord x) as [Hc Hk]; [set_solver|].
  unfold Plain.assignLanguage. rewrite bool_decide_eq_false_2 by exact Hc.
  cbn [Plain.own Plain.prototype].
  rewrite plain_keyValueMap_ordinary; [reflexivity|].
  intros l r Hrs Hin. now apply (Hk l r).
Qed.

(** Where no name involved is one that [Object.prototype] defines, the
    engine seen through the own properties of its tables is the engine on
    the plain objects: [t] returns what the reads through the prototype
    give, and [mergeData] stores what the assignments store. *)
Theorem own_properties_are_the_plain_objects :
  (forall (self : Tenlixor) (k : string) (languageCode : option string),
     Plain.inherited (effectiveLanguage self languageCode) = false ->
     Plain.inherited (config_fallbackLanguage (config self)) = false ->
     Plain.inherited k = false ->
     Plain.t (Plain.languagesOf self) (currentLanguage self)
             (config_fallbackLanguage (config self)) k languageCode
     = Plain.Returns (t self k languageCode)) /\
  (forall (d : TenlixorResponseData) (store : TenlixorDataStore)
          (proto : option (gmap string string)),
     ordinaryPayload d ->
     Plain.mergeData d {| Plain.own := store_languages store;
                          Plain.prototype := proto |}
     = {| Plain.own := store_languages (mergeData d store);
          Plain.prototype := proto |}).
Proof.
  split; [apply plain_t_own|].
  intros d store proto Hord. unfold mergeData.
  destruct (languages d) as [langs|] eqn:E.
  - rewrite (plain_mergeData_list _ _ _ E). cbn [store_languages].
    apply plain_mergeData_ordinary. intros lang Hin.
    now apply (Hord langs lang).
  - unfold Plain.mergeData. now rewrite E.
Qed.
